(** * QIDI auto Z-offset: a shallow embedding of the Klipper modules

    Two Python modules are embedded:
    - [auto_z_offset.py]      (the variant built on Klipper's probe helpers),
      in [Module Full];
    - [auto_z_offset_lite.py] (the stand-alone rewrite), in [Module Lite].

    Conventions of the embedding.
    - Python floats are read as exact rationals ([Q]); the rounding of float
      arithmetic is not modelled.  An event of the trace keeps the number
      that a script, a message or a configuration write formats; what the
      printer takes from [SET_GCODE_OFFSET Z=%f] is that number rounded to
      six decimals ([format_f]).  An acceleration limit is taken to have at
      most three decimals, as every limit set by [M204 S%.3f] has.
    - Methods become functions in a state-and-exception monad over a [World]:
      the Python object ([self]) together with the printer it talks to.
    - Every call that leaves the module (G-code scripts, toolhead moves,
      probing moves, status reads, console messages, config writes) is
      appended to the printer's [trace], in program order;
      [toolhead.set_position] redefines the position the toolhead reads and
      shows there only.
    - [str.split()] cuts at Python's whitespace characters; which characters
      these are is a parameter of the discovery of the Z steppers' drivers.
    - The outcome of each probing primitive is supplied by the printer's
      [future] list, one entry per probing call, oldest first.
    - Exceptions come from a probing primitive that does not trigger, from
      the tolerance check of a sampling session, and from a result policy
      without samples; the other external calls are taken to return.

    The file has three parts: the embedding of the two modules, the
    vocabulary of the statements, and the properties with their proofs. *)

From Stdlib Require Import QArith Qminmax Qround Qabs List String Bool Lia Lqa
  Arith.
From Stdlib Require Import Sorting.Permutation Sorting.Sorted.
From stdpp Require Import gmap strings.
Import ListNotations.

Local Open Scope string_scope.
Local Open Scope list_scope.

(** ** Exceptions and results *)

Inductive Exn : Type :=
| ProbeFault          (* the external probing primitive raised *)
| SamplesTolerance    (* gcmd.error("Probe samples exceed samples_tolerance") *)
| ProbeStateError     (* self._probe_state_error() *)
| OutOfFuel           (* the bound of a modelled while loop; never raised *)
| ZeroDivisionError   (* a mean over no sample *)
| AttributeError.     (* an attribute read before it was ever assigned *)

Inductive Res (A : Type) : Type :=
| Ok (a : A)
| Raise (e : Exn).
Arguments Ok {A} a.
Arguments Raise {A} e.

(** ** Positions

    Klipper hands probe positions back either as a plain 3-element
    list/tuple or as a [ProbeResult] named tuple. *)

Inductive Position : Type :=
| Plain (x y z : Q)
| ProbeResult (bed_x bed_y bed_z test_x test_y test_z : Q).

Definition _get_pos_z (position : Position) : Q :=
  match position with
  | ProbeResult _ _ bed_z _ _ _ => bed_z
  | Plain _ _ z => z
  end.

Definition _get_pos_xyz (position : Position) : Q * Q * Q :=
  match position with
  | ProbeResult bed_x bed_y bed_z _ _ _ => (bed_x, bed_y, bed_z)
  | Plain x y z => (x, y, z)
  end.

(** [_replace(bed_z=...)] on a [ProbeResult]; a plain list or tuple is
    rebuilt with index 2 changed (and comes back as a tuple). *)
Definition _adjust_pos_z_offset (position : Position) (z_offset : Q) : Position :=
  match position with
  | ProbeResult bx by_ bz tx ty tz => ProbeResult bx by_ (bz - z_offset) tx ty tz
  | Plain x y z => Plain x y (z - z_offset)
  end.

(** ** The printer: what the modules talk to *)

(** The toolhead position [[x, y, z, e]]. *)
Record Coord : Type := mkCoord { pos_x : Q; pos_y : Q; pos_z : Q; pos_e : Q }.

(** Scripts handed to [gcode.run_script_from_command]. *)
Inductive Script : Type :=
| SET_TMC_CURRENT (stepper : string) (current : Q)
    (* "SET_TMC_CURRENT STEPPER=%s CURRENT=%.3f" *)
| SET_GCODE_OFFSET_Z0
    (* "SET_GCODE_OFFSET Z=0 MOVE=0" *)
| SET_GCODE_OFFSET_Z (offset : Q)
    (* "SET_GCODE_OFFSET Z=%f MOVE=0" *)
| M204_S (accel : Q)
    (* "M204 S%.3f" *)
| PREPARE_GCODE
    (* self.prepare_gcode.render() *)
| PROBE_SAMPLES_1.
    (* "PROBE SAMPLES=1" *)

Inductive Sensor : Type := BedSensor | InductiveProbe.

Inductive FmtArg : Type :=
| AStr (s : string)
| ANum (q : Q).

Inductive SamplesResult : Type := Average | Median.

Inductive Event : Type :=
| EvScript (s : Script)                       (* gcode.run_script_from_command *)
| EvMove (coord : list (option Q)) (speed : Q) (* toolhead.manual_move *)
| EvGetStatus                                  (* toolhead.get_status(systime) *)
| EvProbingMove (target : Coord) (speed : Q)   (* homing.probing_move *)
| EvRunSingleProbe (sensor : Sensor)           (* probe.run_single_probe *)
| EvProbe                                      (* ProbeSessionHelper._probe *)
| EvProbeWrapper (method : string)             (* self.probe_wrapper.<method> *)
| EvCalcAverage (positions : list Position) (method : SamplesResult)
                                               (* probe.calc_probe_z_average *)
| EvRespond (fmt : string) (args : list FmtArg) (* gcmd.respond_info *)
| EvConfigSet (section key : string) (value : Q). (* configfile.set *)

(** One probing primitive either triggers, leaving the toolhead somewhere and
    handing a position back, or raises, leaving the toolhead where the failed
    move took it (at its target, when the move was made in full without a
    trigger). *)
Inductive ProbeOutcome : Type :=
| Triggered (toolhead_after : Coord) (result : Position)
| Fault (toolhead_after : Coord).

Record Printer : Type := mkPrinter {
  toolhead : Coord;            (* toolhead.get_position() *)
  max_accel : Q;               (* toolhead.get_status(..)['max_accel'] *)
  homing_position_z : Q;       (* gcode_move.homing_position[2] *)
  future : list ProbeOutcome;  (* outcomes of the probing calls still to come *)
  trace : list Event           (* every external call made so far *)
}.

Record World (Obj : Type) : Type := mkWorld { self : Obj; printer : Printer }.
Arguments mkWorld {Obj} self printer.
Arguments self {Obj} w.
Arguments printer {Obj} w.

(** ** The state-and-exception monad *)

Section Monad.
Context {Obj : Type}.

Definition M (A : Type) : Type := World Obj -> Res A * World Obj.

Definition ret {A} (a : A) : M A := fun w => (Ok a, w).

Definition bind {A B} (m : M A) (k : A -> M B) : M B :=
  fun w =>
    match m w with
    | (Ok a, w') => k a w'
    | (Raise ex, w') => (Raise ex, w')
    end.

Definition raise {A} (ex : Exn) : M A := fun w => (Raise ex, w).

(** [try: body finally: cleanup]: the cleanup runs on both exits of the
    body; an exception of the body is re-raised after it, unless the cleanup
    raises itself. *)
Definition try_finally {A} (body : M A) (cleanup : M unit) : M A :=
  fun w =>
    match body w with
    | (r, w') =>
        match cleanup w' with
        | (Ok _, w'') => (r, w'')
        | (Raise ex, w'') => (Raise ex, w'')
        end
    end.

Definition get_self : M Obj := fun w => (Ok (self w), w).
Definition set_self (o : Obj) : M unit :=
  fun w => (Ok tt, mkWorld o (printer w)).
Definition get_printer : M Printer := fun w => (Ok (printer w), w).
Definition set_printer (p : Printer) : M unit :=
  fun w => (Ok tt, mkWorld (self w) p).
End Monad.

(** ** Numbers sent as text

    A script carries its numbers as decimal text, which the printer reads
    back: ['%f' % x] is [x] rounded to six decimals, a half going to the
    even neighbour. *)

Definition round_half_even (q : Q) : Z :=
  let below := Qfloor q in
  match (q - inject_Z below ?= 1 # 2)%Q with
  | Lt => below
  | Gt => (below + 1)%Z
  | Eq => if Z.even below then below else (below + 1)%Z
  end.

(** The number that ['%f' % x] (and ['%.6f' % x]) denotes. *)
Definition format_f (x : Q) : Q :=
  (inject_Z (round_half_even (x * 1000000)) / 1000000)%Q.

Declare Scope monad_scope.
Delimit Scope monad_scope with monad.
Notation "x <- m ;; k" := (bind m (fun x => k))
  (at level 100, m at next level, right associativity) : monad_scope.
Notation "m ;;; k" := (bind m (fun _ => k))
  (at level 100, right associativity) : monad_scope.
Local Open Scope monad_scope.

Section Primitives.
Context {Obj : Type}.

Definition log (ev : Event) (p : Printer) : Printer :=
  mkPrinter (toolhead p) (max_accel p) (homing_position_z p) (future p)
            (trace p ++ [ev]).

Definition emit (ev : Event) : M (Obj := Obj) unit :=
  p <- get_printer ;; set_printer (log ev p).

(** The next probing call: its outcome comes from [future].  A printer whose
    [future] is exhausted raises before it moves, as a probe that reports
    itself triggered prior to the movement does. *)
Definition next_probe : M (Obj := Obj) Position :=
  p <- get_printer ;;
  match future p with
  | Triggered after result :: rest =>
      set_printer (mkPrinter after (max_accel p) (homing_position_z p) rest
                             (trace p)) ;;;
      ret result
  | Fault after :: rest =>
      set_printer (mkPrinter after (max_accel p) (homing_position_z p) rest
                             (trace p)) ;;;
      raise ProbeFault
  | [] => raise ProbeFault
  end.

(** [gcode.run_script_from_command]: M204 sets the acceleration limit,
    SET_GCODE_OFFSET the runtime Z offset, PROBE runs the inductive probe;
    the driver and macro scripts only show in the trace.  The runtime offset
    becomes the number the text ['Z=%f'] denotes.  An acceleration limit is
    taken to have no more than the three decimals of ['M204 S%.3f'], so that
    the limit becomes the number sent. *)
Definition run_script_from_command (s : Script) : M (Obj := Obj) unit :=
  emit (EvScript s) ;;;
  p <- get_printer ;;
  match s with
  | M204_S a =>
      set_printer (mkPrinter (toolhead p) a (homing_position_z p) (future p)
                             (trace p))
  | SET_GCODE_OFFSET_Z0 =>
      set_printer (mkPrinter (toolhead p) (max_accel p) 0%Q (future p)
                             (trace p))
  | SET_GCODE_OFFSET_Z o =>
      set_printer (mkPrinter (toolhead p) (max_accel p) (format_f o)
                             (future p) (trace p))
  | PROBE_SAMPLES_1 => next_probe ;;; ret tt
  | SET_TMC_CURRENT _ _ | PREPARE_GCODE => ret tt
  end.

(** [toolhead.manual_move(coord, speed)]: entries of [coord] that are not
    [None] replace the matching entries of the current position. *)
Definition apply_coord (coord : list (option Q)) (cur : Coord) : Coord :=
  let pick (i : nat) (d : Q) : Q :=
    match nth_error coord i with
    | Some (Some q) => q
    | _ => d
    end in
  mkCoord (pick 0%nat (pos_x cur)) (pick 1%nat (pos_y cur))
          (pick 2%nat (pos_z cur)) (pick 3%nat (pos_e cur)).

Definition manual_move (coord : list (option Q)) (speed : Q)
  : M (Obj := Obj) unit :=
  emit (EvMove coord speed) ;;;
  p <- get_printer ;;
  set_printer (mkPrinter (apply_coord coord (toolhead p)) (max_accel p)
                         (homing_position_z p) (future p) (trace p)).

Definition get_position : M (Obj := Obj) Coord :=
  p <- get_printer ;; ret (toolhead p).

(** [toolhead.get_status(systime)['max_accel']] *)
Definition get_status_max_accel : M (Obj := Obj) Q :=
  emit EvGetStatus ;;;
  p <- get_printer ;; ret (max_accel p).

Definition respond_info (fmt : string) (args : list FmtArg)
  : M (Obj := Obj) unit :=
  emit (EvRespond fmt args).

Definition configfile_set (section key : string) (value : Q)
  : M (Obj := Obj) unit :=
  emit (EvConfigSet section key value).

(** [toolhead.set_position(newpos, homing_axes=(0, 1, 2))]: the toolhead
    takes [newpos] as its position, without a move; the call only changes
    what [get_position] reads. *)
Definition set_position (newpos : Coord) : M (Obj := Obj) unit :=
  p <- get_printer ;;
  set_printer (mkPrinter newpos (max_accel p) (homing_position_z p) (future p)
                         (trace p)).
End Primitives.

(** ** ZStepperCurrentHelper

    The class is the same in both files up to attribute names
    ([probe_current_factor]/[factor], [_saved_currents]/[_saved]).
    [_saved_currents] is a dict that is only iterated, in insertion order:
    an association list. *)

Record ZStepperCurrentHelper : Type := mkHelper {
  probe_current_factor : Q;
  _saved_currents : list (string * Q);
  _is_reduced : bool;
  _hold : bool
}.

Definition set_is_reduced (b : bool) (h : ZStepperCurrentHelper) :=
  mkHelper (probe_current_factor h) (_saved_currents h) b (_hold h).

Definition set_hold (b : bool) (h : ZStepperCurrentHelper) :=
  mkHelper (probe_current_factor h) (_saved_currents h) (_is_reduced h) b.

(** The scripts [reduce] issues, and the helper afterwards. *)
Definition reduce (h : ZStepperCurrentHelper)
  : list Script * ZStepperCurrentHelper :=
  if _is_reduced h then ([], h)
  else (map (fun '(stepper_name, nominal) =>
               SET_TMC_CURRENT stepper_name
                               (nominal * probe_current_factor h)%Q)
            (_saved_currents h),
        set_is_reduced true h).

Definition restore (h : ZStepperCurrentHelper)
  : list Script * ZStepperCurrentHelper :=
  if negb (_is_reduced h) || _hold h then ([], h)
  else (map (fun '(stepper_name, nominal) =>
               SET_TMC_CURRENT stepper_name nominal)
            (_saved_currents h),
        set_is_reduced false h).

Section HelperCalls.
Context {Obj : Type}.
Variable get_helper : Obj -> ZStepperCurrentHelper.
Variable set_helper : ZStepperCurrentHelper -> Obj -> Obj.

Fixpoint run_scripts (scripts : list Script) : M (Obj := Obj) unit :=
  match scripts with
  | [] => ret tt
  | s :: rest => run_script_from_command s ;;; run_scripts rest
  end.

(** A call of [reduce()]/[restore()] on the helper owned by [self]. *)
Definition call_helper
    (method : ZStepperCurrentHelper -> list Script * ZStepperCurrentHelper)
  : M (Obj := Obj) unit :=
  o <- get_self ;;
  run_scripts (fst (method (get_helper o))) ;;;
  set_self (set_helper (snd (method (get_helper o))) o).

(** [helper._hold = b] *)
Definition assign_hold (b : bool) : M (Obj := Obj) unit :=
  o <- get_self ;;
  set_self (set_helper (set_hold b (get_helper o)) o).
End HelperCalls.

(** ** Discovery of the Z steppers' drivers

    [_handle_ready] ([_on_ready] in the lite file) runs once Klipper is
    ready: it walks [printer.lookup_objects()] and records the run current
    of every object named like a TMC driver of a Z stepper. *)

(** A registered object, as far as discovery looks at it:
    [obj.get_status(None).get('run_current')]. *)
Record PrinterObject : Type := mkPrinterObject {
  run_current : option Q
}.

(** [d[key] = value] on a dict kept in insertion order: an existing key
    keeps its place and takes the new value, a new key goes to the end. *)
Fixpoint dict_set {V : Type} (key : string) (value : V)
    (d : list (string * V)) : list (string * V) :=
  match d with
  | [] => [(key, value)]
  | (k, v) :: rest =>
      if String.eqb k key then (k, value) :: rest
      else (k, v) :: dict_set key value rest
  end.

Section Discovery.
(** Python's test for a whitespace character, by which [str.split()] cuts. *)
Variable isspace : Ascii.ascii -> bool.

(** [name.split()]: the words between runs of whitespace; [word] is the word
    read so far. *)
Fixpoint split_from (word : string) (s : string) : list string :=
  match s with
  | EmptyString =>
      match word with
      | EmptyString => []
      | _ => [word]
      end
  | String c rest =>
      if isspace c
      then match word with
           | EmptyString => split_from EmptyString rest
           | _ => word :: split_from EmptyString rest
           end
      else split_from (String.append word (String c EmptyString)) rest
  end.

Definition split (s : string) : list string := split_from EmptyString s.

(** The stepper a registered name stands for, when the name reads
    [tmc... stepper_z...]:
    [len(parts) == 2 and parts[0].startswith('tmc')
     and parts[1].startswith('stepper_z')]. *)
Definition z_stepper_of (name : string) : option string :=
  match split name with
  | [part0; part1] =>
      if String.prefix "tmc" part0 && String.prefix "stepper_z" part1
      then Some part1
      else None
  | _ => None
  end.

(** [ZStepperCurrentHelper._on_ready] of auto_z_offset_lite.py, on the
    [_saved] dict. *)
Fixpoint _on_ready_saved (objects : list (string * PrinterObject))
    (saved : list (string * Q)) : list (string * Q) :=
  match objects with
  | [] => saved
  | (name, obj) :: rest =>
      _on_ready_saved rest
        (match z_stepper_of name with
         | Some stepper_name =>
             match run_current obj with
             | Some cur => dict_set stepper_name cur saved
             | None => saved
             end
         | None => saved
         end)
  end.

Definition _on_ready (objects : list (string * PrinterObject))
    (h : ZStepperCurrentHelper) : ZStepperCurrentHelper :=
  mkHelper (probe_current_factor h)
           (_on_ready_saved objects (_saved_currents h))
           (_is_reduced h) (_hold h).

(** [ZStepperCurrentHelper._handle_ready] of auto_z_offset.py: the same walk,
    which also files every matching object under [_z_steppers]; that dict is
    written here and read nowhere in the module. *)
Fixpoint _handle_ready_dicts (objects : list (string * PrinterObject))
    (z_steppers : list (string * PrinterObject)) (saved : list (string * Q))
  : list (string * PrinterObject) * list (string * Q) :=
  match objects with
  | [] => (z_steppers, saved)
  | (name, obj) :: rest =>
      match z_stepper_of name with
      | Some stepper_name =>
          _handle_ready_dicts rest
            (dict_set stepper_name obj z_steppers)
            (match run_current obj with
             | Some cur => dict_set stepper_name cur saved
             | None => saved
             end)
      | None => _handle_ready_dicts rest z_steppers saved
      end
  end.

Definition _handle_ready (objects : list (string * PrinterObject))
    (z_steppers : list (string * PrinterObject)) (h : ZStepperCurrentHelper)
  : list (string * PrinterObject) * ZStepperCurrentHelper :=
  let dicts := _handle_ready_dicts objects z_steppers (_saved_currents h) in
  (fst dicts,
   mkHelper (probe_current_factor h) (snd dicts) (_is_reduced h) (_hold h)).
End Discovery.

Definition Qgtb (a b : Q) : bool := negb (Qle_bool a b).

(** Values found in a status dict. *)
Inductive StatusValue : Type :=
| VNum (q : Q)
| VStr (s : string)
| VCoord (x y z : Q).

(** * auto_z_offset_lite.py *)

Module Lite.

Record AutoZOffset : Type := mkAutoZOffset {
  name : string;
  z_offset : Q;
  probe_hop : Q;
  probe_speed : Q;
  lift_speed : Q;
  probe_accel : Q;
  offset_samples : positive;   (* config.getint('offset_samples', 3, minval=1) *)
  calibrated_z_offset : Q;
  xy_speed : Q;
  center_x : Q;
  center_y : Q;
  z_min : Q;
  _skip_prepare : bool;
  z_current : ZStepperCurrentHelper;
  last_bed_z : Q;
  _ind_x_off : Q;
  _ind_y_off : Q
}.

Definition set_calibrated_z_offset (v : Q) (o : AutoZOffset) : AutoZOffset :=
  mkAutoZOffset (name o) (z_offset o) (probe_hop o) (probe_speed o)
    (lift_speed o) (probe_accel o) (offset_samples o) v (xy_speed o)
    (center_x o) (center_y o) (z_min o) (_skip_prepare o) (z_current o)
    (last_bed_z o) (_ind_x_off o) (_ind_y_off o).

Definition set_skip_prepare (b : bool) (o : AutoZOffset) : AutoZOffset :=
  mkAutoZOffset (name o) (z_offset o) (probe_hop o) (probe_speed o)
    (lift_speed o) (probe_accel o) (offset_samples o)
    (calibrated_z_offset o) (xy_speed o) (center_x o) (center_y o) (z_min o)
    b (z_current o) (last_bed_z o) (_ind_x_off o) (_ind_y_off o).

Definition set_z_current (h : ZStepperCurrentHelper) (o : AutoZOffset)
  : AutoZOffset :=
  mkAutoZOffset (name o) (z_offset o) (probe_hop o) (probe_speed o)
    (lift_speed o) (probe_accel o) (offset_samples o)
    (calibrated_z_offset o) (xy_speed o) (center_x o) (center_y o) (z_min o)
    (_skip_prepare o) h (last_bed_z o) (_ind_x_off o) (_ind_y_off o).

Definition set_last_bed_z (v : Q) (o : AutoZOffset) : AutoZOffset :=
  mkAutoZOffset (name o) (z_offset o) (probe_hop o) (probe_speed o)
    (lift_speed o) (probe_accel o) (offset_samples o)
    (calibrated_z_offset o) (xy_speed o) (center_x o) (center_y o) (z_min o)
    (_skip_prepare o) (z_current o) v (_ind_x_off o) (_ind_y_off o).

Abbreviation M := (M (Obj := AutoZOffset)).

Definition z_current_reduce : M unit := call_helper z_current set_z_current reduce.
Definition z_current_restore : M unit := call_helper z_current set_z_current restore.
Definition z_current_hold (b : bool) : M unit := assign_hold z_current set_z_current b.

(** *** Movement primitives *)

Definition _get_z : M Q := pos <- get_position ;; ret (pos_z pos).

Definition _move_to_center : M unit :=
  o <- get_self ;;
  cur <- _get_z ;;
  manual_move [Some (center_x o); Some (center_y o);
               Some (Qmax cur (probe_hop o))] (xy_speed o).

Definition _lift : M unit :=
  o <- get_self ;;
  cur <- _get_z ;;
  manual_move [None; None; Some (cur + probe_hop o)%Q] (lift_speed o).

(** *** Low-level probing *)

(** [phoming.probing_move(self.bed_endstop, pos, self.probe_speed)] *)
Definition probing_move (pos : Coord) (speed : Q) : M unit :=
  emit (EvProbingMove pos speed) ;;;
  next_probe ;;; ret tt.

Definition _probe_bed_sensor : M Q :=
  o <- get_self ;;
  cur <- get_position ;;
  let pos := mkCoord (pos_x cur) (pos_y cur) (z_min o) (pos_e cur) in
  old_accel <-
    (if Qgtb (probe_accel o) 0
     then (a <- get_status_max_accel ;;
           run_script_from_command (M204_S (probe_accel o)) ;;;
           ret (Some a))
     else ret None) ;;
  try_finally
    (probing_move pos (probe_speed o))
    (match old_accel with
     | Some a => run_script_from_command (M204_S a)
     | None => ret tt
     end) ;;;
  _get_z.

Definition _probe_inductive : M Q :=
  run_script_from_command PROBE_SAMPLES_1 ;;;
  _get_z.

(** *** G-code commands *)

Definition cmd_probe : M unit :=
  o <- get_self ;;
  (if negb (_skip_prepare o)
   then run_script_from_command PREPARE_GCODE
   else ret tt) ;;;
  z_current_reduce ;;;
  try_finally
    (bed_z <- _probe_bed_sensor ;;
     o <- get_self ;;
     set_self (set_last_bed_z bed_z o))
    z_current_restore ;;;
  o <- get_self ;;
  respond_info "%s: bed sensor trigger Z: %.6f"
               [AStr (name o); ANum (last_bed_z o)].

Definition cmd_home_z : M unit :=
  _move_to_center ;;;
  cmd_probe ;;;
  p <- get_position ;;
  o <- get_self ;;
  set_position (mkCoord (pos_x p) (pos_y p) (z_offset o) (pos_e p)) ;;;
  _lift.

Definition cmd_measure_offset : M Q :=
  _move_to_center ;;;
  cmd_probe ;;;
  _lift ;;;
  (* Move inductive probe over the same XY *)
  o <- get_self ;;
  coord <- get_position ;;
  manual_move [Some (center_x o - _ind_x_off o)%Q;
               Some (center_y o - _ind_y_off o)%Q;
               Some (pos_z coord); Some (pos_e coord)] (xy_speed o) ;;;
  inductive_z <- _probe_inductive ;;
  o <- get_self ;;
  let offset := (last_bed_z o - inductive_z)%Q in
  respond_info
    "%s: true nozzle offset: %.6f  (bed_z=%.6f, inductive_z=%.6f)"
    [AStr (name o); ANum offset; ANum (last_bed_z o); ANum inductive_z] ;;;
  _lift ;;;
  ret offset.

Definition cmd_load_offset : M unit :=
  o <- get_self ;;
  run_script_from_command (SET_GCODE_OFFSET_Z (calibrated_z_offset o)) ;;;
  respond_info "%s: applied calibrated_z_offset: %.6f"
               [AStr (name o); ANum (calibrated_z_offset o)].

Definition _store : M unit :=
  o <- get_self ;;
  configfile_set (name o) "calibrated_z_offset" (calibrated_z_offset o) ;;;
  respond_info
    "%s: calibrated_z_offset: %.6f\nThe SAVE_CONFIG command will update the printer config file\nwith the above and restart the printer."
    [AStr (name o); ANum (calibrated_z_offset o)].

(** [for _ in range(n): total += self.cmd_measure_offset(gcmd)] *)
Fixpoint measure_loop (n : nat) (total : Q) : M Q :=
  match n with
  | O => ret total
  | S n' => r <- cmd_measure_offset ;; measure_loop n' (total + r)%Q
  end.

Definition cmd_calibrate : M unit :=
  run_script_from_command SET_GCODE_OFFSET_Z0 ;;;
  (* Prepare / reduce current once for entire loop *)
  run_script_from_command PREPARE_GCODE ;;;
  (o <- get_self ;; set_self (set_skip_prepare true o)) ;;;
  z_current_reduce ;;;
  z_current_hold true ;;;
  total <-
    try_finally
      (o <- get_self ;; measure_loop (Pos.to_nat (offset_samples o)) 0%Q)
      (z_current_hold false ;;;
       z_current_restore ;;;
       o <- get_self ;; set_self (set_skip_prepare false o)) ;;
  _move_to_center ;;;
  o <- get_self ;;
  set_self (set_calibrated_z_offset
              (- (total / inject_Z (Zpos (offset_samples o))))%Q o) ;;;
  cmd_load_offset ;;;
  _store.


Definition get_status (eventtime : Q) : M (gmap string StatusValue) :=
  o <- get_self ;;
  ret (<["last_bed_z" := VNum (last_bed_z o)]>
       (<["calibrated_z_offset" := VNum (calibrated_z_offset o)]> ∅)).

End Lite.

(** * auto_z_offset.py *)

(** Modelled from the spec: the arithmetic mean of [probe.calc_probe_z_average],
    component by component. *)
Definition mean_position (positions : list Position) : Position :=
  let count := inject_Z (Z.of_nat (length positions)) in
  let total (f : Q * Q * Q -> Q) :=
    fold_left Qplus (map (fun p => f (_get_pos_xyz p)) positions) 0%Q in
  Plain (total (fun c => fst (fst c)) / count)
        (total (fun c => snd (fst c)) / count)
        (total (fun c => snd c) / count).

(** Modelled from the spec: [probe.calc_probe_z_average] belongs to Klipper's
    own [probe.py], which is outside these sources.  Section 4.3, step 5:
    the remaining samples are reduced by the configured result policy,
    arithmetic mean by default, median as the alternative.  A reduction of
    no sample at all has no value: it raises.  [z_sorted] is the sort by z
    the median needs. *)
Definition calc_probe_z_average (z_sorted : list Position -> list Position)
    (positions : list Position) (method : SamplesResult) : Res Position :=
  match positions with
  | [] => Raise ZeroDivisionError
  | first :: _ =>
      match method with
      | Average => Ok (mean_position positions)
      | Median =>
          let sorted := z_sorted positions in
          let middle := Nat.div (length positions) 2 in
          if Nat.odd (length positions)
          then Ok (nth middle sorted first)
          else Ok (mean_position (firstn 2 (skipn (middle - 1) sorted)))
      end
  end.

Module Full.

(** What [param_helper.get_probe_params(gcmd)] returns (Klipper's
    [ProbeParameterHelper]); only the entries read here. *)
Record ProbeParams : Type := mkProbeParams {
  samples : nat;
  samples_tolerance : Q;
  samples_tolerance_retries : nat;
  sample_retract_dist : Q;
  lift_speed : Q;
  samples_result : SamplesResult
}.

(** The object [printer.lookup_object("probe")], as far as
    [_get_probe_xy_offsets] looks at it. *)
Inductive ProbeObj : Type :=
| WithProbeOffsets (x_offset y_offset : Q)   (* has .probe_offsets *)
| WithGetOffsets (offsets : list Q)          (* only .get_offsets() *)
| WithoutOffsets.                            (* get_offsets raises *)

Definition _get_probe_xy_offsets (probe_obj : ProbeObj) : Q * Q :=
  match probe_obj with
  | WithProbeOffsets x_offset y_offset => (x_offset, y_offset)
  | WithGetOffsets (o0 :: o1 :: _) => (o0, o1)
  | _ => (0%Q, 0%Q)
  end.

Record AutoZOffsetEndstopWrapper : Type := mkWrapper {
  probe_accel : Q;
  skip_prepare : bool;
  old_max_accel : option Q   (* assigned by the first probe_prepare only *)
}.

Record AutoZOffsetCommandHelper : Type := mkCommandHelper {
  name : string;
  xy_move_speed : Q;
  z_offset : Q;
  probe_hop : Q;
  offset_samples : positive;   (* config.getint('offset_samples', 3, minval=1) *)
  calibrated_z_offset : Q;
  bed_center_x : Q;
  bed_center_y : Q;
  z_current_helper : ZStepperCurrentHelper;
  last_probe_position : Q * Q * Q;
  last_z_result : Q
}.

Record AutoZOffsetSessionHelper : Type := mkSessionHelper {
  probe_z_offset : Q;           (* lookup_object("probe").get_offsets()[2] *)
  hw_probe_session : bool;      (* is not None *)
  results : list Position
}.

(** [AutoZOffsetProbe], the object registered as "auto_z_offset".  The
    command helper's [endstop_wrapper] is this object's [mcu_probe]: one
    wrapper, stored once. *)
Record AutoZOffsetProbe : Type := mkProbe {
  mcu_probe : AutoZOffsetEndstopWrapper;
  cmd_helper : AutoZOffsetCommandHelper;
  probe_session : AutoZOffsetSessionHelper;
  param_helper : ProbeParams;
  inductive_probe : ProbeObj
}.

Definition set_mcu_probe (m : AutoZOffsetEndstopWrapper) (o : AutoZOffsetProbe) :=
  mkProbe m (cmd_helper o) (probe_session o) (param_helper o) (inductive_probe o).

Definition set_cmd_helper (c : AutoZOffsetCommandHelper) (o : AutoZOffsetProbe) :=
  mkProbe (mcu_probe o) c (probe_session o) (param_helper o) (inductive_probe o).

Definition set_probe_session (s : AutoZOffsetSessionHelper) (o : AutoZOffsetProbe) :=
  mkProbe (mcu_probe o) (cmd_helper o) s (param_helper o) (inductive_probe o).

Definition set_skip_prepare (b : bool) (m : AutoZOffsetEndstopWrapper) :=
  mkWrapper (probe_accel m) b (old_max_accel m).

Definition set_old_max_accel (a : Q) (m : AutoZOffsetEndstopWrapper) :=
  mkWrapper (probe_accel m) (skip_prepare m) (Some a).

Definition set_z_current_helper (h : ZStepperCurrentHelper)
    (c : AutoZOffsetCommandHelper) :=
  mkCommandHelper (name c) (xy_move_speed c) (z_offset c) (probe_hop c)
    (offset_samples c) (calibrated_z_offset c) (bed_center_x c)
    (bed_center_y c) h (last_probe_position c) (last_z_result c).

Definition set_calibrated_z_offset (v : Q) (c : AutoZOffsetCommandHelper) :=
  mkCommandHelper (name c) (xy_move_speed c) (z_offset c) (probe_hop c)
    (offset_samples c) v (bed_center_x c) (bed_center_y c)
    (z_current_helper c) (last_probe_position c) (last_z_result c).

Definition set_last_probe (position : Q * Q * Q) (z_result : Q)
    (c : AutoZOffsetCommandHelper) :=
  mkCommandHelper (name c) (xy_move_speed c) (z_offset c) (probe_hop c)
    (offset_samples c) (calibrated_z_offset c) (bed_center_x c)
    (bed_center_y c) (z_current_helper c) position z_result.

Definition append_result (epos : Position) (s : AutoZOffsetSessionHelper) :=
  mkSessionHelper (probe_z_offset s) (hw_probe_session s) (results s ++ [epos]).

Abbreviation M := (M (Obj := AutoZOffsetProbe)).

Definition get_cmd : M AutoZOffsetCommandHelper :=
  o <- get_self ;; ret (cmd_helper o).

Definition update_cmd (f : AutoZOffsetCommandHelper -> AutoZOffsetCommandHelper)
  : M unit :=
  o <- get_self ;; set_self (set_cmd_helper (f (cmd_helper o)) o).

Definition update_wrapper
    (f : AutoZOffsetEndstopWrapper -> AutoZOffsetEndstopWrapper) : M unit :=
  o <- get_self ;; set_self (set_mcu_probe (f (mcu_probe o)) o).

Definition helper_of (o : AutoZOffsetProbe) : ZStepperCurrentHelper :=
  z_current_helper (cmd_helper o).

Definition with_helper (h : ZStepperCurrentHelper) (o : AutoZOffsetProbe) :=
  set_cmd_helper (set_z_current_helper h (cmd_helper o)) o.

Definition z_current_reduce : M unit := call_helper helper_of with_helper reduce.
Definition z_current_restore : M unit := call_helper helper_of with_helper restore.
Definition z_current_hold (b : bool) : M unit := assign_hold helper_of with_helper b.

(** ** AutoZOffsetEndstopWrapper *)

Definition run_prepare_gcode : M unit :=
  run_script_from_command PREPARE_GCODE.

Definition multi_probe_begin : M unit :=
  o <- get_self ;;
  (if negb (skip_prepare (mcu_probe o)) then run_prepare_gcode else ret tt) ;;;
  emit (EvProbeWrapper "multi_probe_begin").

Definition probe_prepare : M unit :=
  emit (EvProbeWrapper "probe_prepare") ;;;
  o <- get_self ;;
  if Qgtb (probe_accel (mcu_probe o)) 0
  then (a <- get_status_max_accel ;;
        update_wrapper (set_old_max_accel a) ;;;
        run_script_from_command (M204_S (probe_accel (mcu_probe o))))
  else ret tt.

Definition probe_finish : M unit :=
  o <- get_self ;;
  (if Qgtb (probe_accel (mcu_probe o)) 0
   then match old_max_accel (mcu_probe o) with
        | Some a => run_script_from_command (M204_S a)
        | None => raise AttributeError
        end
   else ret tt) ;;;
  emit (EvProbeWrapper "probe_finish").

(** ** AutoZOffsetCommandHelper *)

Definition get_status (eventtime : Q) : M (gmap string StatusValue) :=
  c <- get_cmd ;;
  let '(px, py, pz) := last_probe_position c in
  ret (<["name" := VStr (name c)]>
       (<["last_probe_position" := VCoord px py pz]>
        (<["last_z_result" := VNum (last_z_result c)]> ∅))).

Definition _move (coord : list (option Q)) (speed : Q) : M unit :=
  manual_move coord speed.

Definition _make_coord (cx cy cz : Q) : Q * Q * Q := (cx, cy, cz).

Definition _move_to_center : M unit :=
  c <- get_cmd ;;
  cur <- get_position ;;
  let current_z := pos_z cur in
  let '(tx, ty, tz) :=
    _make_coord (bed_center_x c) (bed_center_y c) (Qmax current_z (probe_hop c)) in
  _move [Some tx; Some ty; Some tz] (xy_move_speed c).

Definition _lift_probe : M unit :=
  o <- get_self ;;
  let params := param_helper o in
  cur <- get_position ;;
  _move [Some (pos_x cur); Some (pos_y cur);
         Some (pos_z cur + probe_hop (cmd_helper o))%Q; Some (pos_e cur)]
        (lift_speed params).

Definition _store_z_offset : M unit :=
  c <- get_cmd ;;
  configfile_set (name c) "calibrated_z_offset" (calibrated_z_offset c) ;;;
  respond_info
    "%s: calibrated_z_offset: %.6f\nThe SAVE_CONFIG command will update the printer config file\nwith the above and restart the printer."
    [AStr (name c); ANum (calibrated_z_offset c)].

(** [probe.run_single_probe(probe_obj, gcmd)] *)
Definition run_single_probe (sensor : Sensor) : M Position :=
  emit (EvRunSingleProbe sensor) ;;;
  next_probe.

Definition cmd_AUTO_Z_PROBE : M unit :=
  z_current_reduce ;;;
  pos <- try_finally (run_single_probe BedSensor) z_current_restore ;;
  let '(px, py, pz) := _get_pos_xyz pos in
  update_cmd (fun c => set_last_probe (_make_coord px py pz) (pz + z_offset c)%Q c) ;;;
  c <- get_cmd ;;
  respond_info "%s: Bed sensor measured offset: z=%.6f"
               [AStr (name c); ANum (last_z_result c * -1)%Q].

Definition cmd_AUTO_Z_HOME_Z : M unit :=
  _move_to_center ;;;
  cmd_AUTO_Z_PROBE ;;;
  current_position <- get_position ;;
  c <- get_cmd ;;
  set_position (mkCoord (pos_x current_position) (pos_y current_position)
                        (z_offset c) (pos_e current_position)) ;;;
  _lift_probe.

Definition cmd_AUTO_Z_MEASURE_OFFSET : M Q :=
  _move_to_center ;;;
  cmd_AUTO_Z_PROBE ;;;
  _lift_probe ;;;
  (* Move inductive probe to position previously probed *)
  o <- get_self ;;
  coord <- get_position ;;
  let '(x_offset, y_offset) := _get_probe_xy_offsets (inductive_probe o) in
  _move [Some (bed_center_x (cmd_helper o) - x_offset)%Q;
         Some (bed_center_y (cmd_helper o) - y_offset)%Q;
         Some (pos_z coord); Some (pos_e coord)]
        (xy_move_speed (cmd_helper o)) ;;;
  position <- run_single_probe InductiveProbe ;;
  let inductive_probe_result_z := _get_pos_z position in
  c <- get_cmd ;;
  let true_offset := (last_z_result c - inductive_probe_result_z)%Q in
  respond_info "%s: Calculated true nozzle offset: z=%.6f"
               [AStr (name c); ANum (true_offset * -1)%Q] ;;;
  _lift_probe ;;;
  ret true_offset.

Definition cmd_AUTO_Z_LOAD_OFFSET : M unit :=
  c <- get_cmd ;;
  run_script_from_command (SET_GCODE_OFFSET_Z (calibrated_z_offset c)) ;;;
  respond_info "%s: Applied calibrated_z_offset: %.6f"
               [AStr (name c); ANum (calibrated_z_offset c)].

(** [for _ in range(n): offset_total += self.cmd_AUTO_Z_MEASURE_OFFSET(gcmd)] *)
Fixpoint measure_loop (n : nat) (offset_total : Q) : M Q :=
  match n with
  | O => ret offset_total
  | S n' =>
      r <- cmd_AUTO_Z_MEASURE_OFFSET ;;
      measure_loop n' (offset_total + r)%Q
  end.

Definition cmd_AUTO_Z_CALIBRATE : M unit :=
  run_script_from_command SET_GCODE_OFFSET_Z0 ;;;
  (* Run prepare_gcode and reduce Z current once for the entire calibration *)
  run_prepare_gcode ;;;
  update_wrapper (set_skip_prepare true) ;;;
  z_current_reduce ;;;
  z_current_hold true ;;;
  offset_total <-
    try_finally
      (c <- get_cmd ;; measure_loop (Pos.to_nat (offset_samples c)) 0%Q)
      (z_current_hold false ;;;
       z_current_restore ;;;
       update_wrapper (set_skip_prepare false)) ;;
  _move_to_center ;;;
  c <- get_cmd ;;
  let average_offset :=
    (offset_total / inject_Z (Zpos (offset_samples c)))%Q in
  update_cmd (set_calibrated_z_offset (average_offset * -1)%Q) ;;;
  cmd_AUTO_Z_LOAD_OFFSET ;;;
  _store_z_offset.


(** ** AutoZOffsetSessionHelper *)

(** [max(z_positions)] and [min(z_positions)]; the list is never empty where
    they are called. *)
Definition list_max (l : list Q) : Q :=
  match l with
  | [] => 0%Q
  | a :: rest => fold_left Qmax rest a
  end.

Definition list_min (l : list Q) : Q :=
  match l with
  | [] => 0%Q
  | a :: rest => fold_left Qmin rest a
  end.

(** [positions.sort(key=_get_pos_z)]: a stable sort on the z key. *)
Fixpoint insert_by_z (p : Position) (sorted : list Position) : list Position :=
  match sorted with
  | [] => [p]
  | q :: rest =>
      if Qle_bool (_get_pos_z p) (_get_pos_z q)
      then p :: q :: rest
      else q :: insert_by_z p rest
  end.

Definition sort_by_z (positions : list Position) : list Position :=
  fold_right insert_by_z [] positions.

(** The slice [positions[1:-1]]. *)
Definition slice_1_m1 {A : Type} (l : list A) : list A := removelast (tl l).

(** [self._probe(gcmd)], inherited from Klipper's [ProbeSessionHelper]. *)
Definition _probe : M Position :=
  emit EvProbe ;;;
  next_probe.

(** [max(z_positions) - min(z_positions)] *)
Definition spread (positions : list Position) : Q :=
  let z_positions := map _get_pos_z positions in
  (list_max z_positions - list_min z_positions)%Q.

(** The tolerance check of one iteration: the samples and the retry counter
    the loop goes on with. *)
Definition check_tolerance (params : ProbeParams) (positions : list Position)
    (retries : nat) : M (list Position * nat) :=
  if Qgtb (spread positions) (samples_tolerance params)
  then
    if (samples_tolerance_retries params <=? retries)%nat
    then raise SamplesTolerance
    else
      respond_info "Probe samples exceed tolerance. Retrying..." [] ;;;
      ret ([], S retries)
  else ret (positions, retries).

(** The [while len(positions) < sample_count] loop.  [fuel] bounds the number
    of iterations; [run_probe] passes a bound the loop cannot exceed. *)
Fixpoint sample_loop (fuel : nat) (params : ProbeParams) (probexy : Q * Q)
    (positions : list Position) (retries : nat) : M (list Position) :=
  match fuel with
  | O => raise OutOfFuel
  | S fuel' =>
      if (length positions <? samples params)%nat
      then
        (* Probe position *)
        pos <- _probe ;;
        let positions := positions ++ [pos] in
        (* Check samples tolerance *)
        st <- check_tolerance params positions retries ;;
        let positions := fst st in
        let retries := snd st in
        (* Retract using actual toolhead position *)
        (if (length positions <? samples params)%nat
         then
           cur <- get_position ;;
           manual_move [Some (fst probexy); Some (snd probexy);
                        Some (pos_z cur + sample_retract_dist params)%Q]
                       (lift_speed params)
         else ret tt) ;;;
        sample_loop fuel' params probexy positions retries
      else ret positions
  end.

(** The tail of [run_probe]: trim, offset, reduce, record. *)
Definition reduce_samples (positions : list Position) : M unit :=
  o <- get_self ;;
  let params := param_helper o in
  (* Discard highest and lowest values *)
  let positions := sort_by_z positions in
  let positions := slice_1_m1 positions in
  (* Subtract main probe z_offset *)
  let positions :=
    map (fun p => _adjust_pos_z_offset p (probe_z_offset (probe_session o)))
        positions in
  (* Calculate result *)
  emit (EvCalcAverage positions (samples_result params)) ;;;
  match calc_probe_z_average sort_by_z positions (samples_result params) with
  | Ok epos => set_self (set_probe_session (append_result epos (probe_session o)) o)
  | Raise ex => raise ex
  end.

Definition loop_bound (params : ProbeParams) : nat :=
  S (S (samples_tolerance_retries params) * samples params).

Definition run_probe : M unit :=
  o <- get_self ;;
  (if hw_probe_session (probe_session o) then ret tt
   else raise ProbeStateError) ;;;
  let params := param_helper o in
  cur <- get_position ;;
  let probexy := (pos_x cur, pos_y cur) in
  positions <- sample_loop (loop_bound params) params probexy [] 0%nat ;;
  reduce_samples positions.

End Full.

(** * auto_z_offset_lite.py: the ready handler

    [AutoZOffset._on_ready] caches the XY offsets of the inductive probe; the
    probe object is looked at as [_get_probe_xy_offsets] of auto_z_offset.py
    does. *)

Module LiteReady.

Definition set_ind_offsets (x_off y_off : Q) (o : Lite.AutoZOffset)
  : Lite.AutoZOffset :=
  Lite.mkAutoZOffset (Lite.name o) (Lite.z_offset o) (Lite.probe_hop o)
    (Lite.probe_speed o) (Lite.lift_speed o) (Lite.probe_accel o)
    (Lite.offset_samples o) (Lite.calibrated_z_offset o) (Lite.xy_speed o)
    (Lite.center_x o) (Lite.center_y o) (Lite.z_min o) (Lite._skip_prepare o)
    (Lite.z_current o) (Lite.last_bed_z o) x_off y_off.

(** An offsets tuple too short for [off[0], off[1]] raises [IndexError]
    before anything is assigned; like a probe without [get_offsets], it
    leaves the cached values as they are. *)
Definition _on_ready (ind : Full.ProbeObj) (o : Lite.AutoZOffset)
  : Lite.AutoZOffset :=
  match ind with
  | Full.WithProbeOffsets x_offset y_offset => set_ind_offsets x_offset y_offset o
  | Full.WithGetOffsets (off0 :: off1 :: _) => set_ind_offsets off0 off1 o
  | _ => o
  end.

End LiteReady.

(** * Specification vocabulary

    Definitions used to state the properties below. *)

(** ** Weakest preconditions

    [wp m Q w]: running [m] from [w] ends, with a value or an exception, in a
    world that satisfies [Q].  The other definitions name the worlds the
    primitives lead to. *)

(** The weakest precondition of a computation. *)
Definition wp {Obj A} (m : M (Obj := Obj) A) (Q : Res A -> World Obj -> Prop)
    (w : World Obj) : Prop :=
  Q (fst (m w)) (snd (m w)).

(** The printer after [manual_move coord speed]. *)
Definition moved (coord : list (option Q)) (speed : Q) (p : Printer) : Printer :=
  mkPrinter (apply_coord coord (toolhead p)) (max_accel p)
            (homing_position_z p) (future p)
            (trace p ++ [EvMove coord speed]).

(** The probing primitive, by cases on what the printer does next. *)
Definition next_probed (p : Printer) : Res Position * Printer :=
  match future p with
  | Triggered after result :: rest =>
      (Ok result,
       mkPrinter after (max_accel p) (homing_position_z p) rest (trace p))
  | Fault after :: rest =>
      (Raise ProbeFault,
       mkPrinter after (max_accel p) (homing_position_z p) rest (trace p))
  | [] => (Raise ProbeFault, p)
  end.

(** The printer after the external calls [evs]. *)
Definition log_all (evs : list Event) (p : Printer) : Printer :=
  mkPrinter (toolhead p) (max_accel p) (homing_position_z p) (future p)
            (trace p ++ evs).

(** Scripts that only set a driver current. *)
Definition is_tmc (s : Script) : Prop :=
  match s with SET_TMC_CURRENT _ _ => True | _ => False end.

(** The world after a call of [reduce()] or [restore()] on the helper. *)
Definition helper_called {Obj} (get_helper : Obj -> ZStepperCurrentHelper)
    (set_helper : ZStepperCurrentHelper -> Obj -> Obj)
    (method : ZStepperCurrentHelper -> list Script * ZStepperCurrentHelper)
    (w : World Obj) : World Obj :=
  mkWorld (set_helper (snd (method (get_helper (self w)))) (self w))
          (log_all (map EvScript (fst (method (get_helper (self w)))))
                   (printer w)).

(** ** The probing calls ahead *)

(** What the next probing call returns. *)
Definition probe_result (p : Printer) : Res Position :=
  match future p with
  | Triggered _ result :: _ => Ok result
  | _ => Raise ProbeFault
  end.

(** Where the next probing call leaves the toolhead. *)
Definition toolhead_after_probe (p : Printer) : Coord :=
  match future p with
  | Triggered after _ :: _ => after
  | Fault after :: _ => after
  | [] => toolhead p
  end.

(** The positions handed back by the probing calls that triggered. *)
Definition results_of (outcomes : list ProbeOutcome) : list Position :=
  flat_map (fun o => match o with
                     | Triggered _ result => [result]
                     | Fault _ => []
                     end) outcomes.

(** What [Lite._probe_bed_sensor] hands to the probing primitive. *)
Definition lite_target (w : World Lite.AutoZOffset) : Coord :=
  mkCoord (pos_x (toolhead (printer w))) (pos_y (toolhead (printer w)))
          (Lite.z_min (self w)) (pos_e (toolhead (printer w))).

(** The external calls of one [Lite._probe_bed_sensor]. *)
Definition lite_bed_events (w : World Lite.AutoZOffset) : list Event :=
  if Qgtb (Lite.probe_accel (self w)) 0
  then [EvGetStatus;
        EvScript (M204_S (Lite.probe_accel (self w)));
        EvProbingMove (lite_target w) (Lite.probe_speed (self w));
        EvScript (M204_S (max_accel (printer w)))]
  else [EvProbingMove (lite_target w) (Lite.probe_speed (self w))].

(** ** Frames: what a measurement leaves alone *)

(** Events that neither write the configuration nor touch the runtime
    G-code offset. *)
Definition quiet (ev : Event) : Prop :=
  match ev with
  | EvConfigSet _ _ _ => False
  | EvScript SET_GCODE_OFFSET_Z0 => False
  | EvScript (SET_GCODE_OFFSET_Z _) => False
  | _ => True
  end.

(** Events that apply a calibrated offset or persist one. *)
Definition applies_offset (ev : Event) : Prop :=
  match ev with
  | EvConfigSet _ _ _ => True
  | EvScript (SET_GCODE_OFFSET_Z _) => True
  | _ => False
  end.

(** The printer keeps its runtime offset and acceleration limit, and only
    quiet events were added to its trace. *)
Definition printer_frame (p p' : Printer) : Prop :=
  homing_position_z p' = homing_position_z p
  /\ max_accel p' = max_accel p
  /\ exists evs, trace p' = trace p ++ evs /\ Forall quiet evs.

(** The helper keeps its configuration and hold flag, and stays reduced
    when it was reduced under hold. *)
Definition guard_frame (h h' : ZStepperCurrentHelper) : Prop :=
  _saved_currents h' = _saved_currents h
  /\ probe_current_factor h' = probe_current_factor h
  /\ _hold h' = _hold h
  /\ (_hold h = true -> _is_reduced h = true -> _is_reduced h' = true).

(** Only [last_bed_z] and the helper of the object may have changed. *)
Definition lite_obj_frame (o o' : Lite.AutoZOffset) : Prop :=
  (exists bed_z h, o' = Lite.set_z_current h (Lite.set_last_bed_z bed_z o))
  /\ guard_frame (Lite.z_current o) (Lite.z_current o').

Definition lite_frame (w w' : World Lite.AutoZOffset) : Prop :=
  lite_obj_frame (self w) (self w') /\ printer_frame (printer w) (printer w').

(** Only the last probe reading and the helper of the command helper may
    have changed. *)
Definition full_obj_frame (o o' : Full.AutoZOffsetProbe) : Prop :=
  (exists position z_result h,
      o' = Full.set_cmd_helper
             (Full.set_z_current_helper h
                (Full.set_last_probe position z_result (Full.cmd_helper o)))
             o)
  /\ guard_frame (Full.helper_of o) (Full.helper_of o').

Definition full_frame (w w' : World Full.AutoZOffsetProbe) : Prop :=
  full_obj_frame (self w) (self w') /\ printer_frame (printer w) (printer w').

(** ** Measurements and calibration of auto_z_offset_lite.py *)

(** The message of [Lite.cmd_measure_offset]. *)
Definition lite_offset_message (o : Lite.AutoZOffset) (bed_z inductive_z : Q)
  : Event :=
  EvRespond "%s: true nozzle offset: %.6f  (bed_z=%.6f, inductive_z=%.6f)"
            [AStr (Lite.name o); ANum (bed_z - inductive_z)%Q; ANum bed_z;
             ANum inductive_z].

(** One [Lite.cmd_measure_offset]: frame, and the result by cases on the two
    probing calls ahead. *)
Definition lite_measure_post (w : World Lite.AutoZOffset) (r : Res Q)
    (w' : World Lite.AutoZOffset) : Prop :=
  lite_obj_frame (self w) (self w')
  /\ homing_position_z (printer w') = homing_position_z (printer w)
  /\ max_accel (printer w') = max_accel (printer w)
  /\ exists evs,
      trace (printer w') = trace (printer w) ++ evs
      /\ Forall quiet evs
      /\ match future (printer w) with
         | Triggered a1 _ :: Triggered a2 _ :: rest =>
             r = Ok (pos_z a1 - pos_z a2)%Q
             /\ future (printer w') = rest
             /\ Lite.last_bed_z (self w') = pos_z a1
             /\ In (lite_offset_message (self w) (pos_z a1) (pos_z a2)) evs
         | _ => r = Raise ProbeFault
         end.

(** The offsets the next [n] measurements will return, and the future left
    after them; [None] when one of the [2 * n] probing calls ahead does not
    trigger. *)
Fixpoint lite_run_offsets (n : nat) (fut : list ProbeOutcome)
  : option (list Q * list ProbeOutcome) :=
  match n with
  | O => Some ([], fut)
  | S n' =>
      match fut with
      | Triggered a1 _ :: Triggered a2 _ :: rest =>
          match lite_run_offsets n' rest with
          | Some (offsets, rest') => Some ((pos_z a1 - pos_z a2)%Q :: offsets, rest')
          | None => None
          end
      | _ => None
      end
  end.

(** The measuring loop of [Lite.cmd_calibrate]. *)
Definition lite_loop_post (n : nat) (total : Q) (w : World Lite.AutoZOffset)
    (r : Res Q) (w' : World Lite.AutoZOffset) : Prop :=
  lite_frame w w'
  /\ match lite_run_offsets n (future (printer w)) with
     | Some (offsets, rest) =>
         r = Ok (fold_left Qplus offsets total) /\ future (printer w') = rest
     | None => r = Raise ProbeFault
     end.

(** The scripts of a [restore()] that is not a no-op. *)
Definition restore_scripts (h : ZStepperCurrentHelper) : list Script :=
  map (fun '(stepper_name, nominal) => SET_TMC_CURRENT stepper_name nominal)
      (_saved_currents h).

(** The external calls of [cmd_load_offset] followed by [_store]. *)
Definition lite_apply_events (o : Lite.AutoZOffset) : list Event :=
  [EvScript (SET_GCODE_OFFSET_Z (Lite.calibrated_z_offset o));
   EvRespond "%s: applied calibrated_z_offset: %.6f"
             [AStr (Lite.name o); ANum (Lite.calibrated_z_offset o)];
   EvConfigSet (Lite.name o) "calibrated_z_offset" (Lite.calibrated_z_offset o);
   EvRespond
     "%s: calibrated_z_offset: %.6f\nThe SAVE_CONFIG command will update the printer config file\nwith the above and restart the printer."
     [AStr (Lite.name o); ANum (Lite.calibrated_z_offset o)]].

(** [Lite.cmd_calibrate]: the object and the trace it leaves, and its result
    by cases on the measurements ahead. *)
Definition lite_calibrate_post (w : World Lite.AutoZOffset) (r : Res unit)
    (w' : World Lite.AutoZOffset) : Prop :=
  let o := self w in
  let o' := self w' in
  let h := Lite.z_current o in
  (exists bed_z,
      o' = Lite.set_calibrated_z_offset (Lite.calibrated_z_offset o')
             (Lite.set_skip_prepare false
                (Lite.set_z_current
                   (mkHelper (probe_current_factor h) (_saved_currents h)
                             false false)
                   (Lite.set_last_bed_z bed_z o))))
  /\ (exists mid post,
         trace (printer w')
         = trace (printer w)
             ++ [EvScript SET_GCODE_OFFSET_Z0; EvScript PREPARE_GCODE]
             ++ map EvScript (fst (reduce h))
             ++ mid
             ++ map EvScript (restore_scripts h)
             ++ post
         /\ Forall quiet mid
         /\ match r with
            | Ok _ =>
                exists coord speed,
                  post = EvMove coord speed :: lite_apply_events o'
            | Raise _ => post = []
            end)
  /\ match lite_run_offsets (Pos.to_nat (Lite.offset_samples o))
                           (future (printer w)) with
     | Some (offsets, rest) =>
         r = Ok tt
         /\ Lite.calibrated_z_offset o'
            = (- (fold_left Qplus offsets 0
                  / inject_Z (Zpos (Lite.offset_samples o))))%Q
         /\ homing_position_z (printer w')
            = format_f (Lite.calibrated_z_offset o')
         /\ future (printer w') = rest
     | None =>
         r = Raise ProbeFault
         /\ Lite.calibrated_z_offset o' = Lite.calibrated_z_offset o
         /\ homing_position_z (printer w') = 0%Q
     end.

(** ** Measurements and calibration of auto_z_offset.py *)

(** The message of [Full.cmd_AUTO_Z_MEASURE_OFFSET]. *)
Definition full_offset_message (o : Full.AutoZOffsetProbe) (true_offset : Q)
  : Event :=
  EvRespond "%s: Calculated true nozzle offset: z=%.6f"
            [AStr (Full.name (Full.cmd_helper o)); ANum (true_offset * -1)%Q].

(** The offset one measurement computes from the two probe results. *)
Definition full_true_offset (o : Full.AutoZOffsetProbe) (bed reference : Position)
  : Q :=
  (_get_pos_z bed + Full.z_offset (Full.cmd_helper o) - _get_pos_z reference)%Q.

(** One [Full.cmd_AUTO_Z_MEASURE_OFFSET]: frame, and the result by cases on
    the two probing calls ahead. *)
Definition full_measure_post (w : World Full.AutoZOffsetProbe) (r : Res Q)
    (w' : World Full.AutoZOffsetProbe) : Prop :=
  full_obj_frame (self w) (self w')
  /\ homing_position_z (printer w') = homing_position_z (printer w)
  /\ max_accel (printer w') = max_accel (printer w)
  /\ exists evs,
      trace (printer w') = trace (printer w) ++ evs
      /\ Forall quiet evs
      /\ match future (printer w) with
         | Triggered _ bed :: Triggered _ reference :: rest =>
             r = Ok (full_true_offset (self w) bed reference)
             /\ future (printer w') = rest
             /\ Full.last_z_result (Full.cmd_helper (self w'))
                = (_get_pos_z bed + Full.z_offset (Full.cmd_helper (self w)))%Q
             /\ In (full_offset_message
                      (self w) (full_true_offset (self w) bed reference)) evs
         | _ => r = Raise ProbeFault
         end.

(** The offsets the next [n] measurements will return, and the future left
    after them; [None] when one of the [2 * n] probing calls ahead does not
    trigger. *)
Fixpoint full_run_offsets (z_offset : Q) (n : nat) (fut : list ProbeOutcome)
  : option (list Q * list ProbeOutcome) :=
  match n with
  | O => Some ([], fut)
  | S n' =>
      match fut with
      | Triggered _ bed :: Triggered _ reference :: rest =>
          match full_run_offsets z_offset n' rest with
          | Some (offsets, rest') =>
              Some ((_get_pos_z bed + z_offset - _get_pos_z reference)%Q
                      :: offsets, rest')
          | None => None
          end
      | _ => None
      end
  end.

(** The measuring loop of [Full.cmd_AUTO_Z_CALIBRATE]. *)
Definition full_loop_post (n : nat) (total : Q) (w : World Full.AutoZOffsetProbe)
    (r : Res Q) (w' : World Full.AutoZOffsetProbe) : Prop :=
  full_frame w w'
  /\ match full_run_offsets (Full.z_offset (Full.cmd_helper (self w))) n
                            (future (printer w)) with
     | Some (offsets, rest) =>
         r = Ok (fold_left Qplus offsets total) /\ future (printer w') = rest
     | None => r = Raise ProbeFault
     end.

(** The external calls of [cmd_AUTO_Z_LOAD_OFFSET] followed by
    [_store_z_offset]. *)
Definition full_apply_events (o : Full.AutoZOffsetProbe) : list Event :=
  let c := Full.cmd_helper o in
  [EvScript (SET_GCODE_OFFSET_Z (Full.calibrated_z_offset c));
   EvRespond "%s: Applied calibrated_z_offset: %.6f"
             [AStr (Full.name c); ANum (Full.calibrated_z_offset c)];
   EvConfigSet (Full.name c) "calibrated_z_offset" (Full.calibrated_z_offset c);
   EvRespond
     "%s: calibrated_z_offset: %.6f\nThe SAVE_CONFIG command will update the printer config file\nwith the above and restart the printer."
     [AStr (Full.name c); ANum (Full.calibrated_z_offset c)]].

(** [Full.cmd_AUTO_Z_CALIBRATE]: the object and the trace it leaves, and its
    result by cases on the measurements ahead. *)
Definition full_calibrate_post (w : World Full.AutoZOffsetProbe) (r : Res unit)
    (w' : World Full.AutoZOffsetProbe) : Prop :=
  let o := self w in
  let o' := self w' in
  let c := Full.cmd_helper o in
  let c' := Full.cmd_helper o' in
  let h := Full.helper_of o in
  (exists position z_result,
      o' = Full.set_mcu_probe
             (Full.set_skip_prepare false (Full.mcu_probe o))
             (Full.set_cmd_helper
                (Full.set_calibrated_z_offset (Full.calibrated_z_offset c')
                   (Full.set_z_current_helper
                      (mkHelper (probe_current_factor h) (_saved_currents h)
                                false false)
                      (Full.set_last_probe position z_result c)))
                o))
  /\ (exists mid post,
         trace (printer w')
         = trace (printer w)
             ++ [EvScript SET_GCODE_OFFSET_Z0; EvScript PREPARE_GCODE]
             ++ map EvScript (fst (reduce h))
             ++ mid
             ++ map EvScript (restore_scripts h)
             ++ post
         /\ Forall quiet mid
         /\ match r with
            | Ok _ =>
                exists coord speed,
                  post = EvMove coord speed :: full_apply_events o'
            | Raise _ => post = []
            end)
  /\ match full_run_offsets (Full.z_offset c)
                            (Pos.to_nat (Full.offset_samples c))
                            (future (printer w)) with
     | Some (offsets, rest) =>
         r = Ok tt
         /\ Full.calibrated_z_offset c'
            = (fold_left Qplus offsets 0
               / inject_Z (Zpos (Full.offset_samples c)) * -1)%Q
         /\ homing_position_z (printer w')
            = format_f (Full.calibrated_z_offset c')
         /\ future (printer w') = rest
     | None =>
         r = Raise ProbeFault
         /\ Full.calibrated_z_offset c' = Full.calibrated_z_offset c
         /\ homing_position_z (printer w') = 0%Q
     end.

(** ** The sampling session *)

(** The order [positions.sort(key=_get_pos_z)] sorts by. *)
Definition z_le (p q : Position) : Prop := (_get_pos_z p <= _get_pos_z q)%Q.

(** No sample yet, or a spread within [samples_tolerance]. *)
Definition within_tolerance (params : Full.ProbeParams)
    (positions : list Position) : Prop :=
  positions = []
  \/ (Full.spread positions <= Full.samples_tolerance params)%Q.

(** The retry message of the tolerance check. *)
Definition is_retry (ev : Event) : bool :=
  match ev with
  | EvRespond "Probe samples exceed tolerance. Retrying..." [] => true
  | _ => false
  end.

(** How many retries a trace shows. *)
Definition count_retries (evs : list Event) : nat :=
  length (List.filter is_retry evs).

(** The sampling loop, started with [positions] and [retries]: probing calls
    consumed, retries within budget, and on return an accepted sample list of
    full length, within tolerance, made of the last probe results. *)
Definition sample_loop_post (params : Full.ProbeParams)
    (positions : list Position) (retries : nat)
    (w : World Full.AutoZOffsetProbe) (r : Res (list Position))
    (w' : World Full.AutoZOffsetProbe) : Prop :=
  self w' = self w
  /\ exists consumed evs,
      future (printer w) = consumed ++ future (printer w')
      /\ trace (printer w') = trace (printer w) ++ evs
      /\ (retries + count_retries evs
          <= Full.samples_tolerance_retries params)%nat
      /\ match r with
         | Ok accepted =>
             length accepted = Full.samples params
             /\ within_tolerance params accepted
             /\ exists earlier,
                 positions ++ results_of consumed = earlier ++ accepted
         | Raise ex => ex = SamplesTolerance \/ ex = ProbeFault
         end.

(** What [run_probe] hands to [calc_probe_z_average] for the accepted
    samples: sorted, first and last dropped, probe z offset subtracted. *)
Definition trimmed_samples (o : Full.AutoZOffsetProbe)
    (accepted : list Position) : list Position :=
  map (fun p => _adjust_pos_z_offset
                  p (Full.probe_z_offset (Full.probe_session o)))
      (Full.slice_1_m1 (Full.sort_by_z accepted)).

(** One [run_probe]. *)
Definition run_probe_post (w : World Full.AutoZOffsetProbe) (r : Res unit)
    (w' : World Full.AutoZOffsetProbe) : Prop :=
  let params := Full.param_helper (self w) in
  exists consumed evs,
    future (printer w) = consumed ++ future (printer w')
    /\ trace (printer w') = trace (printer w) ++ evs
    /\ (count_retries evs <= Full.samples_tolerance_retries params)%nat
    /\ match r with
       | Ok _ =>
           exists accepted epos,
             length accepted = Full.samples params
             /\ within_tolerance params accepted
             /\ (exists earlier, results_of consumed = earlier ++ accepted)
             /\ calc_probe_z_average Full.sort_by_z
                  (trimmed_samples (self w) accepted)
                  (Full.samples_result params) = Ok epos
             /\ self w'
                = Full.set_probe_session
                    (Full.append_result epos (Full.probe_session (self w)))
                    (self w)
             /\ In (EvCalcAverage (trimmed_samples (self w) accepted)
                                  (Full.samples_result params)) evs
       | Raise ex =>
           ex = ProbeStateError \/ ex = SamplesTolerance \/ ex = ProbeFault
           \/ exists accepted,
               length accepted = Full.samples params
               /\ calc_probe_z_average Full.sort_by_z
                    (trimmed_samples (self w) accepted)
                    (Full.samples_result params) = Raise ex
               /\ In (EvCalcAverage (trimmed_samples (self w) accepted)
                                    (Full.samples_result params)) evs
       end.

(** ** Reading results *)

(** [r_1 + ... + r_n], summed as the loop does. *)
Definition Qsum (l : list Q) : Q := fold_left Qplus l 0%Q.

(** The numbers shown by the console messages of a trace. *)
Definition reported_numbers (evs : list Event) : list Q :=
  flat_map (fun ev =>
              match ev with
              | EvRespond _ args =>
                  flat_map (fun a => match a with ANum q => [q] | AStr _ => [] end)
                           args
              | _ => []
              end) evs.

(** The dict a status query returned. *)
Definition status_of {Obj} (res : Res (gmap string StatusValue) * World Obj)
  : gmap string StatusValue :=
  match fst res with
  | Ok d => d
  | Raise _ => ∅
  end.

(** The results a session holds after [run_probe]. *)
Definition new_results (w : World Full.AutoZOffsetProbe) : list Position :=
  Full.results (Full.probe_session (self (snd (Full.run_probe w)))).

(** Two Z steppers at 1.2 A, reduced to a third while probing. *)
Definition helper_example : ZStepperCurrentHelper :=
  mkHelper 0.33%Q [("stepper_z", 1.2%Q); ("stepper_z1", 1.2%Q)] false false.

(** A probing call that triggers at height [z] over the bed centre. *)
Definition triggers_at (z : Q) : ProbeOutcome :=
  Triggered (mkCoord 100 100 z 0) (Plain 100 100 z).

(** A printer at rest, with the probing outcomes [fut] ahead. *)
Definition printer_example (fut : list ProbeOutcome) : Printer :=
  mkPrinter (mkCoord 0 0 10 0) 3000 0.05 fut [].

(** The lite module with three runs per calibration and no acceleration
    override. *)
Definition lite_example : Lite.AutoZOffset :=
  Lite.mkAutoZOffset "auto_z_offset" 0.2 5 5 5 0 3 0 50 100 100 (-2) false
                     helper_example 0 20 10.

(** Three runs: the bed sensor triggers at 0.30, 0.32, 0.31 and the
    inductive probe at 0.20 each time. *)
Definition lite_world_example : World Lite.AutoZOffset :=
  mkWorld lite_example
          (printer_example
             [triggers_at 0.30; triggers_at 0.20; triggers_at 0.32;
              triggers_at 0.20; triggers_at 0.31; triggers_at 0.20]).

(** The second of three runs fails: its inductive probe, over the bed centre,
    goes down to -2 and does not trigger. *)
Definition lite_world_fault : World Lite.AutoZOffset :=
  mkWorld lite_example
          (printer_example
             [triggers_at 0.30; triggers_at 0.20; triggers_at 0.32;
              Fault (mkCoord 80 90 (-2) 0);
              triggers_at 0.31; triggers_at 0.20]).

(** An acceleration override of 1000 and a probing move that is made in
    full, down to [z_min], and raises. *)
Definition lite_world_accel : World Lite.AutoZOffset :=
  mkWorld
    (Lite.mkAutoZOffset "auto_z_offset" 0.2 5 5 5 1000 3 0 50 100 100 (-2)
                        false helper_example 0 20 10)
    (printer_example [Fault (mkCoord 0 0 (-2) 0)]).

(** The full module with three runs per calibration. *)
Definition full_example : Full.AutoZOffsetProbe :=
  Full.mkProbe
    (Full.mkWrapper 0 false None)
    (Full.mkCommandHelper "auto_z_offset" 50 0.2 5 3 0 100 100 helper_example
                          (0, 0, 0)%Q 0)
    (Full.mkSessionHelper 0 true [])
    (Full.mkProbeParams 4 0.01 0 2 5 Average)
    (Full.WithProbeOffsets 20 10).

(** Three runs: bed sensor results 0.10, 0.12, 0.11 (to which the 0.2 air
    gap is added), inductive probe results 0.20. *)
Definition full_world_example : World Full.AutoZOffsetProbe :=
  mkWorld full_example
          (printer_example
             [triggers_at 0.10; triggers_at 0.20; triggers_at 0.12;
              triggers_at 0.20; triggers_at 0.11; triggers_at 0.20]).

(** A sampling session with the given sample count, retry budget and
    tolerance, the probe triggering at the heights [zs]. *)
Definition session_world (sample_count retries : nat) (tolerance : Q)
    (zs : list Q) : World Full.AutoZOffsetProbe :=
  mkWorld
    (Full.mkProbe
       (Full.mkWrapper 0 false None)
       (Full.mkCommandHelper "auto_z_offset" 50 0.2 5 3 0 100 100
                             helper_example (0, 0, 0)%Q 0)
       (Full.mkSessionHelper 0 true [])
       (Full.mkProbeParams sample_count tolerance retries 2 5 Average)
       (Full.WithProbeOffsets 20 10))
    (printer_example (map triggers_at zs)).

(** A first attempt with spread 0.5 against a tolerance of 0.01: without a
    retry budget, and with one retry followed by four close samples. *)
Definition session_no_retry : World Full.AutoZOffsetProbe :=
  session_world 4 0 0.01 [1.0; 1.5; 2.000; 2.005; 2.001; 2.003]%Q.

(** The same with one retry allowed. *)
Definition session_one_retry : World Full.AutoZOffsetProbe :=
  session_world 4 1 0.01 [1.0; 1.5; 2.000; 2.005; 2.001; 2.003]%Q.

(** Two samples only. *)
Definition session_two_samples : World Full.AutoZOffsetProbe :=
  session_world 2 0 0.01 [1.0; 1.0]%Q.

(** A session of four samples, no probe z offset, nothing probed yet. *)
Definition session_trim_example : World Full.AutoZOffsetProbe :=
  session_world 4 0 5 [].

(** The same session with a main probe whose z offset is 0.5. *)
Definition session_trim_offset : World Full.AutoZOffsetProbe :=
  mkWorld (Full.set_probe_session (Full.mkSessionHelper 0.5 true [])
                                  (self session_trim_example))
          (printer session_trim_example).

(** Four accepted samples with z 1.0, 5.0, 2.0, 2.1. *)
Definition trim_input : list Position :=
  [Plain 100 100 1.0; Plain 100 100 5.0; Plain 100 100 2.0; Plain 100 100 2.1]%Q.

(** ** One probe, one measurement, one homing *)

(** The helper after a [reduce()] followed by a [restore()]. *)
Definition guard_released (h : ZStepperCurrentHelper) : ZStepperCurrentHelper :=
  mkHelper (probe_current_factor h) (_saved_currents h) (_hold h) (_hold h).

(** The external calls of one [Lite.cmd_probe] up to its message. *)
Definition lite_probe_events (w : World Lite.AutoZOffset) : list Event :=
  (if Lite._skip_prepare (self w) then [] else [EvScript PREPARE_GCODE])
  ++ map EvScript (fst (reduce (Lite.z_current (self w))))
  ++ lite_bed_events w
  ++ map EvScript (fst (restore (snd (reduce (Lite.z_current (self w)))))).

(** One [Lite.cmd_probe], by cases on the probing call ahead. *)
Definition lite_probe_post (w : World Lite.AutoZOffset) (r : Res unit)
    (w' : World Lite.AutoZOffset) : Prop :=
  let h' := guard_released (Lite.z_current (self w)) in
  max_accel (printer w') = max_accel (printer w)
  /\ homing_position_z (printer w') = homing_position_z (printer w)
  /\ future (printer w') = tl (future (printer w))
  /\ match future (printer w) with
     | Triggered after _ :: _ =>
         r = Ok tt
         /\ self w' = Lite.set_z_current h'
                        (Lite.set_last_bed_z (pos_z after) (self w))
         /\ toolhead (printer w') = after
         /\ trace (printer w')
            = trace (printer w) ++ lite_probe_events w
                ++ [EvRespond "%s: bed sensor trigger Z: %.6f"
                              [AStr (Lite.name (self w)); ANum (pos_z after)]]
     | _ =>
         r = Raise ProbeFault
         /\ self w' = Lite.set_z_current h' (self w)
         /\ toolhead (printer w') = toolhead_after_probe (printer w)
         /\ trace (printer w') = trace (printer w) ++ lite_probe_events w
     end.

(** The external calls of one [Full.cmd_AUTO_Z_PROBE] up to its message. *)
Definition full_probe_events (w : World Full.AutoZOffsetProbe) : list Event :=
  map EvScript (fst (reduce (Full.helper_of (self w))))
  ++ [EvRunSingleProbe BedSensor]
  ++ map EvScript (fst (restore (snd (reduce (Full.helper_of (self w)))))).

(** One [Full.cmd_AUTO_Z_PROBE], by cases on the probing call ahead. *)
Definition full_probe_post (w : World Full.AutoZOffsetProbe) (r : Res unit)
    (w' : World Full.AutoZOffsetProbe) : Prop :=
  let c := Full.cmd_helper (self w) in
  let h' := guard_released (Full.helper_of (self w)) in
  homing_position_z (printer w') = homing_position_z (printer w)
  /\ future (printer w') = tl (future (printer w))
  /\ match future (printer w) with
     | Triggered after pos :: _ =>
         r = Ok tt
         /\ self w'
            = Full.set_cmd_helper
                (Full.set_last_probe (_get_pos_xyz pos)
                   (_get_pos_z pos + Full.z_offset c)%Q
                   (Full.set_z_current_helper h' c))
                (self w)
         /\ toolhead (printer w') = after
         /\ trace (printer w')
            = trace (printer w) ++ full_probe_events w
                ++ [EvRespond "%s: Bed sensor measured offset: z=%.6f"
                              [AStr (Full.name c);
                               ANum ((_get_pos_z pos + Full.z_offset c) * -1)%Q]]
     | _ =>
         r = Raise ProbeFault
         /\ self w' = Full.with_helper h' (self w)
         /\ toolhead (printer w') = toolhead_after_probe (printer w)
         /\ trace (printer w') = trace (printer w) ++ full_probe_events w
     end.

(** What an offset measurement, on either exit, leaves of the guard, of the
    per-run prepare and of the acceleration limit. *)
Definition lite_guard_post (w : World Lite.AutoZOffset) (w' : World Lite.AutoZOffset)
  : Prop :=
  Lite.z_current (self w') = guard_released (Lite.z_current (self w))
  /\ Lite._skip_prepare (self w') = Lite._skip_prepare (self w)
  /\ max_accel (printer w') = max_accel (printer w).

Definition full_guard_post (w : World Full.AutoZOffsetProbe)
    (w' : World Full.AutoZOffsetProbe) : Prop :=
  Full.helper_of (self w') = guard_released (Full.helper_of (self w)).

(** [Lite.cmd_home_z], by cases on the probing call ahead: where the
    toolhead reads afterwards. *)
Definition lite_home_post (w : World Lite.AutoZOffset) (r : Res unit)
    (w' : World Lite.AutoZOffset) : Prop :=
  let o := self w in
  Lite.z_current (self w') = guard_released (Lite.z_current o)
  /\ max_accel (printer w') = max_accel (printer w)
  /\ match future (printer w) with
     | Triggered after _ :: rest =>
         r = Ok tt
         /\ toolhead (printer w')
            = mkCoord (pos_x after) (pos_y after)
                      (Lite.z_offset o + Lite.probe_hop o) (pos_e after)
         /\ Lite.last_bed_z (self w') = pos_z after
         /\ future (printer w') = rest
     | Fault stopped :: rest =>
         r = Raise ProbeFault
         /\ toolhead (printer w') = stopped
         /\ Lite.last_bed_z (self w') = Lite.last_bed_z o
         /\ future (printer w') = rest
     | [] =>
         r = Raise ProbeFault
         /\ toolhead (printer w')
            = mkCoord (Lite.center_x o) (Lite.center_y o)
                      (Qmax (pos_z (toolhead (printer w))) (Lite.probe_hop o))
                      (pos_e (toolhead (printer w)))
         /\ Lite.last_bed_z (self w') = Lite.last_bed_z o
         /\ future (printer w') = []
     end.

Definition full_home_post (w : World Full.AutoZOffsetProbe) (r : Res unit)
    (w' : World Full.AutoZOffsetProbe) : Prop :=
  let c := Full.cmd_helper (self w) in
  Full.helper_of (self w') = guard_released (Full.helper_of (self w))
  /\ match future (printer w) with
     | Triggered after pos :: rest =>
         r = Ok tt
         /\ toolhead (printer w')
            = mkCoord (pos_x after) (pos_y after)
                      (Full.z_offset c + Full.probe_hop c) (pos_e after)
         /\ Full.last_z_result (Full.cmd_helper (self w'))
            = (_get_pos_z pos + Full.z_offset c)%Q
         /\ future (printer w') = rest
     | Fault stopped :: rest =>
         r = Raise ProbeFault
         /\ toolhead (printer w') = stopped
         /\ Full.last_z_result (Full.cmd_helper (self w')) = Full.last_z_result c
         /\ future (printer w') = rest
     | [] =>
         r = Raise ProbeFault
         /\ toolhead (printer w')
            = mkCoord (Full.bed_center_x c) (Full.bed_center_y c)
                      (Qmax (pos_z (toolhead (printer w))) (Full.probe_hop c))
                      (pos_e (toolhead (printer w)))
         /\ Full.last_z_result (Full.cmd_helper (self w')) = Full.last_z_result c
         /\ future (printer w') = []
     end.

(** [xs] occurs in [l] as consecutive entries. *)
Definition consecutive {A : Type} (xs l : list A) : Prop :=
  exists before later, l = before ++ xs ++ later.

(** The calls between the two probes of one [Lite.cmd_measure_offset]: the
    lift from where the bed sensor probe left the toolhead, the move that
    brings the inductive probe over the bed centre at that height, and the
    reference probe. *)
Definition lite_reference_calls (o : Lite.AutoZOffset) (after : Coord)
  : list Event :=
  [EvMove [None; None; Some (pos_z after + Lite.probe_hop o)%Q]
          (Lite.lift_speed o);
   EvMove [Some (Lite.center_x o - Lite._ind_x_off o)%Q;
           Some (Lite.center_y o - Lite._ind_y_off o)%Q;
           Some (pos_z after + Lite.probe_hop o)%Q; Some (pos_e after)]
          (Lite.xy_speed o);
   EvScript PROBE_SAMPLES_1].

(** The same calls of one [Full.cmd_AUTO_Z_MEASURE_OFFSET]. *)
Definition full_reference_calls (o : Full.AutoZOffsetProbe) (after : Coord)
  : list Event :=
  let c := Full.cmd_helper o in
  let offsets := Full._get_probe_xy_offsets (Full.inductive_probe o) in
  [EvMove [Some (pos_x after); Some (pos_y after);
           Some (pos_z after + Full.probe_hop c)%Q; Some (pos_e after)]
          (Full.lift_speed (Full.param_helper o));
   EvMove [Some (Full.bed_center_x c - fst offsets)%Q;
           Some (Full.bed_center_y c - snd offsets)%Q;
           Some (pos_z after + Full.probe_hop c)%Q; Some (pos_e after)]
          (Full.xy_move_speed c);
   EvRunSingleProbe InductiveProbe].

(** ** Under the hold of a calibration *)

(** Events that neither set a driver current nor run the prepare macro. *)
Definition steady (ev : Event) : Prop :=
  match ev with
  | EvScript (SET_TMC_CURRENT _ _) => False
  | EvScript PREPARE_GCODE => False
  | _ => True
  end.

(** A command run under the calibration's hold: reduced helper, hold flag
    set, per-run prepare disabled.  It leaves all three as they are and adds
    only steady events. *)
Definition lite_held (o : Lite.AutoZOffset) : Prop :=
  _hold (Lite.z_current o) = true
  /\ _is_reduced (Lite.z_current o) = true
  /\ Lite._skip_prepare o = true.

Definition lite_held_post (w w' : World Lite.AutoZOffset) : Prop :=
  Lite.z_current (self w') = Lite.z_current (self w)
  /\ Lite._skip_prepare (self w') = Lite._skip_prepare (self w)
  /\ exists evs,
      trace (printer w') = trace (printer w) ++ evs /\ Forall steady evs.

Definition full_held (o : Full.AutoZOffsetProbe) : Prop :=
  _hold (Full.helper_of o) = true /\ _is_reduced (Full.helper_of o) = true.

Definition full_held_post (w w' : World Full.AutoZOffsetProbe) : Prop :=
  Full.helper_of (self w') = Full.helper_of (self w)
  /\ exists evs,
      trace (printer w') = trace (printer w) ++ evs /\ Forall steady evs.

(** Events that do not set a driver current. *)
Definition keeps_current (ev : Event) : Prop :=
  match ev with
  | EvScript (SET_TMC_CURRENT _ _) => False
  | _ => True
  end.

(** The calibration command: its external calls, with the one prepare and
    the two groups of set-current scripts singled out. *)
Definition calibrate_trace_post {Obj} (h : ZStepperCurrentHelper)
    (w w' : World Obj) : Prop :=
  exists mid post,
    trace (printer w')
    = trace (printer w)
        ++ [EvScript SET_GCODE_OFFSET_Z0; EvScript PREPARE_GCODE]
        ++ map EvScript (fst (reduce h))
        ++ mid
        ++ map EvScript (restore_scripts h)
        ++ post
    /\ Forall steady mid /\ Forall steady post.

(** ** Counting a sampling session *)

(** A call of the probing primitive of a session. *)
Definition is_probe_call (ev : Event) : bool :=
  match ev with
  | EvProbe => true
  | _ => false
  end.

(** How many probing calls a trace shows. *)
Definition count_probes (evs : list Event) : nat :=
  length (List.filter is_probe_call evs).

(** The probing calls the sampling loop can still make, started with
    [positions] and [retries]. *)
Definition probes_left (params : Full.ProbeParams) (positions : list Position)
    (retries : nat) : nat :=
  (Full.samples_tolerance_retries params - retries) * Full.samples params
  + (Full.samples params - length positions).

(** The sampling loop, counted: probing calls within [probes_left], and a
    tolerance error only once the retry budget is used up. *)
Definition sample_loop_counts_post (params : Full.ProbeParams)
    (positions : list Position) (retries : nat)
    (w : World Full.AutoZOffsetProbe) (r : Res (list Position))
    (w' : World Full.AutoZOffsetProbe) : Prop :=
  exists evs,
    trace (printer w') = trace (printer w) ++ evs
    /\ (count_probes evs <= probes_left params positions retries)%nat
    /\ (r = Raise SamplesTolerance ->
        retries + count_retries evs = Full.samples_tolerance_retries params)%nat
    /\ (forall accepted, r = Ok accepted ->
        (Full.samples params - length positions <= count_probes evs)%nat).

(** A probing call that triggers, as an entry of [future]. *)
Definition triggered (outcome : Coord * Position) : ProbeOutcome :=
  Triggered (fst outcome) (snd outcome).

(** The retract between two samples of a session. *)
Definition retract_move (params : Full.ProbeParams) (probexy : Q * Q)
    (after : Coord) : list (option Q) :=
  [Some (fst probexy); Some (snd probexy);
   Some (pos_z after + Full.sample_retract_dist params)%Q].

(** The external calls of a sampling loop whose samples are all accepted: a
    probing call per sample and a retract between two samples. *)
Fixpoint session_events (params : Full.ProbeParams) (probexy : Q * Q)
    (outcomes : list (Coord * Position)) : list Event :=
  match outcomes with
  | [] => []
  | (after, _) :: rest =>
      EvProbe
      :: match rest with
         | [] => []
         | _ => [EvMove (retract_move params probexy after)
                        (Full.lift_speed params)]
         end
      ++ session_events params probexy rest
  end.

(** Where these calls leave the toolhead. *)
Fixpoint session_toolhead (params : Full.ProbeParams) (probexy : Q * Q)
    (outcomes : list (Coord * Position)) (start : Coord) : Coord :=
  match outcomes with
  | [] => start
  | (after, _) :: rest =>
      match rest with
      | [] => after
      | _ => session_toolhead params probexy rest
               (apply_coord (retract_move params probexy after) after)
      end
  end.

(** ** Discovery and further examples *)

(** Python 3's whitespace among the ASCII characters. *)
Definition ascii_isspace (c : Ascii.ascii) : bool :=
  let n := Ascii.nat_of_ascii c in
  ((9 <=? n) && (n <=? 13) || (28 <=? n) && (n <=? 32))%nat.

Definition objects_example : list (string * PrinterObject) :=
  [("tmc2209 stepper_z", mkPrinterObject (Some 1.2%Q));
   ("tmc2209 stepper_x", mkPrinterObject (Some 0.8%Q));
   ("stepper_z", mkPrinterObject None);
   ("tmc2240  stepper_z1", mkPrinterObject (Some 1.0%Q));
   ("tmc2209 stepper_z2", mkPrinterObject None);
   ("tmc2209 stepper_z extra", mkPrinterObject (Some 0.5%Q))].

(** Scripts that set the current of a driver of a Z stepper. *)
Definition sets_z_current (s : Script) : Prop :=
  exists stepper current,
    s = SET_TMC_CURRENT stepper current
    /\ String.prefix "stepper_z" stepper = true.

(** The full module with an acceleration override of 1000 that no
    [probe_prepare] has run on yet. *)
Definition full_world_accel : World Full.AutoZOffsetProbe :=
  mkWorld (Full.set_mcu_probe (Full.mkWrapper 1000 false None) full_example)
          (printer_example []).

(** Four probing calls that trigger within 0.005 of each other. *)
Definition close_outcomes : list (Coord * Position) :=
  map (fun z => (mkCoord 100 100 z 0, Plain 100 100 z))
      [2.000; 2.005; 2.001; 2.003]%Q.

(** A session of four samples with tolerance 0.01 and those calls ahead. *)
Definition session_close : World Full.AutoZOffsetProbe :=
  session_world 4 0 0.01 [2.000; 2.005; 2.001; 2.003]%Q.

(** * Properties *)

(** ** The current guard *)

Lemma reduce_when_reduced (h : ZStepperCurrentHelper) :
  _is_reduced h = true -> reduce h = ([], h).
Proof. intros H. unfold reduce. now rewrite H. Qed.

Lemma reduce_sets_flag (h : ZStepperCurrentHelper) :
  _is_reduced (snd (reduce h)) = true.
Proof. unfold reduce. destruct (_is_reduced h) eqn:E; simpl; auto. Qed.

Lemma guard_keeps_config (h : ZStepperCurrentHelper) :
  (_saved_currents (snd (reduce h)) = _saved_currents h
   /\ probe_current_factor (snd (reduce h)) = probe_current_factor h
   /\ _hold (snd (reduce h)) = _hold h)
  /\ (_saved_currents (snd (restore h)) = _saved_currents h
      /\ probe_current_factor (snd (restore h)) = probe_current_factor h
      /\ _hold (snd (restore h)) = _hold h).
Proof.
  unfold reduce, restore.
  destruct h as [f s [|] [|]]; simpl; repeat split; reflexivity.
Qed.

(** C4.  [restore()] issues nothing and changes nothing whenever the hold flag
    is set or the helper is not reduced; a [reduce()] that follows a
    [reduce()] issues nothing and changes nothing, so two [reduce()] in a row
    issue the set-current commands once, one per saved stepper. *)
Theorem current_guard_noop_and_idempotent (h : ZStepperCurrentHelper) :
  ((_hold h = true \/ _is_reduced h = false) -> restore h = ([], h))
  /\ (let h1 := snd (reduce h) in reduce h1 = ([], h1))
  /\ (_is_reduced h = false ->
      fst (reduce h) ++ fst (reduce (snd (reduce h)))
      = map (fun '(stepper_name, nominal) =>
               SET_TMC_CURRENT stepper_name (nominal * probe_current_factor h)%Q)
            (_saved_currents h)).
Proof.
  split; [|split].
  - intros [H | H]; unfold restore; rewrite H;
      [now rewrite orb_true_r | reflexivity].
  - cbv zeta. apply reduce_when_reduced, reduce_sets_flag.
  - intros H.
    rewrite (reduce_when_reduced (snd (reduce h)) (reduce_sets_flag h)).
    unfold reduce. rewrite H. simpl. now rewrite app_nil_r.
Qed.

Lemma current_guard_witness :
  restore (set_hold true (snd (reduce helper_example)))
  = ([], set_hold true (snd (reduce helper_example)))
  /\ fst (reduce helper_example)
       ++ fst (reduce (snd (reduce helper_example)))
     = [SET_TMC_CURRENT "stepper_z" (1.2 * 0.33)%Q;
        SET_TMC_CURRENT "stepper_z1" (1.2 * 0.33)%Q].
Proof.
  split.
  - apply (proj1 (current_guard_noop_and_idempotent
                    (set_hold true (snd (reduce helper_example))))).
    left. reflexivity.
  - apply (proj2 (proj2 (current_guard_noop_and_idempotent helper_example))).
    reflexivity.
Defined.

(** ** Rules of the weakest preconditions *)

Section WP.
Context {Obj : Type}.
Implicit Types (w : World Obj) (p : Printer).

Lemma wp_mono {A} (m : M A) (Q Q' : Res A -> World Obj -> Prop) w :
  wp m Q w -> (forall r w', Q r w' -> Q' r w') -> wp m Q' w.
Proof. unfold wp. auto. Qed.

Lemma wp_ret {A} (a : A) Q w : Q (Ok a) w -> wp (ret a) Q w.
Proof. exact (fun H => H). Qed.

Lemma wp_raise {A} ex (Q : Res A -> World Obj -> Prop) w :
  Q (Raise ex) w -> wp (raise ex) Q w.
Proof. exact (fun H => H). Qed.

Lemma wp_bind {A B} (m : M A) (k : A -> M B) Q w :
  wp m (fun r w1 =>
          match r with
          | Ok a => wp (k a) Q w1
          | Raise ex => Q (Raise ex) w1
          end) w ->
  wp (bind m k) Q w.
Proof. unfold wp, bind. destruct (m w) as [[a|ex] w1]; auto. Qed.

Lemma wp_try_finally {A} (body : M A) (cleanup : M unit) Q w :
  wp body (fun r w1 =>
             wp cleanup (fun rc w2 =>
                           match rc with
                           | Ok _ => Q r w2
                           | Raise ex => Q (Raise ex) w2
                           end) w1) w ->
  wp (try_finally body cleanup) Q w.
Proof.
  unfold wp, try_finally. destruct (body w) as [r w1]. cbn.
  destruct (cleanup w1) as [[u|ex] w2]; auto.
Qed.

Lemma wp_get_self Q w : Q (Ok (self w)) w -> wp get_self Q w.
Proof. exact (fun H => H). Qed.

Lemma wp_set_self o Q w : Q (Ok tt) (mkWorld o (printer w)) -> wp (set_self o) Q w.
Proof. exact (fun H => H). Qed.

Lemma wp_get_printer Q w : Q (Ok (printer w)) w -> wp get_printer Q w.
Proof. exact (fun H => H). Qed.

Lemma wp_set_printer p Q w :
  Q (Ok tt) (mkWorld (self w) p) -> wp (set_printer p) Q w.
Proof. exact (fun H => H). Qed.

Lemma wp_emit ev Q w :
  Q (Ok tt) (mkWorld (self w) (log ev (printer w))) -> wp (emit ev) Q w.
Proof. exact (fun H => H). Qed.

Lemma wp_get_position Q w :
  Q (Ok (toolhead (printer w))) w -> wp get_position Q w.
Proof. exact (fun H => H). Qed.

Lemma wp_manual_move coord speed Q w :
  Q (Ok tt) (mkWorld (self w) (moved coord speed (printer w))) ->
  wp (manual_move coord speed) Q w.
Proof. exact (fun H => H). Qed.

Lemma wp_next_probe Q w :
  Q (fst (next_probed (printer w)))
    (mkWorld (self w) (snd (next_probed (printer w)))) ->
  wp next_probe Q w.
Proof.
  unfold wp, next_probed. destruct w as [o [th ma hz fut tr]]. cbn.
  destruct fut as [|[after result|] rest]; cbn; auto.
Qed.

Lemma run_scripts_tmc (scripts : list Script) w :
  Forall is_tmc scripts ->
  run_scripts scripts w
  = (Ok tt, mkWorld (self w) (log_all (map EvScript scripts) (printer w))).
Proof.
  intros H. revert w. induction H as [|s rest Hs _ IH]; intros [o p].
  - destruct p; cbn. unfold log_all; cbn. now rewrite app_nil_r.
  - destruct s; try contradiction. cbn.
    rewrite IH. unfold log_all, log; cbn. now rewrite <- app_assoc.
Qed.

Lemma reduce_tmc (h : ZStepperCurrentHelper) : Forall is_tmc (fst (reduce h)).
Proof.
  unfold reduce. destruct (_is_reduced h); cbn; [constructor|].
  induction (_saved_currents h) as [|[n c] l IH]; constructor;
    [exact I | exact IH].
Qed.

Lemma restore_tmc (h : ZStepperCurrentHelper) : Forall is_tmc (fst (restore h)).
Proof.
  unfold restore. destruct (negb (_is_reduced h) || _hold h); cbn; [constructor|].
  induction (_saved_currents h) as [|[n c] l IH]; constructor;
    [exact I | exact IH].
Qed.

Variable get_helper : Obj -> ZStepperCurrentHelper.
Variable set_helper : ZStepperCurrentHelper -> Obj -> Obj.

Lemma wp_call_helper method Q w :
  Forall is_tmc (fst (method (get_helper (self w)))) ->
  Q (Ok tt) (helper_called get_helper set_helper method w) ->
  wp (call_helper get_helper set_helper method) Q w.
Proof.
  intros Htmc H. unfold wp, call_helper, bind, get_self. cbn [fst snd].
  rewrite run_scripts_tmc by exact Htmc. exact H.
Qed.

Lemma wp_reduce Q w :
  Q (Ok tt) (helper_called get_helper set_helper reduce w) ->
  wp (call_helper get_helper set_helper reduce) Q w.
Proof. apply wp_call_helper, reduce_tmc. Qed.

Lemma wp_restore Q w :
  Q (Ok tt) (helper_called get_helper set_helper restore w) ->
  wp (call_helper get_helper set_helper restore) Q w.
Proof. apply wp_call_helper, restore_tmc. Qed.

Lemma wp_assign_hold b Q w :
  Q (Ok tt) (mkWorld (set_helper (set_hold b (get_helper (self w))) (self w))
                     (printer w)) ->
  wp (assign_hold get_helper set_helper b) Q w.
Proof. exact (fun H => H). Qed.

End WP.

Ltac wp_simpl :=
  cbn [self printer toolhead max_accel homing_position_z future trace
       fst snd tl moved log log_all helper_called next_probed] in *.

Ltac wp_step :=
  lazymatch goal with
  | |- wp next_probe _ _ => apply wp_next_probe
  | |- wp (if ?b then _ else _) _ _ => destruct b eqn:?
  | |- wp (bind _ _) _ _ => apply wp_bind
  | |- wp (try_finally _ _) _ _ => apply wp_try_finally
  | |- wp (ret _) _ _ => apply wp_ret
  | |- wp (raise _) _ _ => apply wp_raise
  | |- wp get_self _ _ => apply wp_get_self
  | |- wp (set_self _) _ _ => apply wp_set_self
  | |- wp get_printer _ _ => apply wp_get_printer
  | |- wp (set_printer _) _ _ => apply wp_set_printer
  | |- wp (emit _) _ _ => apply wp_emit
  | |- wp get_position _ _ => apply wp_get_position
  | |- wp (manual_move _ _) _ _ => apply wp_manual_move
  | |- wp (call_helper _ _ reduce) _ _ => apply wp_reduce
  | |- wp (call_helper _ _ restore) _ _ => apply wp_restore
  | |- wp (assign_hold _ _ _) _ _ => apply wp_assign_hold
  | |- wp (respond_info _ _) _ _ => unfold respond_info
  | |- wp (configfile_set _ _ _) _ _ => unfold configfile_set
  | |- wp get_status_max_accel _ _ => unfold get_status_max_accel
  | |- wp (run_script_from_command _) _ _ =>
      unfold run_script_from_command; cbv iota
  end; cbv beta iota; wp_simpl.

Lemma Qgtb_true (a b : Q) : Qgtb a b = true <-> (b < a)%Q.
Proof.
  unfold Qgtb. rewrite negb_true_iff, <- not_true_iff_false, Qle_bool_iff.
  split; [apply Qnot_le_lt | apply Qlt_not_le].
Qed.

Lemma Qgtb_false (a b : Q) : Qgtb a b = false <-> (a <= b)%Q.
Proof. unfold Qgtb. now rewrite negb_false_iff, Qle_bool_iff. Qed.

(** ** The probing move of the bed sensor *)

Lemma lite_probe_bed_sensor_run (w : World Lite.AutoZOffset) :
  Lite._probe_bed_sensor w
  = (match probe_result (printer w) with
     | Ok _ => Ok (pos_z (toolhead_after_probe (printer w)))
     | Raise ex => Raise ex
     end,
     mkWorld (self w)
             (mkPrinter (toolhead_after_probe (printer w))
                        (max_accel (printer w))
                        (homing_position_z (printer w))
                        (tl (future (printer w)))
                        (trace (printer w) ++ lite_bed_events w))).
Proof.
  destruct w as [o [th ma hz fut tr]].
  unfold Lite._probe_bed_sensor, lite_bed_events, probe_result,
    toolhead_after_probe, lite_target.
  cbn. destruct (Qgtb (Lite.probe_accel o) 0);
    destruct fut as [|[after result|] rest]; cbn;
    repeat rewrite <- app_assoc; reflexivity.
Qed.

Lemma wp_of_run {Obj A} (m : M (Obj := Obj) A) (w : World Obj) r w'
    (Q : Res A -> World Obj -> Prop) :
  m w = (r, w') -> Q r w' -> wp m Q w.
Proof. intros H HQ. unfold wp. rewrite H. exact HQ. Qed.

Lemma run_of_wp {Obj A} (m : M (Obj := Obj) A) (w : World Obj)
    (Q : Res A -> World Obj -> Prop) r w' :
  wp m Q w -> m w = (r, w') -> Q r w'.
Proof. intros HQ H. unfold wp in HQ. rewrite H in HQ. exact HQ. Qed.

(** ** Frames: what a measurement leaves alone *)

Lemma printer_frame_refl p : printer_frame p p.
Proof.
  repeat split. exists []. split; [now rewrite app_nil_r | constructor].
Qed.

Lemma printer_frame_trans p1 p2 p3 :
  printer_frame p1 p2 -> printer_frame p2 p3 -> printer_frame p1 p3.
Proof.
  intros (Hz1 & Ha1 & e1 & Ht1 & Hq1) (Hz2 & Ha2 & e2 & Ht2 & Hq2).
  repeat split; try congruence.
  exists (e1 ++ e2). split.
  - rewrite Ht2, Ht1. now rewrite <- app_assoc.
  - apply Forall_app; auto.
Qed.

Lemma guard_frame_refl h : guard_frame h h.
Proof. repeat split; auto. Qed.

Lemma guard_frame_trans h1 h2 h3 :
  guard_frame h1 h2 -> guard_frame h2 h3 -> guard_frame h1 h3.
Proof.
  intros (Hs1 & Hf1 & Hh1 & Hr1) (Hs2 & Hf2 & Hh2 & Hr2).
  repeat split; try congruence.
  intros Hh Hr. apply Hr2; [congruence | auto].
Qed.

Lemma guard_frame_probe h : guard_frame h (snd (restore (snd (reduce h)))).
Proof.
  destruct h as [f s [|] [|]]; cbn; repeat split; auto; discriminate.
Qed.

Lemma tmc_quiet (scripts : list Script) :
  Forall is_tmc scripts -> Forall quiet (map EvScript scripts).
Proof.
  induction 1 as [|s rest Hs _ IH]; cbn; constructor; auto.
  destruct s; try contradiction. exact I.
Qed.

Lemma lite_bed_events_quiet w : Forall quiet (lite_bed_events w).
Proof.
  unfold lite_bed_events. destruct (Qgtb _ _); repeat constructor.
Qed.

Ltac quiet_tac :=
  repeat first
    [ apply Forall_nil
    | apply List.Forall_cons; [exact I|]
    | apply Forall_app; split
    | apply tmc_quiet; first [apply reduce_tmc | apply restore_tmc]
    | apply lite_bed_events_quiet ].

Ltac split_future fut :=
  destruct fut as [|[? ?|] [|[? ?|] ?]].

(** ** auto_z_offset_lite.py: one measurement *)

Ltac lite_simpl :=
  cbn [Lite.name Lite.z_offset Lite.probe_hop Lite.probe_speed Lite.lift_speed
       Lite.probe_accel Lite.offset_samples Lite.calibrated_z_offset
       Lite.xy_speed Lite.center_x Lite.center_y Lite.z_min Lite._skip_prepare
       Lite.z_current Lite.last_bed_z Lite._ind_x_off Lite._ind_y_off
       Lite.set_calibrated_z_offset Lite.set_skip_prepare Lite.set_z_current
       Lite.set_last_bed_z] in *.

Ltac lite_unfold :=
  unfold Lite.cmd_measure_offset, Lite.cmd_probe, Lite._move_to_center,
    Lite._lift, Lite._probe_inductive, Lite._get_z, Lite.cmd_load_offset,
    Lite._store, Lite.z_current_reduce, Lite.z_current_restore,
    Lite.z_current_hold.

Ltac lite_step :=
  lazymatch goal with
  | |- wp Lite._probe_bed_sensor _ _ =>
      eapply wp_of_run; [apply lite_probe_bed_sensor_run|];
      unfold probe_result, toolhead_after_probe; wp_simpl
  | |- _ => wp_step
  end;
  lite_simpl.

Lemma lite_measure_spec (w : World Lite.AutoZOffset) :
  wp Lite.cmd_measure_offset (lite_measure_post w) w.
Proof.
  destruct w as [o [th ma hz fut tr]].
  split_future fut; lite_unfold; repeat lite_step.
  all: unfold lite_measure_post, lite_obj_frame; wp_simpl; lite_simpl.
  all: repeat rewrite <- app_assoc.
  all: split; [split; [do 2 eexists; reflexivity | apply guard_frame_probe]|].
  all: split; [reflexivity|]; split; [reflexivity|].
  all: eexists; split; [reflexivity|]; split; [quiet_tac|].
  all: try reflexivity.
  all: repeat split.
  all: unfold lite_offset_message; repeat rewrite in_app_iff; cbn; tauto.
Qed.

Lemma lite_obj_frame_refl o : lite_obj_frame o o.
Proof.
  split; [|apply guard_frame_refl].
  exists (Lite.last_bed_z o), (Lite.z_current o). now destruct o.
Qed.

Lemma lite_obj_frame_trans o1 o2 o3 :
  lite_obj_frame o1 o2 -> lite_obj_frame o2 o3 -> lite_obj_frame o1 o3.
Proof.
  intros [(z1 & h1 & ->) G1] [(z2 & h2 & ->) G2].
  split; [|eapply guard_frame_trans; eauto].
  now exists z2, h2.
Qed.

Lemma lite_frame_refl w : lite_frame w w.
Proof. split; [apply lite_obj_frame_refl | apply printer_frame_refl]. Qed.

Lemma lite_frame_trans w1 w2 w3 :
  lite_frame w1 w2 -> lite_frame w2 w3 -> lite_frame w1 w3.
Proof.
  intros [O1 P1] [O2 P2].
  split; [eapply lite_obj_frame_trans | eapply printer_frame_trans]; eauto.
Qed.

Lemma lite_measure_frame w r w' : lite_measure_post w r w' -> lite_frame w w'.
Proof.
  intros (Hobj & Hhz & Hacc & evs & Htr & Hq & _).
  split; [exact Hobj|]. repeat split; auto. now exists evs.
Qed.

Lemma lite_loop_spec (n : nat) : forall total w,
  wp (Lite.measure_loop n total) (lite_loop_post n total w) w.
Proof.
  induction n as [|n IH]; intros total w.
  - apply wp_ret. split; [apply lite_frame_refl | now split].
  - cbn [Lite.measure_loop]. apply wp_bind.
    eapply wp_mono; [apply lite_measure_spec|].
    intros r1 w1 Hpost. pose proof (lite_measure_frame _ _ _ Hpost) as Hfr.
    destruct Hpost as (_ & _ & _ & evs & _ & _ & Hres).
    destruct r1 as [v|ex].
    + eapply wp_mono; [apply IH|].
      intros r2 w2 [Hfr2 Hres2].
      split; [eapply lite_frame_trans; eauto|].
      cbn [lite_run_offsets].
      destruct (future (printer w)) as [|[a1 p1|] [|[a2 p2|] rest]];
        try discriminate.
      destruct Hres as (Hv & Hrest & _). injection Hv as <-.
      rewrite Hrest in Hres2.
      destruct (lite_run_offsets n rest) as [[offsets rest']|]; exact Hres2.
    + split; [exact Hfr|].
      cbn [lite_run_offsets].
      destruct (future (printer w)) as [|[a1 p1|] [|[a2 p2|] rest]];
        try exact Hres.
      destruct Hres as (Hv & _). discriminate.
Qed.

Lemma restore_released (h : ZStepperCurrentHelper) :
  _is_reduced h = true ->
  restore (set_hold false h)
  = (restore_scripts h,
     mkHelper (probe_current_factor h) (_saved_currents h) false false).
Proof. intros H. unfold restore, set_hold; cbn. now rewrite H. Qed.

Lemma restore_scripts_saved h h' :
  _saved_currents h' = _saved_currents h -> restore_scripts h' = restore_scripts h.
Proof. unfold restore_scripts. now intros ->. Qed.

Lemma lite_calibrate_spec (w : World Lite.AutoZOffset) :
  wp Lite.cmd_calibrate (lite_calibrate_post w) w.
Proof.
  unfold Lite.cmd_calibrate. lite_unfold. repeat lite_step.
  eapply wp_mono; [apply lite_loop_spec|].
  intros r1 w1 [[[(bed_z & h1 & Hself) Hg] Hp] Hres].
  wp_simpl; lite_simpl.
  repeat lite_step.
  destruct Hg as (Hsaved & Hfactor & Hhold & Hred).
  destruct (guard_keeps_config (Lite.z_current (self w)))
    as [(Hs0 & Hf0 & Hh0) _].
  cbn [set_hold _saved_currents probe_current_factor _hold _is_reduced]
    in Hsaved, Hfactor, Hhold, Hred.
  specialize (Hred eq_refl (reduce_sets_flag _)).
  rewrite (restore_released _ Hred).
  rewrite Hs0 in Hsaved. rewrite Hf0 in Hfactor.
  rewrite (restore_scripts_saved _ _ Hsaved), Hsaved, Hfactor.
  destruct Hp as (Hhz & Hacc & evs & Htr & Hq).
  wp_simpl.
  set (o1 := self w1) in *. clearbody o1. subst o1.
  destruct r1 as [total|ex].
  - repeat lite_step.
    unfold lite_calibrate_post. wp_simpl; lite_simpl.
    split; [now exists bed_z|]. split.
    + rewrite Htr. repeat rewrite <- app_assoc.
      exists evs. eexists. split; [reflexivity|]. split; [exact Hq|].
      do 2 eexists. reflexivity.
    + destruct (lite_run_offsets _ _) as [[offsets rest]|];
        [|discriminate].
      destruct Hres as [Hv Hrest]. injection Hv as ->. now repeat split.
  - unfold lite_calibrate_post. wp_simpl; lite_simpl.
    split; [now exists bed_z|]. split.
    + rewrite Htr. repeat rewrite <- app_assoc.
      exists evs, []. split; [now rewrite app_nil_r|]. now split.
    + destruct (lite_run_offsets _ _) as [[offsets rest]|].
      * destruct Hres as [Hv _]. discriminate.
      * injection Hres as ->. now repeat split.
Qed.

(** ** auto_z_offset.py: one measurement *)

Ltac full_simpl :=
  cbn [Full.mcu_probe Full.cmd_helper Full.probe_session Full.param_helper
       Full.inductive_probe Full.set_mcu_probe Full.set_cmd_helper
       Full.set_probe_session Full.probe_accel Full.skip_prepare
       Full.old_max_accel Full.set_skip_prepare Full.set_old_max_accel
       Full.name Full.xy_move_speed Full.z_offset Full.probe_hop
       Full.offset_samples Full.calibrated_z_offset Full.bed_center_x
       Full.bed_center_y Full.z_current_helper Full.last_probe_position
       Full.last_z_result Full.set_z_current_helper
       Full.set_calibrated_z_offset Full.set_last_probe Full.helper_of
       Full.with_helper Full._make_coord Full.probe_z_offset
       Full.hw_probe_session Full.results Full.append_result
       _get_pos_xyz _get_pos_z] in *.

Ltac full_unfold :=
  unfold Full.cmd_AUTO_Z_MEASURE_OFFSET, Full.cmd_AUTO_Z_PROBE,
    Full._move_to_center, Full._lift_probe, Full._move, Full.run_single_probe,
    Full.cmd_AUTO_Z_LOAD_OFFSET, Full._store_z_offset, Full.run_prepare_gcode,
    Full.get_cmd, Full.update_cmd, Full.update_wrapper,
    Full.z_current_reduce, Full.z_current_restore, Full.z_current_hold.

Ltac full_step :=
  lazymatch goal with
  | |- wp (match ?e with _ => _ end) _ _ => destruct e eqn:?
  | |- _ => wp_step
  end;
  full_simpl.

Lemma full_measure_spec (w : World Full.AutoZOffsetProbe) :
  wp Full.cmd_AUTO_Z_MEASURE_OFFSET (full_measure_post w) w.
Proof.
  destruct w as [o [th ma hz fut tr]].
  destruct fut as [|[? [? ? ?|? ? ? ? ? ?]|] [|[? [? ? ?|? ? ? ? ? ?]|] ?]].
  all: full_unfold; repeat full_step.
  all: unfold full_measure_post, full_obj_frame, full_true_offset,
         full_offset_message; wp_simpl; full_simpl.
  all: repeat rewrite <- app_assoc.
  all: split; [split; [do 3 eexists; reflexivity | apply guard_frame_probe]|].
  all: split; [reflexivity|]; split; [reflexivity|].
  all: eexists; split; [reflexivity|]; split; [quiet_tac|].
  all: try reflexivity.
  all: repeat split.
  all: repeat rewrite in_app_iff; cbn; tauto.
Qed.

Lemma full_obj_frame_refl o : full_obj_frame o o.
Proof.
  split; [|apply guard_frame_refl].
  exists (Full.last_probe_position (Full.cmd_helper o)),
    (Full.last_z_result (Full.cmd_helper o)),
    (Full.z_current_helper (Full.cmd_helper o)).
  destruct o as [m c s p i]. now destruct c.
Qed.

Lemma full_obj_frame_trans o1 o2 o3 :
  full_obj_frame o1 o2 -> full_obj_frame o2 o3 -> full_obj_frame o1 o3.
Proof.
  intros [(p1 & z1 & h1 & ->) G1] [(p2 & z2 & h2 & ->) G2].
  split; [|eapply guard_frame_trans; eauto].
  now exists p2, z2, h2.
Qed.

Lemma full_frame_refl w : full_frame w w.
Proof. split; [apply full_obj_frame_refl | apply printer_frame_refl]. Qed.

Lemma full_frame_trans w1 w2 w3 :
  full_frame w1 w2 -> full_frame w2 w3 -> full_frame w1 w3.
Proof.
  intros [O1 P1] [O2 P2].
  split; [eapply full_obj_frame_trans | eapply printer_frame_trans]; eauto.
Qed.

Lemma full_measure_frame w r w' : full_measure_post w r w' -> full_frame w w'.
Proof.
  intros (Hobj & Hhz & Hacc & evs & Htr & Hq & _).
  split; [exact Hobj|]. repeat split; auto. now exists evs.
Qed.

Lemma full_frame_z_offset w w' :
  full_frame w w' ->
  Full.z_offset (Full.cmd_helper (self w'))
  = Full.z_offset (Full.cmd_helper (self w)).
Proof. intros [[(p & z & h & ->) _] _]. reflexivity. Qed.

Lemma full_loop_spec (n : nat) : forall total w,
  wp (Full.measure_loop n total) (full_loop_post n total w) w.
Proof.
  induction n as [|n IH]; intros total w.
  - apply wp_ret. split; [apply full_frame_refl | now split].
  - cbn [Full.measure_loop]. apply wp_bind.
    eapply wp_mono; [apply full_measure_spec|].
    intros r1 w1 Hpost. pose proof (full_measure_frame _ _ _ Hpost) as Hfr.
    destruct Hpost as (_ & _ & _ & evs & _ & _ & Hres).
    destruct r1 as [v|ex].
    + eapply wp_mono; [apply IH|].
      intros r2 w2 [Hfr2 Hres2].
      split; [eapply full_frame_trans; eauto|].
      cbn [full_run_offsets].
      destruct (future (printer w)) as [|[a1 p1|] [|[a2 p2|] rest]];
        try discriminate.
      destruct Hres as (Hv & Hrest & _). injection Hv as Hv. subst v.
      rewrite Hrest, (full_frame_z_offset _ _ Hfr) in Hres2.
      unfold full_true_offset in Hres2.
      destruct (full_run_offsets _ n rest) as [[offsets rest']|]; exact Hres2.
    + split; [exact Hfr|].
      cbn [full_run_offsets].
      destruct (future (printer w)) as [|[a1 p1|] [|[a2 p2|] rest]];
        try exact Hres.
      destruct Hres as (Hv & _). discriminate.
Qed.

(** ** The calibration command *)

Lemma full_calibrate_spec (w : World Full.AutoZOffsetProbe) :
  wp Full.cmd_AUTO_Z_CALIBRATE (full_calibrate_post w) w.
Proof.
  unfold Full.cmd_AUTO_Z_CALIBRATE. full_unfold. repeat full_step.
  eapply wp_mono; [apply full_loop_spec|].
  intros r1 w1 [[[(position & z_result & h1 & Hself) Hg] Hp] Hres].
  unfold Full.helper_of, Full.with_helper in *.
  wp_simpl; full_simpl.
  repeat full_step.
  destruct Hg as (Hsaved & Hfactor & Hhold & Hred).
  destruct (guard_keeps_config
              (Full.z_current_helper (Full.cmd_helper (self w))))
    as [(Hs0 & Hf0 & Hh0) _].
  rewrite Hself in Hsaved, Hfactor, Hhold, Hred. 
  cbn [set_hold _saved_currents probe_current_factor _hold _is_reduced]
    in Hsaved, Hfactor, Hhold, Hred.
  full_simpl.
  specialize (Hred eq_refl (reduce_sets_flag _)).
  rewrite Hself. full_simpl.
  rewrite (restore_released _ Hred).
  rewrite Hs0 in Hsaved. rewrite Hf0 in Hfactor.
  rewrite (restore_scripts_saved _ _ Hsaved), Hsaved, Hfactor.
  destruct Hp as (Hhz & Hacc & evs & Htr & Hq).
  wp_simpl.
  destruct r1 as [total|ex].
  - repeat full_step.
    unfold full_calibrate_post, full_apply_events. wp_simpl; full_simpl.
    split; [now exists position, z_result|]. split.
    + rewrite Htr. repeat rewrite <- app_assoc.
      exists evs. eexists. split; [reflexivity|]. split; [exact Hq|].
      do 2 eexists. reflexivity.
    + destruct (full_run_offsets _ _ _) as [[offsets rest]|];
        [|discriminate].
      destruct Hres as [Hv Hrest]. injection Hv as ->. now repeat split.
  - unfold full_calibrate_post. wp_simpl; full_simpl.
    split; [now exists position, z_result|]. split.
    + rewrite Htr. repeat rewrite <- app_assoc.
      exists evs, []. split; [now rewrite app_nil_r|]. now split.
    + destruct (full_run_offsets _ _ _) as [[offsets rest]|].
      * destruct Hres as [Hv _]. discriminate.
      * injection Hres as ->. now repeat split.
Qed.

(** ** The calibration command: what is stored *)

Lemma lite_run_offsets_length n : forall fut offsets rest,
  lite_run_offsets n fut = Some (offsets, rest) -> length offsets = n.
Proof.
  induction n as [|n IH]; intros fut offsets rest; cbn.
  - now intros [= <- _].
  - destruct fut as [|[a1 p1|] [|[a2 p2|] fut']]; try discriminate.
    destruct (lite_run_offsets n fut') as [[offs rest']|] eqn:E;
      [|discriminate].
    intros [= <- _]. cbn. f_equal. eapply IH, E.
Qed.

Lemma full_run_offsets_length z_offset n : forall fut offsets rest,
  full_run_offsets z_offset n fut = Some (offsets, rest) -> length offsets = n.
Proof.
  induction n as [|n IH]; intros fut offsets rest; cbn.
  - now intros [= <- _].
  - destruct fut as [|[a1 p1|] [|[a2 p2|] fut']]; try discriminate.
    destruct (full_run_offsets z_offset n fut') as [[offs rest']|] eqn:E;
      [|discriminate].
    intros [= <- _]. cbn. f_equal. eapply IH, E.
Qed.

(** C1.  When the [offset_samples] measurements of a calibration return
    [offsets] (one per run, none raising), the command succeeds and the stored
    [calibrated_z_offset] is [-(sum offsets / offset_samples)], in both
    modules; with three runs returning 0.10, 0.12 and 0.11 it is -0.11. *)
Theorem calibrate_stores_negated_average :
  (forall (w : World Lite.AutoZOffset) offsets rest,
      lite_run_offsets (Pos.to_nat (Lite.offset_samples (self w)))
                       (future (printer w)) = Some (offsets, rest) ->
      fst (Lite.cmd_calibrate w) = Ok tt
      /\ length offsets = Pos.to_nat (Lite.offset_samples (self w))
      /\ (Lite.calibrated_z_offset (self (snd (Lite.cmd_calibrate w)))
          == - (Qsum offsets / inject_Z (Zpos (Lite.offset_samples (self w)))))%Q)
  /\ (forall (w : World Full.AutoZOffsetProbe) offsets rest,
      full_run_offsets (Full.z_offset (Full.cmd_helper (self w)))
                       (Pos.to_nat (Full.offset_samples (Full.cmd_helper (self w))))
                       (future (printer w)) = Some (offsets, rest) ->
      fst (Full.cmd_AUTO_Z_CALIBRATE w) = Ok tt
      /\ length offsets
         = Pos.to_nat (Full.offset_samples (Full.cmd_helper (self w)))
      /\ (Full.calibrated_z_offset
            (Full.cmd_helper (self (snd (Full.cmd_AUTO_Z_CALIBRATE w))))
          == - (Qsum offsets
                / inject_Z (Zpos (Full.offset_samples
                                    (Full.cmd_helper (self w))))))%Q)
  /\ (lite_run_offsets 3 (future (printer lite_world_example))
      = Some ([0.30 - 0.20; 0.32 - 0.20; 0.31 - 0.20]%Q, [])
      /\ (Lite.calibrated_z_offset
            (self (snd (Lite.cmd_calibrate lite_world_example))) == -0.11)%Q)
  /\ (full_run_offsets 0.2 3 (future (printer full_world_example))
      = Some ([0.10 + 0.2 - 0.20; 0.12 + 0.2 - 0.20; 0.11 + 0.2 - 0.20]%Q, [])
      /\ (Full.calibrated_z_offset
            (Full.cmd_helper
               (self (snd (Full.cmd_AUTO_Z_CALIBRATE full_world_example))))
          == -0.11)%Q).
Proof.
  split; [|split; [|split]].
  - intros w offsets rest Hrun.
    pose proof (lite_calibrate_spec w) as H.
    unfold wp, lite_calibrate_post in H. destruct H as (_ & _ & H).
    rewrite Hrun in H. destruct H as (Hr & Hc & _).
    split; [exact Hr|]. split; [eapply lite_run_offsets_length, Hrun|].
    rewrite Hc. reflexivity.
  - intros w offsets rest Hrun.
    pose proof (full_calibrate_spec w) as H.
    unfold wp, full_calibrate_post in H. destruct H as (_ & _ & H).
    rewrite Hrun in H. destruct H as (Hr & Hc & _).
    split; [exact Hr|]. split; [eapply full_run_offsets_length, Hrun|].
    rewrite Hc. unfold Qsum. ring.
  - split; [reflexivity | vm_compute; reflexivity].
  - split; [reflexivity | vm_compute; reflexivity].
Qed.

Lemma calibrate_average_witness :
  fst (Lite.cmd_calibrate lite_world_example) = Ok tt
  /\ length [0.30 - 0.20; 0.32 - 0.20; 0.31 - 0.20]%Q = 3%nat
  /\ (Lite.calibrated_z_offset
        (self (snd (Lite.cmd_calibrate lite_world_example)))
      == - (Qsum [0.30 - 0.20; 0.32 - 0.20; 0.31 - 0.20] / 3))%Q.
Proof.
  apply (proj1 calibrate_stores_negated_average lite_world_example
               [0.30 - 0.20; 0.32 - 0.20; 0.31 - 0.20]%Q []).
  reflexivity.
Defined.

(** ** The calibration command: cleanup and atomicity *)

(** C5.  Whatever the measuring loop does, complete or raise, the calibration
    command ends with the hold flag cleared, the helper no longer reduced and
    the per-run prepare re-enabled; the restore scripts of the helper are
    issued, and when the command raises nothing is issued after them. *)
Theorem calibrate_cleanup_on_every_exit :
  (forall w : World Lite.AutoZOffset,
      let r := fst (Lite.cmd_calibrate w) in
      let w' := snd (Lite.cmd_calibrate w) in
      _hold (Lite.z_current (self w')) = false
      /\ _is_reduced (Lite.z_current (self w')) = false
      /\ Lite._skip_prepare (self w') = false
      /\ exists before after,
          trace (printer w')
          = trace (printer w) ++ before
              ++ map EvScript (restore_scripts (Lite.z_current (self w)))
              ++ after
          /\ forall ex, r = Raise ex -> after = [])
  /\ (forall w : World Full.AutoZOffsetProbe,
      let r := fst (Full.cmd_AUTO_Z_CALIBRATE w) in
      let w' := snd (Full.cmd_AUTO_Z_CALIBRATE w) in
      _hold (Full.helper_of (self w')) = false
      /\ _is_reduced (Full.helper_of (self w')) = false
      /\ Full.skip_prepare (Full.mcu_probe (self w')) = false
      /\ exists before after,
          trace (printer w')
          = trace (printer w) ++ before
              ++ map EvScript (restore_scripts (Full.helper_of (self w)))
              ++ after
          /\ forall ex, r = Raise ex -> after = []).
Proof.
  split; intros w r w'.
  - pose proof (lite_calibrate_spec w) as H.
    unfold wp, lite_calibrate_post in H. fold r w' in H.
    destruct H as ((bed_z & Hself) & (mid & post & Htr & _ & Hpost) & _).
    rewrite Hself. repeat split.
    exists ([EvScript SET_GCODE_OFFSET_Z0; EvScript PREPARE_GCODE]
              ++ map EvScript (fst (reduce (Lite.z_current (self w)))) ++ mid),
      post.
    split.
    + rewrite Htr. now repeat rewrite <- app_assoc.
    + intros ex Hex. now rewrite Hex in Hpost.
  - pose proof (full_calibrate_spec w) as H.
    unfold wp, full_calibrate_post in H. fold r w' in H.
    destruct H as ((position & z_result & Hself)
                   & (mid & post & Htr & _ & Hpost) & _).
    rewrite Hself. repeat split.
    exists ([EvScript SET_GCODE_OFFSET_Z0; EvScript PREPARE_GCODE]
              ++ map EvScript (fst (reduce (Full.helper_of (self w)))) ++ mid),
      post.
    split.
    + rewrite Htr. now repeat rewrite <- app_assoc.
    + intros ex Hex. now rewrite Hex in Hpost.
Qed.

Lemma quiet_not_applies (evs : list Event) :
  Forall quiet evs -> Forall (fun ev => ~ applies_offset ev) evs.
Proof.
  induction 1 as [|ev evs Hq _ IH]; constructor; auto.
  destruct ev as [s|? ?| |? ?|?| |?|? ?|? ?|? ? ?]; try destruct s;
    cbn in *; tauto.
Qed.

Lemma tmc_not_applies (scripts : list Script) :
  Forall is_tmc scripts ->
  Forall (fun ev => ~ applies_offset ev) (map EvScript scripts).
Proof. intros H. apply quiet_not_applies, tmc_quiet, H. Qed.

Lemma restore_scripts_tmc h : Forall is_tmc (restore_scripts h).
Proof.
  unfold restore_scripts.
  induction (_saved_currents h) as [|[n c] l IH]; constructor;
    [exact I | exact IH].
Qed.

(** C10.  When the calibration command raises (a probing call of one of the
    measurements raised), [calibrated_z_offset] keeps its value, the runtime
    offset is the one left by the initial clear, and no event of the command
    applies a calibrated offset or writes the configuration. *)
Theorem calibrate_error_changes_nothing :
  (forall (w : World Lite.AutoZOffset) ex,
      fst (Lite.cmd_calibrate w) = Raise ex ->
      let w' := snd (Lite.cmd_calibrate w) in
      lite_run_offsets (Pos.to_nat (Lite.offset_samples (self w)))
                       (future (printer w)) = None
      /\ Lite.calibrated_z_offset (self w') = Lite.calibrated_z_offset (self w)
      /\ homing_position_z (printer w') = 0%Q
      /\ exists evs,
          trace (printer w') = trace (printer w) ++ evs
          /\ Forall (fun ev => ~ applies_offset ev) evs)
  /\ (forall (w : World Full.AutoZOffsetProbe) ex,
      fst (Full.cmd_AUTO_Z_CALIBRATE w) = Raise ex ->
      let w' := snd (Full.cmd_AUTO_Z_CALIBRATE w) in
      full_run_offsets (Full.z_offset (Full.cmd_helper (self w)))
                       (Pos.to_nat (Full.offset_samples (Full.cmd_helper (self w))))
                       (future (printer w)) = None
      /\ Full.calibrated_z_offset (Full.cmd_helper (self w'))
         = Full.calibrated_z_offset (Full.cmd_helper (self w))
      /\ homing_position_z (printer w') = 0%Q
      /\ exists evs,
          trace (printer w') = trace (printer w) ++ evs
          /\ Forall (fun ev => ~ applies_offset ev) evs).
Proof.
  split; intros w ex Hex w'.
  - pose proof (lite_calibrate_spec w) as H.
    unfold wp, lite_calibrate_post in H. fold w' in H. rewrite Hex in H.
    destruct H as (_ & (mid & post & Htr & Hq & ->) & H).
    destruct (lite_run_offsets _ _) as [[offsets rest]|];
      [destruct H as [H _]; discriminate|].
    destruct H as (_ & Hc & Hz). repeat split; auto.
    eexists. split; [exact Htr|].
    repeat (apply Forall_app; split);
      try (apply tmc_not_applies;
           first [apply reduce_tmc | apply restore_scripts_tmc]).
    + repeat constructor; cbn; tauto.
    + now apply quiet_not_applies.
    + constructor.
  - pose proof (full_calibrate_spec w) as H.
    unfold wp, full_calibrate_post in H. fold w' in H. rewrite Hex in H.
    destruct H as (_ & (mid & post & Htr & Hq & ->) & H).
    destruct (full_run_offsets _ _ _) as [[offsets rest]|];
      [destruct H as [H _]; discriminate|].
    destruct H as (_ & Hc & Hz). repeat split; auto.
    eexists. split; [exact Htr|].
    repeat (apply Forall_app; split);
      try (apply tmc_not_applies;
           first [apply reduce_tmc | apply restore_scripts_tmc]).
    + repeat constructor; cbn; tauto.
    + now apply quiet_not_applies.
    + constructor.
Qed.

Lemma calibrate_error_witness :
  let w' := snd (Lite.cmd_calibrate lite_world_fault) in
  lite_run_offsets 3 (future (printer lite_world_fault)) = None
  /\ Lite.calibrated_z_offset (self w') = 0%Q
  /\ homing_position_z (printer w') = 0%Q
  /\ exists evs,
      trace (printer w') = [] ++ evs
      /\ Forall (fun ev => ~ applies_offset ev) evs.
Proof.
  apply (proj1 calibrate_error_changes_nothing lite_world_fault ProbeFault).
  reflexivity.
Defined.

(** ** The acceleration override around a probing move *)

Lemma Qgtb_zero (a : Q) : (a == 0)%Q -> Qgtb a 0 = false.
Proof. intros H. apply Qgtb_false. rewrite H. apply Qle_refl. Qed.

(** C6.  [Lite._probe_bed_sensor]: with a positive [probe_accel] the limit is
    read, set to the override, and set back to the value read after the
    probing move, whether the move triggered or raised; with a zero
    [probe_accel] the only external call is the probing move.
    [Full.probe_prepare]/[Full.probe_finish], the hooks Klipper calls around
    the move: prepare reads the limit, keeps it and sets the override; finish
    sets the kept value back, from whatever state the move left the printer
    in; with a zero [probe_accel] both only delegate to the wrapped probe. *)
Theorem probing_move_accel_guard :
  (forall w : World Lite.AutoZOffset,
      let o := self w in
      let p := printer w in
      let w' := snd (Lite._probe_bed_sensor w) in
      let move := EvProbingMove (lite_target w) (Lite.probe_speed o) in
      fst (Lite._probe_bed_sensor w)
      = match future p with
        | Triggered after _ :: _ => Ok (pos_z after)
        | _ => Raise ProbeFault
        end
      /\ max_accel (printer w') = max_accel p
      /\ ((0 < Lite.probe_accel o)%Q ->
          trace (printer w')
          = trace p ++ [EvGetStatus; EvScript (M204_S (Lite.probe_accel o));
                        move; EvScript (M204_S (max_accel p))])
      /\ ((Lite.probe_accel o == 0)%Q -> trace (printer w') = trace p ++ [move]))
  /\ (forall w : World Full.AutoZOffsetProbe,
      let m := Full.mcu_probe (self w) in
      let p := printer w in
      let w1 := snd (Full.probe_prepare w) in
      fst (Full.probe_prepare w) = Ok tt
      /\ ((0 < Full.probe_accel m)%Q ->
          trace (printer w1)
          = trace p ++ [EvProbeWrapper "probe_prepare"; EvGetStatus;
                        EvScript (M204_S (Full.probe_accel m))]
          /\ max_accel (printer w1) = Full.probe_accel m
          /\ forall p2 : Printer,
              let w2 := mkWorld (self w1) p2 in
              fst (Full.probe_finish w2) = Ok tt
              /\ max_accel (printer (snd (Full.probe_finish w2))) = max_accel p
              /\ trace (printer (snd (Full.probe_finish w2)))
                 = trace p2 ++ [EvScript (M204_S (max_accel p));
                                EvProbeWrapper "probe_finish"])
      /\ ((Full.probe_accel m == 0)%Q ->
          w1 = mkWorld (self w) (log (EvProbeWrapper "probe_prepare") p)
          /\ Full.probe_finish w
             = (Ok tt, mkWorld (self w) (log (EvProbeWrapper "probe_finish") p)))).
Proof.
  split.
  - intros w o p w'. subst w'. rewrite lite_probe_bed_sensor_run.
    cbn [fst snd printer max_accel trace]. subst o p.
    split; [|split; [reflexivity|split]].
    + unfold probe_result, toolhead_after_probe.
      now destruct (future (printer w)) as [|[after result|] rest].
    + intros H. unfold lite_bed_events.
      now rewrite (proj2 (Qgtb_true _ _) H).
    + intros H. unfold lite_bed_events. now rewrite (Qgtb_zero _ H).
  - intros [o [th ma hz fut tr]] m p w1. subst m p w1.
    unfold Full.probe_prepare, Full.probe_finish. cbn.
    split; [|split].
    + now destruct (Qgtb _ _).
    + intros H. rewrite (proj2 (Qgtb_true _ _) H). cbn.
      repeat rewrite <- app_assoc. repeat split.
      all: intros; cbn; rewrite (proj2 (Qgtb_true _ _) H); cbn;
        now repeat rewrite <- app_assoc.
    + intros H. rewrite (Qgtb_zero _ H). cbn. now split.
Qed.

(** A positive override around a probing move that raises. *)
Lemma probing_move_accel_witness :
  trace (printer (snd (Lite._probe_bed_sensor lite_world_accel)))
  = [] ++ [EvGetStatus; EvScript (M204_S 1000);
           EvProbingMove (lite_target lite_world_accel) 5;
           EvScript (M204_S 3000)].
Proof.
  apply (proj1 (proj2 (proj2 (proj1 probing_move_accel_guard lite_world_accel)))).
  reflexivity.
Defined.

(** ** One offset measurement: value and report *)

(** C7, amended.  A measurement that returns computes the bed
    reading minus the reference reading and returns it unnegated, in both
    modules.  The message of [auto_z_offset.py] shows the offset times -1; the
    message of [auto_z_offset_lite.py] shows the offset itself, followed by
    the two readings. *)
Theorem measure_offset_value_and_report :
  (forall (w : World Full.AutoZOffsetProbe) r w',
      Full.cmd_AUTO_Z_MEASURE_OFFSET w = (Ok r, w') ->
      exists a1 bed a2 reference rest evs,
        future (printer w) = Triggered a1 bed :: Triggered a2 reference :: rest
        /\ Full.last_z_result (Full.cmd_helper (self w'))
           = (_get_pos_z bed + Full.z_offset (Full.cmd_helper (self w)))%Q
        /\ r = (Full.last_z_result (Full.cmd_helper (self w'))
                - _get_pos_z reference)%Q
        /\ trace (printer w') = trace (printer w) ++ evs
        /\ In (EvRespond "%s: Calculated true nozzle offset: z=%.6f"
                         [AStr (Full.name (Full.cmd_helper (self w)));
                          ANum (r * -1)%Q]) evs)
  /\ (forall (w : World Lite.AutoZOffset) r w',
      Lite.cmd_measure_offset w = (Ok r, w') ->
      exists a1 bed a2 reference rest evs,
        future (printer w) = Triggered a1 bed :: Triggered a2 reference :: rest
        /\ Lite.last_bed_z (self w') = pos_z a1
        /\ r = (Lite.last_bed_z (self w') - pos_z a2)%Q
        /\ trace (printer w') = trace (printer w) ++ evs
        /\ In (EvRespond
                 "%s: true nozzle offset: %.6f  (bed_z=%.6f, inductive_z=%.6f)"
                 [AStr (Lite.name (self w)); ANum r;
                  ANum (Lite.last_bed_z (self w')); ANum (pos_z a2)]) evs).
Proof.
  split; intros w r w' Hrun.
  - pose proof (run_of_wp _ _ _ _ _ (full_measure_spec w) Hrun) as H.
    destruct H as (_ & _ & _ & evs & Htr & _ & H).
    destruct (future (printer w)) as [|[a1 bed|] [|[a2 reference|] rest]];
      try discriminate.
    destruct H as (Hr & _ & Hz & Hin). injection Hr as ->.
    exists a1, bed, a2, reference, rest, evs.
    rewrite Hz. repeat split; auto.
  - pose proof (run_of_wp _ _ _ _ _ (lite_measure_spec w) Hrun) as H.
    destruct H as (_ & _ & _ & evs & Htr & _ & H).
    destruct (future (printer w)) as [|[a1 bed|] [|[a2 reference|] rest]];
      try discriminate.
    destruct H as (Hr & _ & Hz & Hin). injection Hr as ->.
    exists a1, bed, a2, reference, rest, evs.
    rewrite Hz. repeat split; auto.
Qed.

Lemma measure_offset_witness :
  exists a1 bed a2 reference rest evs,
    future (printer full_world_example)
    = Triggered a1 bed :: Triggered a2 reference :: rest
    /\ Full.last_z_result
         (Full.cmd_helper
            (self (snd (Full.cmd_AUTO_Z_MEASURE_OFFSET full_world_example))))
       = (_get_pos_z bed + 0.2)%Q
    /\ (0.10 + 0.2 - 0.20)%Q
       = (Full.last_z_result
            (Full.cmd_helper
               (self (snd (Full.cmd_AUTO_Z_MEASURE_OFFSET full_world_example))))
          - _get_pos_z reference)%Q
    /\ trace (printer (snd (Full.cmd_AUTO_Z_MEASURE_OFFSET full_world_example)))
       = [] ++ evs
    /\ In (EvRespond "%s: Calculated true nozzle offset: z=%.6f"
                     [AStr "auto_z_offset"; ANum ((0.10 + 0.2 - 0.20) * -1)%Q])
          evs.
Proof.
  apply (proj1 measure_offset_value_and_report full_world_example
               (0.10 + 0.2 - 0.20)%Q
               (snd (Full.cmd_AUTO_Z_MEASURE_OFFSET full_world_example))).
  vm_compute. reflexivity.
Defined.

(** One measurement of [auto_z_offset_lite.py] returns 0.30 - 0.20, and none of
    its messages shows that offset times -1. *)
Lemma lite_measure_reports_unnegated :
  fst (Lite.cmd_measure_offset lite_world_example) = Ok (0.30 - 0.20)%Q
  /\ existsb (Qeq_bool ((0.30 - 0.20) * -1))
             (reported_numbers
                (trace (printer (snd (Lite.cmd_measure_offset
                                        lite_world_example)))))
     = false.
Proof. split; vm_compute; reflexivity. Qed.

(** ** The status query *)

(** C8, amended.  The status query changes nothing.  In
    [auto_z_offset.py] it exposes [name], [last_probe_position] and
    [last_z_result], and no [calibrated_z_offset]; in
    [auto_z_offset_lite.py] it exposes [last_bed_z] and
    [calibrated_z_offset], and no [last_probe_position]. *)
Theorem get_status_snapshot :
  (forall (w : World Full.AutoZOffsetProbe) (eventtime : Q),
      exists d : gmap string StatusValue,
        Full.get_status eventtime w = (Ok d, w)
        /\ dom d = ({["name"; "last_probe_position"; "last_z_result"]}
                    : gset string)
        /\ d !! "name" = Some (VStr (Full.name (Full.cmd_helper (self w))))
        /\ d !! "last_probe_position"
           = Some (let '(px, py, pz) :=
                     Full.last_probe_position (Full.cmd_helper (self w)) in
                   VCoord px py pz)
        /\ d !! "last_z_result"
           = Some (VNum (Full.last_z_result (Full.cmd_helper (self w))))
        /\ d !! "calibrated_z_offset" = None)
  /\ (forall (w : World Lite.AutoZOffset) (eventtime : Q),
      exists d : gmap string StatusValue,
        Lite.get_status eventtime w = (Ok d, w)
        /\ dom d = ({["last_bed_z"; "calibrated_z_offset"]} : gset string)
        /\ d !! "last_bed_z" = Some (VNum (Lite.last_bed_z (self w)))
        /\ d !! "calibrated_z_offset"
           = Some (VNum (Lite.calibrated_z_offset (self w)))
        /\ d !! "last_probe_position" = None).
Proof.
  split; intros w eventtime.
  - unfold Full.get_status, Full.get_cmd, bind, ret, get_self.
    destruct (Full.last_probe_position (Full.cmd_helper (self w)))
      as [[px py] pz].
    eexists. split; [reflexivity|].
    split; [rewrite !dom_insert_L, dom_empty_L; set_solver|].
    repeat split; by simplify_map_eq.
  - unfold Lite.get_status, bind, ret, get_self.
    eexists. split; [reflexivity|].
    split; [rewrite !dom_insert_L, dom_empty_L; set_solver|].
    repeat split; by simplify_map_eq.
Qed.

(** Neither status dict has all three of [last_bed_z],
    [last_probe_position] and [calibrated_z_offset]. *)
Lemma get_status_lacks_keys :
  status_of (Full.get_status 0 full_world_example) !! "calibrated_z_offset" = None
  /\ status_of (Full.get_status 0 full_world_example) !! "last_bed_z" = None
  /\ status_of (Lite.get_status 0 lite_world_example) !! "last_probe_position"
     = None.
Proof. repeat split; vm_compute; reflexivity. Qed.

(** ** The sampling session: sorting and trimming *)

Lemma insert_by_z_perm (p : Position) (l : list Position) :
  Permutation (Full.insert_by_z p l) (p :: l).
Proof.
  induction l as [|q l IH]; cbn; [reflexivity|].
  destruct (Qle_bool _ _); [reflexivity|].
  rewrite IH. apply perm_swap.
Qed.

Lemma sort_by_z_perm (l : list Position) : Permutation (Full.sort_by_z l) l.
Proof.
  induction l as [|p l IH]; cbn; [reflexivity|].
  rewrite insert_by_z_perm. now constructor.
Qed.

Lemma insert_by_z_sorted (p : Position) (l : list Position) :
  StronglySorted z_le l -> StronglySorted z_le (Full.insert_by_z p l).
Proof.
  induction 1 as [|q l Hs IH Hq]; cbn.
  - repeat constructor.
  - destruct (Qle_bool (_get_pos_z p) (_get_pos_z q)) eqn:E.
    + apply Qle_bool_iff in E.
      constructor; [now constructor|].
      constructor; [exact E|].
      eapply List.Forall_impl; [|exact Hq].
      intros a Ha. unfold z_le in *. eapply Qle_trans; eauto.
    + constructor; [exact IH|].
      assert (Hqp : z_le q p).
      { unfold z_le. apply Qlt_le_weak, Qnot_le_lt.
        intros H. apply Qle_bool_iff in H. congruence. }
      eapply Permutation_Forall; [symmetry; apply insert_by_z_perm|].
      now constructor.
Qed.

Lemma sort_by_z_sorted (l : list Position) :
  StronglySorted z_le (Full.sort_by_z l).
Proof.
  induction l as [|p l IH]; cbn; [constructor|].
  now apply insert_by_z_sorted.
Qed.

(** A list with at least two elements is its first element, a middle, and
    its last element. *)
Lemma first_middle_last {A} (l : list A) :
  (2 <= length l)%nat ->
  exists lo mid hi, l = lo :: mid ++ [hi] /\ length mid = (length l - 2)%nat.
Proof.
  destruct l as [|lo l]; cbn; [lia|]. intros H.
  destruct (exists_last (l := l)) as (mid & hi & ->).
  { destruct l; cbn in *; [lia | discriminate]. }
  exists lo, mid, hi. split; [reflexivity|].
  rewrite length_app. cbn. lia.
Qed.

Lemma slice_first_middle_last {A} (lo hi : A) (mid : list A) :
  Full.slice_1_m1 (lo :: mid ++ [hi]) = mid.
Proof. unfold Full.slice_1_m1. cbn [tl]. apply removelast_last. Qed.

Lemma sorted_bounds (lo hi : Position) (mid : list Position) :
  StronglySorted z_le (lo :: mid ++ [hi]) ->
  forall p, In p (lo :: mid ++ [hi]) -> z_le lo p /\ z_le p hi.
Proof.
  intros Hs.
  assert (Hlo : forall p, In p (mid ++ [hi]) -> z_le lo p).
  { inversion Hs as [|? ? _ Hall]; subst.
    intros p Hp. eapply List.Forall_forall in Hall; eauto. }
  assert (Hhi : forall l, StronglySorted z_le (l ++ [hi]) ->
                          forall p, In p (l ++ [hi]) -> z_le p hi).
  { clear. induction l as [|a l IH]; cbn; intros Hs p Hp.
    - destruct Hp as [<-|[]]. apply Qle_refl.
    - inversion Hs as [|? ? Hs' Hall]; subst.
      destruct Hp as [<-|Hp]; [|now apply IH].
      eapply List.Forall_forall in Hall; [exact Hall|].
      apply in_or_app. right. now left. }
  intros p [<-|Hp].
  - split; [apply Qle_refl|]. apply (Hhi (lo :: mid) Hs). now left.
  - split; [now apply Hlo|]. apply (Hhi (lo :: mid) Hs). now right.
Qed.

(** The trim of at least two samples: one lowest and one highest are
    dropped, and nothing else. *)
Lemma trim_drops_min_and_max (S : list Position) :
  (2 <= length S)%nat ->
  exists lo mid hi,
    Full.sort_by_z S = lo :: mid ++ [hi]
    /\ Full.slice_1_m1 (Full.sort_by_z S) = mid
    /\ length mid = (length S - 2)%nat
    /\ Permutation S (lo :: mid ++ [hi])
    /\ forall p, In p S -> z_le lo p /\ z_le p hi.
Proof.
  intros Hlen.
  pose proof (sort_by_z_perm S) as Hperm.
  destruct (first_middle_last (Full.sort_by_z S)) as (lo & mid & hi & Heq & Hmid).
  { now rewrite (Permutation_length Hperm). }
  exists lo, mid, hi. rewrite Heq.
  split; [reflexivity|]. split; [apply slice_first_middle_last|].
  split; [now rewrite Hmid, (Permutation_length Hperm)|].
  split; [now rewrite <- Heq|].
  intros p Hp. apply (sorted_bounds lo hi mid).
  - rewrite <- Heq. apply sort_by_z_sorted.
  - rewrite <- Heq. eapply Permutation_in; [symmetry; exact Hperm | exact Hp].
Qed.

Lemma trim_of_few (S : list Position) :
  (length S <= 2)%nat -> Full.slice_1_m1 (Full.sort_by_z S) = [].
Proof.
  intros Hlen. pose proof (Permutation_length (sort_by_z_perm S)) as Hl.
  destruct (Full.sort_by_z S) as [|a [|b [|c l]]]; cbn in *; try reflexivity.
  lia.
Qed.

(** ** The sampling session: tolerance and retries *)

Lemma fold_max_ge (l : list Q) : forall a,
  (a <= fold_left Qmax l a)%Q
  /\ forall v, In v l -> (v <= fold_left Qmax l a)%Q.
Proof.
  induction l as [|b l IH]; intros a; cbn.
  - split; [apply Qle_refl | intros v []].
  - destruct (IH (Qmax a b)) as [Ha Hl]. split.
    + eapply Qle_trans; [apply Q.le_max_l | exact Ha].
    + intros v [<-|Hv]; [|now apply Hl].
      eapply Qle_trans; [apply Q.le_max_r | exact Ha].
Qed.

Lemma fold_min_le (l : list Q) : forall a,
  (fold_left Qmin l a <= a)%Q
  /\ forall v, In v l -> (fold_left Qmin l a <= v)%Q.
Proof.
  induction l as [|b l IH]; intros a; cbn.
  - split; [apply Qle_refl | intros v []].
  - destruct (IH (Qmin a b)) as [Ha Hl]. split.
    + eapply Qle_trans; [exact Ha | apply Q.le_min_l].
    + intros v [<-|Hv]; [|now apply Hl].
      eapply Qle_trans; [exact Ha | apply Q.le_min_r].
Qed.

Lemma list_max_ge (l : list Q) v : In v l -> (v <= Full.list_max l)%Q.
Proof.
  destruct l as [|a l]; [intros []|]. cbn.
  destruct (fold_max_ge l a) as [Ha Hl]. intros [<-|Hv]; auto.
Qed.

Lemma list_min_le (l : list Q) v : In v l -> (Full.list_min l <= v)%Q.
Proof.
  destruct l as [|a l]; [intros []|]. cbn.
  destruct (fold_min_le l a) as [Ha Hl]. intros [<-|Hv]; auto.
Qed.

(** Any two samples differ by at most the spread. *)
Lemma spread_bounds (positions : list Position) p q :
  In p positions -> In q positions ->
  (_get_pos_z p - _get_pos_z q <= Full.spread positions)%Q.
Proof.
  intros Hp Hq. unfold Full.spread.
  pose proof (list_max_ge (map _get_pos_z positions) (_get_pos_z p)
                          (in_map _ _ _ Hp)).
  pose proof (list_min_le (map _get_pos_z positions) (_get_pos_z q)
                          (in_map _ _ _ Hq)).
  lra.
Qed.

Lemma count_retries_app evs1 evs2 :
  count_retries (evs1 ++ evs2) = (count_retries evs1 + count_retries evs2)%nat.
Proof. unfold count_retries. now rewrite List.filter_app, length_app. Qed.

(** One tolerance check, by cases. *)
Lemma check_tolerance_run params positions retries
    (w : World Full.AutoZOffsetProbe) :
  Full.check_tolerance params positions retries w
  = if Qgtb (Full.spread positions) (Full.samples_tolerance params)
    then
      if (Full.samples_tolerance_retries params <=? retries)%nat
      then (Raise SamplesTolerance, w)
      else (Ok ([], S retries),
            mkWorld (self w)
                    (log (EvRespond "Probe samples exceed tolerance. Retrying..." [])
                         (printer w)))
    else (Ok (positions, retries), w).
Proof.
  unfold Full.check_tolerance.
  destruct (Qgtb _ _); [|reflexivity].
  destruct (_ <=? _)%nat; reflexivity.
Qed.

Lemma wp_check_tolerance params positions retries
    (Q : Res (list Position * nat) -> World Full.AutoZOffsetProbe -> Prop)
    (w : World Full.AutoZOffsetProbe) :
  (if Qgtb (Full.spread positions) (Full.samples_tolerance params)
   then
     if (Full.samples_tolerance_retries params <=? retries)%nat
     then Q (Raise SamplesTolerance) w
     else Q (Ok ([], S retries))
            (mkWorld (self w)
                     (log (EvRespond "Probe samples exceed tolerance. Retrying..." [])
                          (printer w)))
   else Q (Ok (positions, retries)) w) ->
  wp (Full.check_tolerance params positions retries) Q w.
Proof.
  unfold wp. rewrite check_tolerance_run.
  destruct (Qgtb _ _); [|auto]. now destruct (_ <=? _)%nat.
Qed.

Lemma sample_loop_spec params probexy (fuel : nat) :
  forall positions retries (w : World Full.AutoZOffsetProbe),
    within_tolerance params positions ->
    (length positions <= Full.samples params)%nat ->
    (retries <= Full.samples_tolerance_retries params)%nat ->
    ((Full.samples_tolerance_retries params - retries) * Full.samples params
     + (Full.samples params - length positions) < fuel)%nat ->
    wp (Full.sample_loop fuel params probexy positions retries)
       (sample_loop_post params positions retries w) w.
Proof.
  induction fuel as [|fuel IH]; intros positions retries w Htol Hlen Hret Hfuel.
  { now apply Nat.nlt_0_r in Hfuel. }
  cbn [Full.sample_loop].
  destruct (length positions <? Full.samples params)%nat eqn:Hlt.
  2:{ apply Nat.ltb_ge in Hlt. apply wp_ret.
      split; [reflexivity|]. exists [], [].
      repeat split; cbn; try (now rewrite app_nil_r); try lia;
        [exact Htol | exists []; cbn; now rewrite app_nil_r]. }
  apply Nat.ltb_lt in Hlt.
  destruct w as [o [th ma hz fut tr]].
  unfold Full._probe.
  repeat full_step.
  destruct fut as [|[after result|stopped] rest]; wp_simpl.
  - split; [reflexivity|]. exists [], [EvProbe]. cbn.
    repeat split; auto. unfold count_retries; cbn; lia.
  - apply wp_bind. apply wp_check_tolerance.
    destruct (Qgtb _ _) eqn:Hspread.
    + destruct (_ <=? _)%nat eqn:Hbudget.
      * split; [reflexivity|].
        exists [Triggered after result], [EvProbe]. cbn.
        repeat split; auto. unfold count_retries; cbn; lia.
      * apply Nat.leb_gt in Hbudget.
        wp_simpl. cbn [fst snd length].
        assert (Hpos : (0 <? Full.samples params)%nat = true)
          by (apply Nat.ltb_lt; lia).
        rewrite Hpos. repeat full_step.
        eapply wp_mono.
        { apply IH; [now left | cbn; lia | lia | cbn; nia]. }
        intros r' w' (Hself & consumed & evs & Hfut & Htr & Hcount & Hres).
        wp_simpl.
        split; [exact Hself|].
        exists (Triggered after result :: consumed).
        eexists. split; [cbn; now rewrite Hfut|].
        split; [rewrite Htr; repeat rewrite <- app_assoc; reflexivity|].
        split.
        { unfold count_retries in *.
          repeat rewrite List.filter_app, length_app. cbn. lia. }
        destruct r' as [accepted|ex]; [|exact Hres].
        destruct Hres as (Hl & Hw & earlier & Hea).
        repeat split; auto.
        exists (positions ++ [result] ++ earlier).
        change (results_of (Triggered after result :: consumed))
          with (result :: results_of consumed).
        cbn [app] in Hea. rewrite Hea. now repeat rewrite <- app_assoc.
    + apply Qgtb_false in Hspread.
      wp_simpl. cbn [fst snd].
      destruct (_ <? _)%nat; repeat full_step.
      all: eapply wp_mono;
        [apply IH; [now right | rewrite length_app; cbn; lia | lia
                   | rewrite length_app; cbn; nia]|].
      all: intros r' w' (Hself & consumed & evs & Hfut & Htr & Hcount & Hres).
      all: wp_simpl.
      all: split; [exact Hself|].
      all: exists (Triggered after result :: consumed); eexists.
      all: split; [cbn; now rewrite Hfut|].
      all: split; [rewrite Htr; repeat rewrite <- app_assoc; reflexivity|].
      all: split;
        [unfold count_retries in *;
         repeat rewrite List.filter_app, length_app; cbn; lia|].
      all: destruct r' as [accepted|ex]; [|exact Hres].
      all: destruct Hres as (Hl & Hw & earlier & Hea).
      all: repeat split; auto.
      all: exists earlier.
      all: change (results_of (Triggered after result :: consumed))
             with (result :: results_of consumed).
      all: rewrite <- Hea; now rewrite <- app_assoc.
  - split; [reflexivity|]. exists [Fault stopped], [EvProbe]. cbn.
    repeat split; auto. unfold count_retries; cbn; lia.
Qed.

Lemma reduce_samples_run (accepted : list Position)
    (w : World Full.AutoZOffsetProbe) :
  Full.reduce_samples accepted w
  = let method := Full.samples_result (Full.param_helper (self w)) in
    let trimmed := trimmed_samples (self w) accepted in
    let p' := log (EvCalcAverage trimmed method) (printer w) in
    match calc_probe_z_average Full.sort_by_z trimmed method with
    | Ok epos =>
        (Ok tt,
         mkWorld (Full.set_probe_session
                    (Full.append_result epos (Full.probe_session (self w)))
                    (self w))
                 p')
    | Raise ex => (Raise ex, mkWorld (self w) p')
    end.
Proof.
  unfold Full.reduce_samples, trimmed_samples. cbn.
  now destruct (calc_probe_z_average _ _ _).
Qed.

Lemma run_probe_spec (w : World Full.AutoZOffsetProbe) :
  wp Full.run_probe (run_probe_post w) w.
Proof.
  unfold Full.run_probe. repeat full_step.
  2:{ exists [], []. cbn. rewrite app_nil_r.
      repeat split; auto. unfold count_retries; cbn; lia. }
  eapply wp_mono.
  { apply (sample_loop_spec (Full.param_helper (self w)));
      [now left | cbn; lia | lia | unfold Full.loop_bound; cbn; lia]. }
  intros r1 w1 (Hself & consumed & evs & Hfut & Htr & Hcount & Hres).
  destruct r1 as [accepted|ex].
  - destruct Hres as (Hl & Hw & earlier & Hea).
    unfold wp. rewrite reduce_samples_run. cbv zeta. rewrite Hself.
    destruct (calc_probe_z_average _ _ _) as [epos|ex] eqn:Hcalc;
      cbn [fst snd].
    + exists consumed, (evs ++ [EvCalcAverage
                                 (trimmed_samples (self w) accepted)
                                 (Full.samples_result (Full.param_helper (self w)))]).
      cbn [printer future trace log].
      split; [exact Hfut|]. split; [now rewrite Htr, <- app_assoc|].
      split; [rewrite count_retries_app; unfold count_retries at 2; cbn; lia|].
      exists accepted, epos. repeat split; auto.
      * now exists earlier.
      * apply in_or_app. right. now left.
    + exists consumed, (evs ++ [EvCalcAverage
                                 (trimmed_samples (self w) accepted)
                                 (Full.samples_result (Full.param_helper (self w)))]).
      cbn [printer future trace log].
      split; [exact Hfut|]. split; [now rewrite Htr, <- app_assoc|].
      split; [rewrite count_retries_app; unfold count_retries at 2; cbn; lia|].
      right. right. right. exists accepted. repeat split; auto.
      apply in_or_app. right. now left.
  - exists consumed, evs.
    split; [exact Hfut|]. split; [exact Htr|]. split; [exact Hcount|].
    destruct Hres as [->| ->]; auto.
Qed.

(** C2.  One tolerance check: a spread within [samples_tolerance] keeps the
    samples; a larger spread raises the sampling-tolerance error once
    [retries] has reached [samples_tolerance_retries], and otherwise empties
    the samples and increments [retries].  A session: it never runs out of
    the loop bound, retries at most [samples_tolerance_retries] times, and
    when it returns, the result was computed from [samples] consecutive probe
    results any two of which differ by at most [samples_tolerance].  With
    tolerance 0.01 and a first attempt of spread 0.5, the session fails when
    no retry is allowed and, with one retry, returns a result from the second
    attempt. *)
Theorem sampling_tolerance_and_retry :
  (forall params positions retries (w : World Full.AutoZOffsetProbe),
      ((Full.spread positions <= Full.samples_tolerance params)%Q ->
       Full.check_tolerance params positions retries w
       = (Ok (positions, retries), w))
      /\ ((Full.samples_tolerance params < Full.spread positions)%Q ->
          (Full.samples_tolerance_retries params <= retries)%nat ->
          Full.check_tolerance params positions retries w
          = (Raise SamplesTolerance, w))
      /\ ((Full.samples_tolerance params < Full.spread positions)%Q ->
          (retries < Full.samples_tolerance_retries params)%nat ->
          Full.check_tolerance params positions retries w
          = (Ok ([], S retries),
             mkWorld (self w)
                     (log (EvRespond "Probe samples exceed tolerance. Retrying..." [])
                          (printer w)))))
  /\ (forall w : World Full.AutoZOffsetProbe,
      let params := Full.param_helper (self w) in
      let r := fst (Full.run_probe w) in
      let w' := snd (Full.run_probe w) in
      r <> Raise OutOfFuel
      /\ (exists evs,
             trace (printer w') = trace (printer w) ++ evs
             /\ (count_retries evs <= Full.samples_tolerance_retries params)%nat)
      /\ (r = Ok tt ->
          exists consumed earlier accepted epos,
            future (printer w) = consumed ++ future (printer w')
            /\ results_of consumed = earlier ++ accepted
            /\ length accepted = Full.samples params
            /\ (forall p q, In p accepted -> In q accepted ->
                  (_get_pos_z p - _get_pos_z q
                   <= Full.samples_tolerance params)%Q)
            /\ calc_probe_z_average Full.sort_by_z
                 (trimmed_samples (self w) accepted)
                 (Full.samples_result params) = Ok epos
            /\ Full.results (Full.probe_session (self w'))
               = Full.results (Full.probe_session (self w)) ++ [epos]))
  /\ (fst (Full.run_probe session_no_retry) = Raise SamplesTolerance
      /\ new_results session_no_retry = []
      /\ fst (Full.run_probe session_one_retry) = Ok tt
      /\ count_retries (trace (printer (snd (Full.run_probe session_one_retry))))
         = 1%nat
      /\ exists epos,
          new_results session_one_retry = [epos]
          /\ (_get_pos_z epos == 2.002)%Q).
Proof.
  split; [|split].
  - intros params positions retries w. rewrite check_tolerance_run.
    split; [|split].
    + intros H. now rewrite (proj2 (Qgtb_false _ _) H).
    + intros H Hb. rewrite (proj2 (Qgtb_true _ _) H).
      now rewrite (proj2 (Nat.leb_le _ _) Hb).
    + intros H Hb. rewrite (proj2 (Qgtb_true _ _) H).
      now rewrite (proj2 (Nat.leb_gt _ _) Hb).
  - intros w params r w'. pose proof (run_probe_spec w) as H.
    unfold wp, run_probe_post in H. fold params r w' in H.
    destruct H as (consumed & evs & Hfut & Htr & Hcount & H).
    split; [|split].
    + destruct r as [u|ex]; [discriminate|].
      destruct H as [->|[->|[->|(accepted & _ & Hcalc & _)]]];
        try discriminate.
      intros [= ->]. unfold calc_probe_z_average in Hcalc.
      destruct (trimmed_samples _ _); [discriminate|].
      destruct (Full.samples_result params);
        [discriminate | destruct (Nat.odd _); discriminate].
    + now exists evs.
    + intros Hr. rewrite Hr in H.
      destruct H as (accepted & epos & Hl & Hw & (earlier & Hea) & Hcalc
                     & Hself & _).
      exists consumed, earlier, accepted, epos.
      repeat split; auto.
      * intros p q Hp Hq. destruct Hw as [->|Hw]; [destruct Hp|].
        eapply Qle_trans; [apply spread_bounds; eauto | exact Hw].
      * now rewrite Hself.
  - do 4 (split; [vm_compute; reflexivity|]).
    eexists. split; vm_compute; reflexivity.
Qed.

Lemma sampling_tolerance_witness :
  exists consumed earlier accepted epos,
    future (printer session_one_retry)
    = consumed ++ future (printer (snd (Full.run_probe session_one_retry)))
    /\ results_of consumed = earlier ++ accepted
    /\ length accepted = 4%nat
    /\ (forall p q, In p accepted -> In q accepted ->
          (_get_pos_z p - _get_pos_z q <= 0.01)%Q)
    /\ calc_probe_z_average Full.sort_by_z
         (trimmed_samples (self session_one_retry) accepted) Average = Ok epos
    /\ Full.results
         (Full.probe_session (self (snd (Full.run_probe session_one_retry))))
       = [] ++ [epos].
Proof.
  apply (proj2 (proj2 (proj1 (proj2 sampling_tolerance_and_retry)
                             session_one_retry))).
  vm_compute. reflexivity.
Defined.

(** ** The sampling session: sums and extremes *)

Lemma fold_max_in (l : list Q) : forall a,
  fold_left Qmax l a = a \/ In (fold_left Qmax l a) l.
Proof.
  induction l as [|b l IH]; intros a; cbn; [now left|].
  destruct (IH (Qmax a b)) as [H|H]; [|right; now right].
  rewrite H. unfold Qmax, GenericMinMax.gmax.
  destruct (a ?= b)%Q; [now left | right; now left | now left].
Qed.

Lemma fold_min_in (l : list Q) : forall a,
  fold_left Qmin l a = a \/ In (fold_left Qmin l a) l.
Proof.
  induction l as [|b l IH]; intros a; cbn; [now left|].
  destruct (IH (Qmin a b)) as [H|H]; [|right; now right].
  rewrite H. unfold Qmin, GenericMinMax.gmin.
  destruct (a ?= b)%Q; [now left | now left | right; now left].
Qed.

Lemma list_max_in (l : list Q) : l <> [] -> In (Full.list_max l) l.
Proof.
  destruct l as [|a l]; [congruence|]. intros _. cbn.
  destruct (fold_max_in l a) as [->|H]; [now left | now right].
Qed.

Lemma list_min_in (l : list Q) : l <> [] -> In (Full.list_min l) l.
Proof.
  destruct l as [|a l]; [congruence|]. intros _. cbn.
  destruct (fold_min_in l a) as [->|H]; [now left | now right].
Qed.

Lemma fold_Qplus_acc (l : list Q) : forall a,
  (fold_left Qplus l a == a + fold_left Qplus l 0)%Q.
Proof.
  induction l as [|b l IH]; intros a; cbn; [lra|].
  rewrite (IH (a + b)%Q), (IH (0 + b)%Q). lra.
Qed.

Lemma Qsum_cons (a : Q) (l : list Q) : (Qsum (a :: l) == a + Qsum l)%Q.
Proof. unfold Qsum. cbn. rewrite fold_Qplus_acc. lra. Qed.

Lemma Qsum_app (l1 l2 : list Q) : (Qsum (l1 ++ l2) == Qsum l1 + Qsum l2)%Q.
Proof.
  induction l1 as [|a l1 IH]; cbn [app].
  - unfold Qsum at 2. cbn. lra.
  - rewrite !Qsum_cons, IH. lra.
Qed.

Lemma Qsum_perm (l1 l2 : list Q) : Permutation l1 l2 -> (Qsum l1 == Qsum l2)%Q.
Proof.
  induction 1 as [|a l1 l2 _ IH|a b l|l1 l2 l3 _ IH1 _ IH2].
  - reflexivity.
  - rewrite !Qsum_cons, IH. reflexivity.
  - rewrite !Qsum_cons. lra.
  - now rewrite IH1.
Qed.

Lemma Qsum_shifted (offset : Q) (l : list Position) :
  (Qsum (map (fun p => _get_pos_z (_adjust_pos_z_offset p offset)) l)
   == Qsum (map _get_pos_z l) - inject_Z (Z.of_nat (length l)) * offset)%Q.
Proof.
  induction l as [|p l IH].
  - unfold Qsum. cbn [map length fold_left].
    change (inject_Z (Z.of_nat 0)) with 0%Q. lra.
  - cbn [map length]. rewrite !Qsum_cons, IH, Nat2Z.inj_succ.
    unfold Z.succ. rewrite inject_Z_plus. change (inject_Z 1) with 1%Q.
    destruct p; cbn [_adjust_pos_z_offset _get_pos_z]; lra.
Qed.

Lemma mean_position_z (positions : list Position) :
  _get_pos_z (mean_position positions)
  = (Qsum (map _get_pos_z positions)
     / inject_Z (Z.of_nat (length positions)))%Q.
Proof.
  unfold mean_position, Qsum. cbn [_get_pos_z].
  f_equal. f_equal. apply map_ext. now intros [].
Qed.

(** The lowest and the highest of the samples have the least and the
    greatest z. *)
Lemma extremes_of_samples (accepted : list Position) (lo hi : Position) :
  In lo accepted -> In hi accepted ->
  (forall p, In p accepted -> z_le lo p /\ z_le p hi) ->
  (_get_pos_z lo == Full.list_min (map _get_pos_z accepted))%Q
  /\ (_get_pos_z hi == Full.list_max (map _get_pos_z accepted))%Q.
Proof.
  intros Hlo Hhi Hb.
  assert (Hne : map _get_pos_z accepted <> []) by now destruct accepted.
  destruct (proj1 (in_map_iff _ _ _) (list_min_in _ Hne)) as (pmin & Hpmin & Hinmin).
  destruct (proj1 (in_map_iff _ _ _) (list_max_in _ Hne)) as (pmax & Hpmax & Hinmax).
  pose proof (list_min_le _ _ (in_map _get_pos_z _ _ Hlo)).
  pose proof (list_max_ge _ _ (in_map _get_pos_z _ _ Hhi)).
  pose proof (proj1 (Hb _ Hinmin)) as H1. pose proof (proj2 (Hb _ Hinmax)) as H2.
  unfold z_le in H1, H2. rewrite Hpmin in H1. rewrite Hpmax in H2.
  split; apply Qle_antisym; assumption.
Qed.

(** The mean of the trimmed samples, in closed form. *)
Lemma trimmed_mean_value (o : Full.AutoZOffsetProbe)
    (accepted : list Position) :
  (3 <= length accepted)%nat ->
  exists epos,
    calc_probe_z_average Full.sort_by_z (trimmed_samples o accepted) Average
    = Ok epos
    /\ (_get_pos_z epos
        == (Qsum (map _get_pos_z accepted)
            - Full.list_min (map _get_pos_z accepted)
            - Full.list_max (map _get_pos_z accepted))
           / inject_Z (Z.of_nat (length accepted - 2))
           - Full.probe_z_offset (Full.probe_session o))%Q.
Proof.
  intros Hlen.
  destruct (trim_drops_min_and_max accepted)
    as (lo & mid & hi & _ & Hslice & Hmid & Hperm & Hb); [lia|].
  unfold trimmed_samples. rewrite Hslice.
  destruct mid as [|m0 mid0] eqn:Emid; [cbn in Hmid; lia|].
  rewrite <- Emid in *. clear Emid m0 mid0.
  assert (Hcalc : calc_probe_z_average Full.sort_by_z
                    (map (fun p => _adjust_pos_z_offset
                                     p (Full.probe_z_offset (Full.probe_session o)))
                         mid) Average
                  = Ok (mean_position
                          (map (fun p => _adjust_pos_z_offset
                                           p (Full.probe_z_offset
                                                (Full.probe_session o))) mid))).
  { destruct mid; [cbn in Hmid; lia | reflexivity]. }
  eexists. split; [exact Hcalc|].
  rewrite mean_position_z, map_map, length_map, Qsum_shifted, Hmid.
  assert (Hin : In lo accepted /\ In hi accepted).
  { split; eapply Permutation_in; try (symmetry; exact Hperm).
    - now left.
    - right. apply in_or_app. right. now left. }
  destruct (extremes_of_samples accepted lo hi (proj1 Hin) (proj2 Hin) Hb)
    as [Hmin Hmax].
  rewrite <- Hmin, <- Hmax.
  rewrite (Qsum_perm _ _ (Permutation_map _get_pos_z Hperm)).
  cbn [map]. rewrite Qsum_cons, map_app, Qsum_app. cbn [map].
  rewrite (Qsum_cons (_get_pos_z hi) []).
  unfold Qsum at 3. cbn [fold_left].
  assert (Hnz : ~ (inject_Z (Z.of_nat (length accepted - 2)) == 0)%Q).
  { unfold Qeq. cbn. lia. }
  field. exact Hnz.
Qed.

(** What the trim hands on: every remaining sample with its x and y and
    with its z lowered by the z offset of the main probe. *)
Lemma trimmed_samples_xyz (o : Full.AutoZOffsetProbe) (accepted : list Position) :
  map _get_pos_xyz (trimmed_samples o accepted)
  = map (fun p =>
           (fst (fst (_get_pos_xyz p)), snd (fst (_get_pos_xyz p)),
            (_get_pos_z p - Full.probe_z_offset (Full.probe_session o))%Q))
        (Full.slice_1_m1 (Full.sort_by_z accepted)).
Proof.
  unfold trimmed_samples. rewrite map_map. apply map_ext. now intros [].
Qed.

(** ** The sampling session: the trimmed result *)

(** C3.  The tail of [run_probe], for every accepted sample list: the list is
    sorted by z (a sorted permutation of it); the slice [1:-1] of the sorted
    list is taken, which for two samples or more drops exactly one lowest and
    one highest sample; every remaining sample is handed on with its x and y
    and with the z offset of the main probe subtracted from its z; and the
    result policy reduces what remains.  Under the mean policy the z of the
    result is the mean of the z values handed on: for three samples or more,
    the sum of the accepted z values less the least and the greatest, divided
    by the count less two, less the z offset.  For z values 1.0, 5.0, 2.0,
    2.1 and no z offset the policy receives 2.0 and 2.1 and the mean is 2.05;
    with a z offset of 0.5 it receives 1.5 and 1.6 and the mean is 1.55. *)
Theorem trimmed_result_of_accepted_samples :
  (forall accepted (w : World Full.AutoZOffsetProbe),
      Full.reduce_samples accepted w
      = let method := Full.samples_result (Full.param_helper (self w)) in
        let trimmed :=
          map (fun p => _adjust_pos_z_offset
                          p (Full.probe_z_offset (Full.probe_session (self w))))
              (Full.slice_1_m1 (Full.sort_by_z accepted)) in
        let p' := log (EvCalcAverage trimmed method) (printer w) in
        match calc_probe_z_average Full.sort_by_z trimmed method with
        | Ok epos =>
            (Ok tt,
             mkWorld (Full.set_probe_session
                        (Full.append_result epos (Full.probe_session (self w)))
                        (self w))
                     p')
        | Raise ex => (Raise ex, mkWorld (self w) p')
        end)
  /\ (forall accepted,
      Permutation (Full.sort_by_z accepted) accepted
      /\ StronglySorted z_le (Full.sort_by_z accepted))
  /\ (forall accepted,
      (2 <= length accepted)%nat ->
      exists lo mid hi,
        Full.sort_by_z accepted = lo :: mid ++ [hi]
        /\ Full.slice_1_m1 (Full.sort_by_z accepted) = mid
        /\ length mid = (length accepted - 2)%nat
        /\ Permutation accepted (lo :: mid ++ [hi])
        /\ forall p, In p accepted -> z_le lo p /\ z_le p hi)
  /\ (forall (o : Full.AutoZOffsetProbe) accepted,
      map _get_pos_xyz (trimmed_samples o accepted)
      = map (fun p =>
               (fst (fst (_get_pos_xyz p)), snd (fst (_get_pos_xyz p)),
                (_get_pos_z p - Full.probe_z_offset (Full.probe_session o))%Q))
            (Full.slice_1_m1 (Full.sort_by_z accepted)))
  /\ (forall first rest,
      exists epos,
        calc_probe_z_average Full.sort_by_z (first :: rest) Average = Ok epos
        /\ _get_pos_z epos
           = (fold_left Qplus (map _get_pos_z (first :: rest)) 0
              / inject_Z (Z.of_nat (length (first :: rest))))%Q)
  /\ (forall (o : Full.AutoZOffsetProbe) accepted,
      (3 <= length accepted)%nat ->
      exists epos,
        calc_probe_z_average Full.sort_by_z (trimmed_samples o accepted) Average
        = Ok epos
        /\ (_get_pos_z epos
            == (Qsum (map _get_pos_z accepted)
                - Full.list_min (map _get_pos_z accepted)
                - Full.list_max (map _get_pos_z accepted))
               / inject_Z (Z.of_nat (length accepted - 2))
               - Full.probe_z_offset (Full.probe_session o))%Q)
  /\ (trace (printer (snd (Full.reduce_samples trim_input session_trim_example)))
      = [EvCalcAverage [Plain 100 100 (2.0 - 0); Plain 100 100 (2.1 - 0)]%Q
                       Average]
      /\ exists epos,
          Full.results
            (Full.probe_session
               (self (snd (Full.reduce_samples trim_input session_trim_example))))
          = [epos]
          /\ (_get_pos_z epos == 2.05)%Q)
  /\ (trace (printer (snd (Full.reduce_samples trim_input session_trim_offset)))
      = [EvCalcAverage [Plain 100 100 (2.0 - 0.5); Plain 100 100 (2.1 - 0.5)]%Q
                       Average]
      /\ exists epos,
          Full.results
            (Full.probe_session
               (self (snd (Full.reduce_samples trim_input session_trim_offset))))
          = [epos]
          /\ (_get_pos_z epos == 1.55)%Q).
Proof.
  split; [|split; [|split; [|split; [|split; [|split; [|split]]]]]].
  - intros accepted w. apply reduce_samples_run.
  - intros accepted. split; [apply sort_by_z_perm | apply sort_by_z_sorted].
  - intros accepted. apply trim_drops_min_and_max.
  - intros o accepted. apply trimmed_samples_xyz.
  - intros first rest. eexists. split; [reflexivity|].
    unfold mean_position. cbn [_get_pos_z].
    f_equal. f_equal. apply map_ext. now intros [].
  - intros o accepted. apply trimmed_mean_value.
  - split; [vm_compute; reflexivity|].
    eexists. split; vm_compute; reflexivity.
  - split; [vm_compute; reflexivity|].
    eexists. split; vm_compute; reflexivity.
Qed.

(** Four samples and a z offset of 0.5: the result is the trimmed mean less
    the offset. *)
Lemma trimmed_result_witness :
  exists epos,
    calc_probe_z_average Full.sort_by_z
      (trimmed_samples (self session_trim_offset) trim_input) Average
    = Ok epos
    /\ (_get_pos_z epos
        == (Qsum (map _get_pos_z trim_input)
            - Full.list_min (map _get_pos_z trim_input)
            - Full.list_max (map _get_pos_z trim_input))
           / inject_Z (Z.of_nat (length trim_input - 2))
           - 0.5)%Q.
Proof.
  apply (proj1 (proj2 (proj2 (proj2 (proj2 (proj2
                 trimmed_result_of_accepted_samples)))))
               (self session_trim_offset) trim_input).
  cbn. lia.
Defined.

(** ** The sample count and the trim *)

(** C9, amended.  With three samples or more the trim leaves
    [sample_count - 2 >= 1] samples; with two samples or fewer it leaves
    none.  [run_probe] has no check of the sample count: with a count of two
    or less, a session whose samples are accepted hands the empty list to the
    result policy, and ends as the policy does on no sample. *)
Theorem trim_of_small_sample_count :
  (forall accepted,
      (3 <= length accepted)%nat ->
      length (Full.slice_1_m1 (Full.sort_by_z accepted))
      = (length accepted - 2)%nat
      /\ Full.slice_1_m1 (Full.sort_by_z accepted) <> [])
  /\ (forall o accepted,
      (length accepted <= 2)%nat -> trimmed_samples o accepted = [])
  /\ (forall (w : World Full.AutoZOffsetProbe) r w',
      (Full.samples (Full.param_helper (self w)) <= 2)%nat ->
      Full.run_probe w = (r, w') ->
      r = Raise ProbeStateError \/ r = Raise SamplesTolerance
      \/ r = Raise ProbeFault
      \/ (r = Raise ZeroDivisionError
          /\ exists evs,
              trace (printer w') = trace (printer w) ++ evs
              /\ In (EvCalcAverage
                       [] (Full.samples_result (Full.param_helper (self w))))
                    evs)).
Proof.
  split; [|split].
  - intros accepted Hlen.
    destruct (trim_drops_min_and_max accepted) as (lo & mid & hi & _ & -> & Hm & _);
      [lia|].
    split; [exact Hm|]. intros ->. cbn in Hm. lia.
  - intros o accepted Hlen. unfold trimmed_samples.
    now rewrite trim_of_few.
  - intros w r w' Hsmall Hrun.
    pose proof (run_of_wp _ _ _ _ _ (run_probe_spec w) Hrun) as H.
    destruct H as (consumed & evs & _ & Htr & _ & H).
    destruct r as [[]|ex].
    + destruct H as (accepted & epos & Hl & _ & _ & Hcalc & _).
      unfold trimmed_samples in Hcalc. rewrite trim_of_few in Hcalc by lia.
      discriminate.
    + destruct H as [->|[->|[->|(accepted & Hl & Hcalc & Hin)]]]; auto.
      unfold trimmed_samples in Hcalc, Hin.
      rewrite trim_of_few in Hcalc, Hin by lia.
      cbn in Hcalc. injection Hcalc as <-.
      right. right. right. split; [reflexivity|]. now exists evs.
Qed.

Lemma trim_of_small_sample_count_witness :
  length (Full.slice_1_m1 (Full.sort_by_z trim_input)) = (4 - 2)%nat
  /\ Full.slice_1_m1 (Full.sort_by_z trim_input) <> [].
Proof.
  apply (proj1 trim_of_small_sample_count trim_input). cbn. lia.
Defined.

(** With a sample count of two, [run_probe] probes twice, hands no sample to
    the result policy, and ends with the policy's error. *)
Lemma two_samples_not_rejected :
  fst (Full.run_probe session_two_samples) = Raise ZeroDivisionError
  /\ trace (printer (snd (Full.run_probe session_two_samples)))
     = [EvProbe; EvMove [Some 0; Some 0; Some (1.0 + 2)]%Q 5; EvProbe;
        EvCalcAverage [] Average].
Proof. split; vm_compute; reflexivity. Qed.

(** ** Positions in either format *)

(** X1.  The position helpers treat a [ProbeResult] and a plain triple
    alike: [_get_pos_z] is the third component of [_get_pos_xyz];
    [_adjust_pos_z_offset] lowers that z by the offset and keeps x and y;
    two adjustments add up; the format is kept, and a [ProbeResult] keeps
    its test position. *)
Theorem position_formats_read_alike (position : Position) (z_offset : Q) :
  _get_pos_z position = snd (_get_pos_xyz position)
  /\ _get_pos_xyz (_adjust_pos_z_offset position z_offset)
     = (fst (fst (_get_pos_xyz position)), snd (fst (_get_pos_xyz position)),
        (_get_pos_z position - z_offset)%Q)
  /\ (forall z_offset2,
        _get_pos_z (_adjust_pos_z_offset
                      (_adjust_pos_z_offset position z_offset) z_offset2)
        == _get_pos_z (_adjust_pos_z_offset position (z_offset + z_offset2)))%Q
  /\ match position with
     | ProbeResult _ _ _ tx ty tz =>
         exists bx by_ bz,
           _adjust_pos_z_offset position z_offset
           = ProbeResult bx by_ bz tx ty tz
     | Plain _ _ _ =>
         exists x y z, _adjust_pos_z_offset position z_offset = Plain x y z
     end.
Proof.
  destruct position as [x y z|bx by_ bz tx ty tz]; cbn.
  - repeat split; [intros; lra | now exists x, y, (z - z_offset)%Q].
  - repeat split; [intros; lra | now exists bx, by_, (bz - z_offset)%Q].
Qed.

(** ** The toolhead moves around a probe *)

(** X2.  [_move_to_center] returns, with one move to the bed centre at the
    greater of the current height and [probe_hop]: the toolhead is never
    lowered by it and never ends below [probe_hop]; the extruder position is
    kept.  The same holds in both modules. *)
Theorem move_to_center_never_lowers :
  (forall w : World Lite.AutoZOffset,
      let o := self w in
      let z := pos_z (toolhead (printer w)) in
      Lite._move_to_center w
      = (Ok tt,
         mkWorld o
           (moved [Some (Lite.center_x o); Some (Lite.center_y o);
                   Some (Qmax z (Lite.probe_hop o))] (Lite.xy_speed o)
                  (printer w)))
      /\ toolhead (printer (snd (Lite._move_to_center w)))
         = mkCoord (Lite.center_x o) (Lite.center_y o)
                   (Qmax z (Lite.probe_hop o)) (pos_e (toolhead (printer w)))
      /\ (z <= Qmax z (Lite.probe_hop o))%Q
      /\ (Lite.probe_hop o <= Qmax z (Lite.probe_hop o))%Q)
  /\ (forall w : World Full.AutoZOffsetProbe,
      let c := Full.cmd_helper (self w) in
      let z := pos_z (toolhead (printer w)) in
      Full._move_to_center w
      = (Ok tt,
         mkWorld (self w)
           (moved [Some (Full.bed_center_x c); Some (Full.bed_center_y c);
                   Some (Qmax z (Full.probe_hop c))] (Full.xy_move_speed c)
                  (printer w)))
      /\ toolhead (printer (snd (Full._move_to_center w)))
         = mkCoord (Full.bed_center_x c) (Full.bed_center_y c)
                   (Qmax z (Full.probe_hop c)) (pos_e (toolhead (printer w)))
      /\ (z <= Qmax z (Full.probe_hop c))%Q
      /\ (Full.probe_hop c <= Qmax z (Full.probe_hop c))%Q).
Proof.
  split; intros [o [th ma hz fut tr]]; cbn.
  - repeat split; [apply Q.le_max_l | apply Q.le_max_r].
  - repeat split; [apply Q.le_max_l | apply Q.le_max_r].
Qed.

(** X3.  The lift after a probe ([_lift], [_lift_probe]) is one move that
    raises the toolhead by exactly [probe_hop] and keeps x, y and the
    extruder position, in both modules. *)
Theorem lift_raises_by_probe_hop :
  (forall w : World Lite.AutoZOffset,
      let th := toolhead (printer w) in
      let w' := snd (Lite._lift w) in
      fst (Lite._lift w) = Ok tt
      /\ toolhead (printer w')
         = mkCoord (pos_x th) (pos_y th)
                   (pos_z th + Lite.probe_hop (self w)) (pos_e th)
      /\ self w' = self w
      /\ trace (printer w')
         = trace (printer w)
             ++ [EvMove [None; None;
                         Some (pos_z th + Lite.probe_hop (self w))%Q]
                        (Lite.lift_speed (self w))])
  /\ (forall w : World Full.AutoZOffsetProbe,
      let th := toolhead (printer w) in
      let w' := snd (Full._lift_probe w) in
      fst (Full._lift_probe w) = Ok tt
      /\ toolhead (printer w')
         = mkCoord (pos_x th) (pos_y th)
                   (pos_z th + Full.probe_hop (Full.cmd_helper (self w)))
                   (pos_e th)
      /\ self w' = self w
      /\ trace (printer w')
         = trace (printer w)
             ++ [EvMove [Some (pos_x th); Some (pos_y th);
                         Some (pos_z th
                               + Full.probe_hop (Full.cmd_helper (self w)))%Q;
                         Some (pos_e th)]
                        (Full.lift_speed (Full.param_helper (self w)))]).
Proof.
  split; intros [o [th ma hz fut tr]]; cbn; repeat split.
Qed.

(** ** Loading and saving the calibrated offset *)






(** X4.  The load command returns, leaves the object as it is and sets the
    runtime Z offset to the number its script carries as text:
    [calibrated_z_offset] rounded to six decimals.  Run a second time it
    issues the same two calls again and changes nothing else.  In both
    modules. *)
Theorem load_offset_idempotent :
  (forall w : World Lite.AutoZOffset,
      let v := Lite.calibrated_z_offset (self w) in
      let evs :=
        [EvScript (SET_GCODE_OFFSET_Z v);
         EvRespond "%s: applied calibrated_z_offset: %.6f"
                   [AStr (Lite.name (self w)); ANum v]] in
      let w1 := snd (Lite.cmd_load_offset w) in
      let w2 := snd (Lite.cmd_load_offset w1) in
      fst (Lite.cmd_load_offset w) = Ok tt
      /\ w1 = mkWorld (self w)
                (mkPrinter (toolhead (printer w)) (max_accel (printer w))
                           (format_f v) (future (printer w))
                           (trace (printer w) ++ evs))
      /\ w2 = mkWorld (self w1) (log_all evs (printer w1)))
  /\ (forall w : World Full.AutoZOffsetProbe,
      let c := Full.cmd_helper (self w) in
      let v := Full.calibrated_z_offset c in
      let evs :=
        [EvScript (SET_GCODE_OFFSET_Z v);
         EvRespond "%s: Applied calibrated_z_offset: %.6f"
                   [AStr (Full.name c); ANum v]] in
      let w1 := snd (Full.cmd_AUTO_Z_LOAD_OFFSET w) in
      let w2 := snd (Full.cmd_AUTO_Z_LOAD_OFFSET w1) in
      fst (Full.cmd_AUTO_Z_LOAD_OFFSET w) = Ok tt
      /\ w1 = mkWorld (self w)
                (mkPrinter (toolhead (printer w)) (max_accel (printer w))
                           (format_f v) (future (printer w))
                           (trace (printer w) ++ evs))
      /\ w2 = mkWorld (self w1) (log_all evs (printer w1))).
Proof.
  split; intros [o [th ma hz fut tr]]; cbn -[format_f]; unfold log_all, log;
    cbn -[format_f]; repeat rewrite <- app_assoc; repeat split.
Qed.


(** ** The current guard: a round trip *)

(** X6.  [reduce()] then [restore()] is a round trip on a helper that is
    neither reduced nor held: the helper is as before, [reduce()] has set
    every saved stepper to its nominal current times the factor and
    [restore()] has set every one back to its nominal current, in the same
    order.  Under hold the [restore()] issues nothing and the helper stays
    reduced, until a [restore()] after the hold flag is cleared sets the
    nominal currents back. *)
Theorem reduce_restore_round_trip (h : ZStepperCurrentHelper) :
  _is_reduced h = false ->
  (_hold h = false ->
   snd (restore (snd (reduce h))) = h
   /\ fst (reduce h)
      = map (fun '(stepper_name, nominal) =>
               SET_TMC_CURRENT stepper_name (nominal * probe_current_factor h)%Q)
            (_saved_currents h)
   /\ fst (restore (snd (reduce h)))
      = map (fun '(stepper_name, nominal) => SET_TMC_CURRENT stepper_name nominal)
            (_saved_currents h))
  /\ (let held := set_hold true (snd (reduce h)) in
      restore held = ([], held)
      /\ _is_reduced held = true
      /\ restore (set_hold false held)
         = (map (fun '(stepper_name, nominal) =>
                   SET_TMC_CURRENT stepper_name nominal)
                (_saved_currents h),
            set_hold false h)).
Proof.
  destruct h as [f s red hold]. cbn. intros ->. split.
  - intros ->. cbn. repeat split.
  - cbn. repeat split.
Qed.

Lemma reduce_restore_round_trip_witness :
  snd (restore (snd (reduce helper_example))) = helper_example
  /\ fst (reduce helper_example)
     = [SET_TMC_CURRENT "stepper_z" (1.2 * 0.33)%Q;
        SET_TMC_CURRENT "stepper_z1" (1.2 * 0.33)%Q]
  /\ fst (restore (snd (reduce helper_example)))
     = [SET_TMC_CURRENT "stepper_z" 1.2%Q; SET_TMC_CURRENT "stepper_z1" 1.2%Q].
Proof.
  apply (proj1 (reduce_restore_round_trip helper_example eq_refl)).
  reflexivity.
Defined.

(** ** Discovery of the Z steppers' drivers *)

Lemma dict_set_in_inv {V} (key : string) (value : V) d k v :
  In (k, v) (dict_set key value d) -> (k = key /\ v = value) \/ In (k, v) d.
Proof.
  induction d as [|[k0 v0] d IH]; cbn.
  - intros [[= <- <-]|[]]. now left.
  - destruct (String.eqb k0 key) eqn:E.
    + apply String.eqb_eq in E. subst k0.
      intros [[= <- <-]|H]; [now left | right; now right].
    + intros [H|H]; [right; now left|].
      destruct (IH H) as [H'|H']; [now left | right; now right].
Qed.

Lemma dict_set_in {V} (key : string) (value : V) d :
  In (key, value) (dict_set key value d).
Proof.
  induction d as [|[k0 v0] d IH]; cbn; [now left|].
  destruct (String.eqb k0 key) eqn:E.
  - apply String.eqb_eq in E. subst k0. now left.
  - now right.
Qed.

Lemma dict_set_other {V} (key : string) (value : V) d k v :
  k <> key -> In (k, v) d -> In (k, v) (dict_set key value d).
Proof.
  intros Hk. induction d as [|[k0 v0] d IH]; cbn; [intros []|].
  destruct (String.eqb k0 key) eqn:E.
  - apply String.eqb_eq in E. subst k0.
    intros [[= <- <-]|H]; [congruence | now right].
  - intros [H|H]; [now left | right; auto].
Qed.

Lemma dict_set_keys_in {V} (key : string) (value : V) d k :
  In k (map fst (dict_set key value d)) <-> k = key \/ In k (map fst d).
Proof.
  induction d as [|[k0 v0] d IH]; cbn.
  - intuition.
  - destruct (String.eqb k0 key) eqn:E; cbn.
    + apply String.eqb_eq in E. subst k0. intuition.
    + rewrite IH. intuition.
Qed.

Lemma dict_set_nodup {V} (key : string) (value : V) d :
  List.NoDup (map fst d) -> List.NoDup (map fst (dict_set key value d)).
Proof.
  induction d as [|[k0 v0] d IH]; cbn; intros H.
  - constructor; [intros Hin; exact Hin | constructor].
  - inversion H as [|? ? Hnotin Hd]; subst.
    destruct (String.eqb k0 key) eqn:E; cbn.
    + now constructor.
    + constructor; [|auto].
      rewrite dict_set_keys_in. intros [->|Hin]; [|auto].
      now rewrite String.eqb_refl in E.
Qed.

Section DiscoveryFacts.
Variable isspace : Ascii.ascii -> bool.

Lemma z_stepper_of_inv name stepper_name :
  z_stepper_of isspace name = Some stepper_name ->
  exists part0,
    split isspace name = [part0; stepper_name]
    /\ String.prefix "tmc" part0 = true
    /\ String.prefix "stepper_z" stepper_name = true.
Proof.
  unfold z_stepper_of.
  destruct (split isspace name) as [|p0 [|p1 [|p2 l]]]; try discriminate.
  destruct (String.prefix "tmc" p0) eqn:E0; [|discriminate].
  destruct (String.prefix "stepper_z" p1) eqn:E1; [|discriminate].
  intros [= <-]. now exists p0.
Qed.

Lemma on_ready_saved_sound objects : forall saved k v,
  In (k, v) (_on_ready_saved isspace objects saved) ->
  In (k, v) saved
  \/ exists name obj,
      In (name, obj) objects
      /\ z_stepper_of isspace name = Some k
      /\ run_current obj = Some v.
Proof.
  induction objects as [|[name obj] objects IH]; intros saved k v; cbn.
  - now left.
  - intros H. apply IH in H. destruct H as [H|(n & o & Hin & Hz & Hc)].
    2:{ right. exists n, o. auto. }
    destruct (z_stepper_of isspace name) as [s|] eqn:Hz; [|now left].
    destruct (run_current obj) as [c|] eqn:Hc; [|now left].
    apply dict_set_in_inv in H. destruct H as [[-> ->]|H]; [|now left].
    right. exists name, obj. auto.
Qed.

Lemma on_ready_saved_nodup objects : forall saved,
  List.NoDup (map fst saved) ->
  List.NoDup (map fst (_on_ready_saved isspace objects saved)).
Proof.
  induction objects as [|[name obj] objects IH]; intros saved H; cbn; [exact H|].
  apply IH.
  destruct (z_stepper_of isspace name); [|exact H].
  destruct (run_current obj); [|exact H].
  now apply dict_set_nodup.
Qed.

Lemma on_ready_saved_keeps objects : forall saved k v,
  In (k, v) saved ->
  (forall name obj, In (name, obj) objects ->
     z_stepper_of isspace name = Some k -> run_current obj = None) ->
  In (k, v) (_on_ready_saved isspace objects saved).
Proof.
  induction objects as [|[name obj] objects IH]; intros saved k v Hin Hlater; cbn;
    [exact Hin|].
  apply IH.
  - destruct (z_stepper_of isspace name) as [s|] eqn:Hz; [|exact Hin].
    destruct (run_current obj) as [c|] eqn:Hc; [|exact Hin].
    apply dict_set_other; [|exact Hin].
    intros ->. specialize (Hlater name obj (or_introl eq_refl) Hz). congruence.
  - intros n o Ho. apply Hlater. now right.
Qed.

Lemma on_ready_last_wins before name obj after saved k v :
  z_stepper_of isspace name = Some k ->
  run_current obj = Some v ->
  (forall name' obj', In (name', obj') after ->
     z_stepper_of isspace name' = Some k -> run_current obj' = None) ->
  In (k, v) (_on_ready_saved isspace (before ++ (name, obj) :: after) saved).
Proof.
  revert saved. induction before as [|[n o] before IH]; intros saved Hz Hc Hlater.
  - cbn. rewrite Hz, Hc. apply on_ready_saved_keeps; [apply dict_set_in | exact Hlater].
  - cbn. now apply IH.
Qed.

Lemma handle_ready_saved objects : forall z_steppers saved,
  snd (_handle_ready_dicts isspace objects z_steppers saved)
  = _on_ready_saved isspace objects saved.
Proof.
  induction objects as [|[name obj] objects IH]; intros zs saved; cbn; [reflexivity|].
  destruct (z_stepper_of isspace name); apply IH.
Qed.

End DiscoveryFacts.

Lemma handle_ready_keys (isspace : Ascii.ascii -> bool) objects :
  forall z_steppers saved k,
    In k (map fst (snd (_handle_ready_dicts isspace objects z_steppers saved))) ->
    In k (map fst saved)
    \/ In k (map fst (fst (_handle_ready_dicts isspace objects z_steppers saved))).
Proof.
  assert (Hkeep : forall objs zs sv k,
             In k (map fst zs) ->
             In k (map fst (fst (_handle_ready_dicts isspace objs zs sv)))).
  { induction objs as [|[name obj] objs IH]; intros zs sv k Hk; cbn; [exact Hk|].
    destruct (z_stepper_of isspace name); apply IH; [|exact Hk].
    apply dict_set_keys_in. now right. }
  induction objects as [|[name obj] objects IH]; intros zs saved k; cbn;
    [now left|].
  destruct (z_stepper_of isspace name) as [s|]; [|apply IH].
  intros H. apply IH in H. destruct H as [H|H]; [|now right].
  destruct (run_current obj); [|now left].
  apply dict_set_keys_in in H. destruct H as [->|H]; [|now left].
  right. apply Hkeep, dict_set_keys_in. now left.
Qed.

(** X7.  Discovery ([_on_ready] of the lite helper) keeps the factor and the
    two flags of the helper and only writes [_saved]: every entry it leaves
    was there before or is the run current of a registered object whose name
    splits into exactly two words, the first starting with [tmc], the second
    starting with [stepper_z] and being the key; and the keys stay distinct,
    so that [reduce()] and [restore()] address each stepper once. *)
Theorem discovery_selects_tmc_z_steppers (isspace : Ascii.ascii -> bool)
    (objects : list (string * PrinterObject)) (h : ZStepperCurrentHelper) :
  let h' := _on_ready isspace objects h in
  (probe_current_factor h' = probe_current_factor h
   /\ _is_reduced h' = _is_reduced h
   /\ _hold h' = _hold h)
  /\ (forall stepper_name cur,
        In (stepper_name, cur) (_saved_currents h') ->
        In (stepper_name, cur) (_saved_currents h)
        \/ exists name obj part0,
            In (name, obj) objects
            /\ split isspace name = [part0; stepper_name]
            /\ String.prefix "tmc" part0 = true
            /\ String.prefix "stepper_z" stepper_name = true
            /\ run_current obj = Some cur)
  /\ (List.NoDup (map fst (_saved_currents h)) ->
      List.NoDup (map fst (_saved_currents h'))).
Proof.
  cbn. split; [repeat split|]. split.
  - intros k v H. apply on_ready_saved_sound in H.
    destruct H as [H|(name & obj & Hin & Hz & Hc)]; [now left|].
    right. destruct (z_stepper_of_inv _ _ _ Hz) as (p0 & Hs & Ht & Hp).
    now exists name, obj, p0.
  - apply on_ready_saved_nodup.
Qed.

(** X8.  The last registration wins: an object named like a TMC driver of a
    Z stepper and reporting a run current has that current saved under the
    stepper's name, unless a later object of the same stepper reports one
    too. *)
Theorem discovery_last_registration_wins (isspace : Ascii.ascii -> bool)
    (before after : list (string * PrinterObject)) (name : string)
    (obj : PrinterObject) (h : ZStepperCurrentHelper)
    (stepper_name : string) (cur : Q) :
  z_stepper_of isspace name = Some stepper_name ->
  run_current obj = Some cur ->
  (forall name' obj',
      In (name', obj') after ->
      z_stepper_of isspace name' = Some stepper_name ->
      run_current obj' = None) ->
  In (stepper_name, cur)
     (_saved_currents
        (_on_ready isspace (before ++ (name, obj) :: after) h)).
Proof. intros Hz Hc Hlater. cbn. now apply on_ready_last_wins. Qed.

Lemma discovery_last_registration_wins_witness :
  In ("stepper_z1", 1.0%Q)
     (_saved_currents
        (_on_ready ascii_isspace objects_example
                   (mkHelper 0.33 [] false false))).
Proof.
  apply (discovery_last_registration_wins ascii_isspace
           (firstn 3 objects_example) (skipn 4 objects_example)
           "tmc2240  stepper_z1" (mkPrinterObject (Some 1.0%Q))
           (mkHelper 0.33 [] false false) "stepper_z1" 1.0%Q).
  - vm_compute. reflexivity.
  - reflexivity.
  - intros name' obj' [[= <- <-]|[[= <- <-]|[]]]; vm_compute; intros; congruence.
Defined.

(** X9.  After discovery on a fresh helper, every script that [reduce()] and
    the [restore()] after it issue sets the current of a stepper whose name
    starts with [stepper_z]: the guard never touches another driver. *)
Theorem guard_commands_only_z_steppers (isspace : Ascii.ascii -> bool)
    (objects : list (string * PrinterObject)) (factor : Q) :
  let h := _on_ready isspace objects (mkHelper factor [] false false) in
  Forall sets_z_current (fst (reduce h) ++ fst (restore (snd (reduce h)))).
Proof.
  cbn.
  assert (Hkeys : forall k v,
             In (k, v) (_on_ready_saved isspace objects []) ->
             String.prefix "stepper_z" k = true).
  { intros k v H. apply on_ready_saved_sound in H.
    destruct H as [[]|(name & obj & _ & Hz & _)].
    now destruct (z_stepper_of_inv _ _ _ Hz) as (p0 & _ & _ & Hp). }
  assert (Hall : forall (g : Q -> Q) l,
             (forall k v, In (k, v) l -> String.prefix "stepper_z" k = true) ->
             Forall sets_z_current
                    (map (fun '(stepper_name, nominal) =>
                            SET_TMC_CURRENT stepper_name (g nominal)) l)).
  { intros g l. induction l as [|[k v] l IH]; intros Hl; cbn; constructor.
    - exists k, (g v). split; [reflexivity | eapply Hl; now left].
    - apply IH. intros k' v' H. eapply Hl. right. exact H. }
  unfold reduce, restore. cbn. apply Forall_app. split.
  - apply (Hall (fun nominal => (nominal * factor)%Q)), Hkeys.
  - apply (Hall (fun nominal => nominal)), Hkeys.
Qed.

(** X10.  The two helpers discover alike: [_handle_ready] of auto_z_offset.py
    leaves the helper that [_on_ready] of auto_z_offset_lite.py leaves, and
    every stepper with a saved current that was not saved before is filed
    under [_z_steppers]. *)
Theorem handle_ready_agrees_with_on_ready (isspace : Ascii.ascii -> bool)
    (objects : list (string * PrinterObject))
    (z_steppers : list (string * PrinterObject)) (h : ZStepperCurrentHelper) :
  snd (_handle_ready isspace objects z_steppers h) = _on_ready isspace objects h
  /\ forall stepper_name,
      In stepper_name
         (map fst (_saved_currents (snd (_handle_ready isspace objects z_steppers h)))) ->
      In stepper_name (map fst (_saved_currents h))
      \/ In stepper_name (map fst (fst (_handle_ready isspace objects z_steppers h))).
Proof.
  unfold _handle_ready, _on_ready. cbn [fst snd _saved_currents]. split.
  - now rewrite handle_ready_saved.
  - apply handle_ready_keys.
Qed.

(** X11.  [AutoZOffset._on_ready] of the lite module only writes the two
    cached offsets.  From the constructor's zeros it caches what
    [_get_probe_xy_offsets] of auto_z_offset.py returns for the same probe
    object; a probe whose [get_offsets] raises or returns fewer than two
    entries leaves the cached values as they are, whatever they are. *)
Theorem lite_ready_offsets (ind : Full.ProbeObj) (o : Lite.AutoZOffset) :
  let o' := LiteReady._on_ready ind o in
  o' = LiteReady.set_ind_offsets (Lite._ind_x_off o') (Lite._ind_y_off o') o
  /\ (Lite._ind_x_off o = 0%Q -> Lite._ind_y_off o = 0%Q ->
      (Lite._ind_x_off o', Lite._ind_y_off o') = Full._get_probe_xy_offsets ind)
  /\ LiteReady._on_ready Full.WithoutOffsets o = o
  /\ (forall offsets,
        (length offsets < 2)%nat ->
        LiteReady._on_ready (Full.WithGetOffsets offsets) o = o).
Proof.
  destruct o. split; [|split; [|split]].
  - now destruct ind as [x y|[|o0 [|o1 l]]|].
  - cbn. intros -> ->. now destruct ind as [x y|[|o0 [|o1 l]]|].
  - reflexivity.
  - intros [|o0 [|o1 l]] Hl; cbn in *; try reflexivity. lia.
Qed.

(** ** A probe, a measurement and a homing, step by step *)

Lemma guard_released_eq (h : ZStepperCurrentHelper) :
  snd (restore (snd (reduce h))) = guard_released h.
Proof. now destruct h as [f s [|] [|]]. Qed.

Lemma lite_probe_spec (w : World Lite.AutoZOffset) :
  wp Lite.cmd_probe (lite_probe_post w) w.
Proof.
  destruct w as [o [th ma hz fut tr]].
  destruct o as [? ? ? ? ? ? ? ? ? ? ? ? skip h ? ? ?].
  destruct fut as [|[after result|] rest]; destruct skip.
  all: lite_unfold; repeat lite_step.
  all: try discriminate.
  all: unfold lite_probe_post, lite_probe_events, lite_bed_events, lite_target;
    wp_simpl; lite_simpl.
  all: rewrite guard_released_eq.
  all: repeat rewrite <- app_assoc; cbn [app].
  all: repeat split; try reflexivity.
Qed.

Lemma full_probe_spec (w : World Full.AutoZOffsetProbe) :
  wp Full.cmd_AUTO_Z_PROBE (full_probe_post w) w.
Proof.
  destruct w as [[m [? ? ? ? ? ? ? ? h ? ?] s pp ip] [th ma hz fut tr]].
  destruct fut as [|[after [? ? ?|? ? ? ? ? ?]|] rest].
  all: full_unfold; repeat full_step.
  all: unfold full_probe_post, full_probe_events, Full.helper_of, Full.with_helper;
    wp_simpl; full_simpl.
  all: rewrite guard_released_eq.
  all: repeat rewrite <- app_assoc; cbn [app].
  all: repeat split; try reflexivity.
Qed.

Lemma lite_measure_guard (w : World Lite.AutoZOffset) :
  wp Lite.cmd_measure_offset (fun _ w' => lite_guard_post w w') w.
Proof.
  destruct w as [o [th ma hz fut tr]].
  split_future fut; lite_unfold; repeat lite_step.
  all: unfold lite_guard_post; wp_simpl; lite_simpl.
  all: rewrite guard_released_eq; repeat split; reflexivity.
Qed.

Lemma full_measure_guard (w : World Full.AutoZOffsetProbe) :
  wp Full.cmd_AUTO_Z_MEASURE_OFFSET (fun _ w' => full_guard_post w w') w.
Proof.
  destruct w as [o [th ma hz fut tr]].
  destruct fut as [|[? [? ? ?|? ? ? ? ? ?]|] [|[? [? ? ?|? ? ? ? ? ?]|] ?]].
  all: full_unfold; repeat full_step.
  all: unfold full_guard_post, Full.helper_of, Full.with_helper; wp_simpl; full_simpl.
  all: now rewrite guard_released_eq.
Qed.

Ltac home_step step :=
  lazymatch goal with
  | |- wp (set_position _) _ _ => unfold set_position
  | |- _ => step
  end.

Lemma lite_home_spec (w : World Lite.AutoZOffset) :
  wp Lite.cmd_home_z (lite_home_post w) w.
Proof.
  destruct w as [o [th ma hz fut tr]].
  destruct fut as [|[after result|] rest].
  all: unfold Lite.cmd_home_z; lite_unfold; repeat home_step lite_step.
  all: unfold lite_home_post; wp_simpl; lite_simpl.
  all: rewrite guard_released_eq.
  all: unfold apply_coord; cbn.
  all: repeat split; reflexivity.
Qed.

Lemma full_home_spec (w : World Full.AutoZOffsetProbe) :
  wp Full.cmd_AUTO_Z_HOME_Z (full_home_post w) w.
Proof.
  destruct w as [o [th ma hz fut tr]].
  destruct fut as [|[after [? ? ?|? ? ? ? ? ?]|] rest].
  all: unfold Full.cmd_AUTO_Z_HOME_Z; full_unfold; repeat home_step full_step.
  all: unfold full_home_post, Full.helper_of, Full.with_helper; wp_simpl; full_simpl.
  all: rewrite guard_released_eq.
  all: unfold apply_coord; cbn.
  all: repeat split; reflexivity.
Qed.

(** ** One probe of the bed sensor: cleanup and reading *)

(** X12.  The probe command restores on every exit.  Whether the probing
    call triggers or raises, the helper ends as [restore()] after
    [reduce()] leaves it: reduced exactly when the hold flag is set, hold
    flag, factor and saved currents untouched; the runtime offset is kept
    (and in the lite module the acceleration limit).  When the probing call
    raises, the command raises the same error, the last reading is left as
    it was, no message is sent, and the scripts of [restore()] are the last
    calls made. *)
Theorem probe_cleanup_on_every_exit :
  (forall w : World Lite.AutoZOffset,
      let h := Lite.z_current (self w) in
      let r := fst (Lite.cmd_probe w) in
      let w' := snd (Lite.cmd_probe w) in
      Lite.z_current (self w') = snd (restore (snd (reduce h)))
      /\ _is_reduced (Lite.z_current (self w')) = _hold h
      /\ _hold (Lite.z_current (self w')) = _hold h
      /\ max_accel (printer w') = max_accel (printer w)
      /\ homing_position_z (printer w') = homing_position_z (printer w)
      /\ (r = Ok tt \/ r = Raise ProbeFault)
      /\ (r = Raise ProbeFault ->
          Lite.last_bed_z (self w') = Lite.last_bed_z (self w)
          /\ trace (printer w')
             = trace (printer w)
                 ++ (if Lite._skip_prepare (self w) then []
                     else [EvScript PREPARE_GCODE])
                 ++ map EvScript (fst (reduce h))
                 ++ lite_bed_events w
                 ++ map EvScript (fst (restore (snd (reduce h))))))
  /\ (forall w : World Full.AutoZOffsetProbe,
      let h := Full.helper_of (self w) in
      let c := Full.cmd_helper (self w) in
      let r := fst (Full.cmd_AUTO_Z_PROBE w) in
      let w' := snd (Full.cmd_AUTO_Z_PROBE w) in
      Full.helper_of (self w') = snd (restore (snd (reduce h)))
      /\ _is_reduced (Full.helper_of (self w')) = _hold h
      /\ _hold (Full.helper_of (self w')) = _hold h
      /\ homing_position_z (printer w') = homing_position_z (printer w)
      /\ (r = Ok tt \/ r = Raise ProbeFault)
      /\ (r = Raise ProbeFault ->
          Full.last_z_result (Full.cmd_helper (self w')) = Full.last_z_result c
          /\ Full.last_probe_position (Full.cmd_helper (self w'))
             = Full.last_probe_position c
          /\ trace (printer w')
             = trace (printer w)
                 ++ map EvScript (fst (reduce h))
                 ++ [EvRunSingleProbe BedSensor]
                 ++ map EvScript (fst (restore (snd (reduce h)))))).
Proof.
  split; [intros w h r w' | intros w h c r w'].
  - pose proof (lite_probe_spec w) as H. unfold wp, lite_probe_post in H.
    fold r w' in H. destruct H as (Hacc & Hhz & _ & H).
    rewrite guard_released_eq. fold h.
    destruct (future (printer w)) as [|[after result|] rest];
      destruct H as (Hr & Hself & _ & Htr); rewrite Hself, Hr.
    all: repeat split; auto; try discriminate.
    all: intros _; exact Htr.
  - pose proof (full_probe_spec w) as H. unfold wp, full_probe_post in H.
    fold r w' in H. destruct H as (Hhz & _ & H).
    rewrite guard_released_eq. fold h.
    destruct (future (printer w)) as [|[after result|] rest];
      destruct H as (Hr & Hself & _ & Htr); rewrite Hself, Hr.
    all: repeat split; auto; try discriminate.
    all: intros _; exact Htr.
Qed.

(** X13.  A probe that triggers records its reading.  The lite module
    records the toolhead's Z after the probing move, and reports it; the
    full module records the position the probe handed back and, as
    [last_z_result], its z raised by [z_offset], and reports that value
    negated.  The probing call is consumed and the toolhead is where the
    call left it. *)
Theorem probe_records_reading :
  (forall (w : World Lite.AutoZOffset) after result rest,
      future (printer w) = Triggered after result :: rest ->
      let w' := snd (Lite.cmd_probe w) in
      fst (Lite.cmd_probe w) = Ok tt
      /\ Lite.last_bed_z (self w') = pos_z after
      /\ toolhead (printer w') = after
      /\ future (printer w') = rest
      /\ exists before,
          trace (printer w')
          = trace (printer w) ++ before
              ++ [EvRespond "%s: bed sensor trigger Z: %.6f"
                            [AStr (Lite.name (self w)); ANum (pos_z after)]])
  /\ (forall (w : World Full.AutoZOffsetProbe) after result rest,
      future (printer w) = Triggered after result :: rest ->
      let c := Full.cmd_helper (self w) in
      let w' := snd (Full.cmd_AUTO_Z_PROBE w) in
      fst (Full.cmd_AUTO_Z_PROBE w) = Ok tt
      /\ Full.last_z_result (Full.cmd_helper (self w'))
         = (_get_pos_z result + Full.z_offset c)%Q
      /\ Full.last_probe_position (Full.cmd_helper (self w'))
         = _get_pos_xyz result
      /\ toolhead (printer w') = after
      /\ future (printer w') = rest
      /\ exists before,
          trace (printer w')
          = trace (printer w) ++ before
              ++ [EvRespond "%s: Bed sensor measured offset: z=%.6f"
                            [AStr (Full.name c);
                             ANum ((_get_pos_z result + Full.z_offset c) * -1)%Q]]).
Proof.
  split; intros w after result rest Hfut.
  - intros w'. pose proof (lite_probe_spec w) as H.
    unfold wp, lite_probe_post in H. fold w' in H.
    destruct H as (_ & _ & Hrest & H). rewrite Hfut in H, Hrest.
    destruct H as (Hr & Hself & Hth & Htr). rewrite Hself.
    repeat split; auto. now exists (lite_probe_events w).
  - intros c w'. pose proof (full_probe_spec w) as H.
    unfold wp, full_probe_post in H. fold w' in H.
    destruct H as (_ & Hrest & H). rewrite Hfut in H, Hrest.
    destruct H as (Hr & Hself & Hth & Htr). rewrite Hself.
    repeat split; auto. now exists (full_probe_events w).
Qed.

Lemma probe_records_reading_witness :
  Lite.last_bed_z (self (snd (Lite.cmd_probe lite_world_example))) = 0.30%Q
  /\ Full.last_z_result
       (Full.cmd_helper (self (snd (Full.cmd_AUTO_Z_PROBE full_world_example))))
     = (0.10 + 0.2)%Q.
Proof.
  split.
  - exact (proj1 (proj2 (proj1 probe_records_reading lite_world_example
                                _ _ _ eq_refl))).
  - exact (proj1 (proj2 (proj2 probe_records_reading full_world_example
                                _ _ _ eq_refl))).
Defined.

(** ** One offset measurement: cleanup *)

(** X14.  An offset measurement restores on every exit, also when its
    reference probe raises after the bed sensor probe returned: the helper
    ends as [restore()] after [reduce()] leaves it, reduced exactly when the
    hold flag is set; in the lite module the per-run prepare flag and the
    acceleration limit are what they were. *)
Theorem measure_cleanup_on_every_exit :
  (forall w : World Lite.AutoZOffset,
      let h := Lite.z_current (self w) in
      let w' := snd (Lite.cmd_measure_offset w) in
      Lite.z_current (self w') = snd (restore (snd (reduce h)))
      /\ _is_reduced (Lite.z_current (self w')) = _hold h
      /\ _hold (Lite.z_current (self w')) = _hold h
      /\ Lite._skip_prepare (self w') = Lite._skip_prepare (self w)
      /\ max_accel (printer w') = max_accel (printer w))
  /\ (forall w : World Full.AutoZOffsetProbe,
      let h := Full.helper_of (self w) in
      let w' := snd (Full.cmd_AUTO_Z_MEASURE_OFFSET w) in
      Full.helper_of (self w') = snd (restore (snd (reduce h)))
      /\ _is_reduced (Full.helper_of (self w')) = _hold h
      /\ _hold (Full.helper_of (self w')) = _hold h).
Proof.
  split; intros w h w'.
  - pose proof (lite_measure_guard w) as H. unfold wp, lite_guard_post in H.
    fold w' h in H. destruct H as (Hh & Hs & Ha).
    rewrite guard_released_eq, Hh. now repeat split.
  - pose proof (full_measure_guard w) as H. unfold wp, full_guard_post in H.
    fold w' h in H. rewrite guard_released_eq, H. now repeat split.
Qed.

(** ** Homing Z on the bed sensor *)

(** X15.  The home command, by cases on the probing call ahead.  When the
    bed sensor triggers, the command returns and the toolhead reads the
    X, Y and extruder position the probing call left it at, and
    [z_offset + probe_hop] as its Z: the trigger point is declared to be
    [z_offset], then the toolhead is lifted by [probe_hop].  When the call
    raises, the command raises and neither redefines the position nor
    lifts: the toolhead reads where the failed call left it, wherever that
    is (at the bed centre, where the first move put it, when the call
    raised before moving), and the last reading is kept.  On both exits the
    helper is reduced exactly when held. *)
Theorem home_z_sets_air_gap :
  (forall w : World Lite.AutoZOffset,
      let o := self w in
      let r := fst (Lite.cmd_home_z w) in
      let w' := snd (Lite.cmd_home_z w) in
      _is_reduced (Lite.z_current (self w')) = _hold (Lite.z_current o)
      /\ max_accel (printer w') = max_accel (printer w)
      /\ match future (printer w) with
         | Triggered after _ :: rest =>
             r = Ok tt
             /\ toolhead (printer w')
                = mkCoord (pos_x after) (pos_y after)
                          (Lite.z_offset o + Lite.probe_hop o) (pos_e after)
             /\ Lite.last_bed_z (self w') = pos_z after
             /\ future (printer w') = rest
         | Fault stopped :: rest =>
             r = Raise ProbeFault
             /\ toolhead (printer w') = stopped
             /\ Lite.last_bed_z (self w') = Lite.last_bed_z o
             /\ future (printer w') = rest
         | [] =>
             r = Raise ProbeFault
             /\ toolhead (printer w')
                = mkCoord (Lite.center_x o) (Lite.center_y o)
                          (Qmax (pos_z (toolhead (printer w))) (Lite.probe_hop o))
                          (pos_e (toolhead (printer w)))
             /\ Lite.last_bed_z (self w') = Lite.last_bed_z o
             /\ future (printer w') = []
         end)
  /\ (forall w : World Full.AutoZOffsetProbe,
      let c := Full.cmd_helper (self w) in
      let r := fst (Full.cmd_AUTO_Z_HOME_Z w) in
      let w' := snd (Full.cmd_AUTO_Z_HOME_Z w) in
      _is_reduced (Full.helper_of (self w')) = _hold (Full.helper_of (self w))
      /\ match future (printer w) with
         | Triggered after pos :: rest =>
             r = Ok tt
             /\ toolhead (printer w')
                = mkCoord (pos_x after) (pos_y after)
                          (Full.z_offset c + Full.probe_hop c) (pos_e after)
             /\ Full.last_z_result (Full.cmd_helper (self w'))
                = (_get_pos_z pos + Full.z_offset c)%Q
             /\ future (printer w') = rest
         | Fault stopped :: rest =>
             r = Raise ProbeFault
             /\ toolhead (printer w') = stopped
             /\ Full.last_z_result (Full.cmd_helper (self w'))
                = Full.last_z_result c
             /\ future (printer w') = rest
         | [] =>
             r = Raise ProbeFault
             /\ toolhead (printer w')
                = mkCoord (Full.bed_center_x c) (Full.bed_center_y c)
                          (Qmax (pos_z (toolhead (printer w))) (Full.probe_hop c))
                          (pos_e (toolhead (printer w)))
             /\ Full.last_z_result (Full.cmd_helper (self w'))
                = Full.last_z_result c
             /\ future (printer w') = []
         end).
Proof.
  split.
  - intros w o r w'. pose proof (lite_home_spec w) as H.
    unfold wp, lite_home_post in H. fold o r w' in H.
    destruct H as (Hh & Ha & H). rewrite Hh. now repeat split.
  - intros w c r w'. pose proof (full_home_spec w) as H.
    unfold wp, full_home_post in H. fold c r w' in H.
    destruct H as (Hh & H). rewrite Hh. now repeat split.
Qed.

(** ** One offset measurement: where the reference probe is made *)

Lemma consecutive_cons {A} (xs : list A) a l :
  consecutive xs l -> consecutive xs (a :: l).
Proof. intros (b & t & ->). now exists (a :: b), t. Qed.

Lemma consecutive_app_r {A} (xs : list A) l1 l2 :
  consecutive xs l2 -> consecutive xs (l1 ++ l2).
Proof. intros (b & t & ->). exists (l1 ++ b), t. now rewrite <- app_assoc. Qed.

Ltac consecutive_tac :=
  first [ solve [eexists [], _; reflexivity]
        | apply consecutive_cons; consecutive_tac
        | apply consecutive_app_r; consecutive_tac ].

Lemma lite_reference_spec (w : World Lite.AutoZOffset) after result rest :
  future (printer w) = Triggered after result :: rest ->
  wp Lite.cmd_measure_offset
     (fun _ w' =>
        exists evs,
          trace (printer w') = trace (printer w) ++ evs
          /\ consecutive (lite_reference_calls (self w) after) evs) w.
Proof.
  destruct w as [o [th ma hz fut tr]]. cbn. intros ->.
  destruct rest as [|[? ?|] ?]; lite_unfold; repeat lite_step.
  all: wp_simpl; lite_simpl.
  all: unfold lite_reference_calls, apply_coord; cbn [nth_error pos_z pos_e].
  all: repeat rewrite <- app_assoc; cbn [app].
  all: eexists; split; [reflexivity|].
  all: consecutive_tac.
Qed.

Lemma full_reference_spec (w : World Full.AutoZOffsetProbe) after result rest :
  future (printer w) = Triggered after result :: rest ->
  wp Full.cmd_AUTO_Z_MEASURE_OFFSET
     (fun _ w' =>
        exists evs,
          trace (printer w') = trace (printer w) ++ evs
          /\ consecutive (full_reference_calls (self w) after) evs) w.
Proof.
  destruct w as [o [th ma hz fut tr]]. cbn. intros ->.
  destruct result as [? ? ?|? ? ? ? ? ?];
    destruct rest as [|[? [? ? ?|? ? ? ? ? ?]|] ?].
  all: full_unfold; repeat full_step.
  all: wp_simpl; full_simpl.
  all: unfold full_reference_calls, apply_coord; full_simpl;
    cbn [nth_error pos_x pos_y pos_z pos_e].
  all: match goal with H : Full._get_probe_xy_offsets _ = _ |- _ => rewrite H end.
  all: cbn [fst snd].
  all: repeat rewrite <- app_assoc; cbn [app].
  all: eexists; split; [reflexivity|].
  all: consecutive_tac.
Qed.

(** X16.  Between the two probes of a measurement whose bed sensor probe
    triggers, three calls follow one another: the lift by [probe_hop] from
    where that probe left the toolhead; the move that puts the inductive
    probe over the bed centre (the centre less the probe's XY offsets) at
    the lifted height; and the reference probe.  In both modules. *)
Theorem reference_probe_over_bed_centre :
  (forall (w : World Lite.AutoZOffset) after result rest,
      future (printer w) = Triggered after result :: rest ->
      exists evs,
        trace (printer (snd (Lite.cmd_measure_offset w)))
        = trace (printer w) ++ evs
        /\ consecutive (lite_reference_calls (self w) after) evs)
  /\ (forall (w : World Full.AutoZOffsetProbe) after result rest,
      future (printer w) = Triggered after result :: rest ->
      exists evs,
        trace (printer (snd (Full.cmd_AUTO_Z_MEASURE_OFFSET w)))
        = trace (printer w) ++ evs
        /\ consecutive (full_reference_calls (self w) after) evs).
Proof.
  split; intros w after result rest Hfut.
  - exact (lite_reference_spec w after result rest Hfut).
  - exact (full_reference_spec w after result rest Hfut).
Qed.

Lemma reference_probe_witness :
  exists evs,
    trace (printer (snd (Lite.cmd_measure_offset lite_world_example)))
    = [] ++ evs
    /\ consecutive
         [EvMove [None; None; Some (0.30 + 5)%Q] 5;
          EvMove [Some (100 - 20)%Q; Some (100 - 10)%Q; Some (0.30 + 5)%Q;
                  Some 0%Q] 50;
          EvScript PROBE_SAMPLES_1] evs.
Proof.
  apply (proj1 reference_probe_over_bed_centre lite_world_example
               (mkCoord 100 100 0.30 0) (Plain 100 100 0.30)
               (tl (future (printer lite_world_example)))).
  reflexivity.
Defined.

(** ** Measurements under the hold of a calibration *)

Lemma lite_bed_events_steady w : Forall steady (lite_bed_events w).
Proof.
  unfold lite_bed_events. destruct (Qgtb _ _); repeat constructor.
Qed.

Ltac steady_tac :=
  repeat first
    [ apply Forall_nil
    | apply List.Forall_cons; [exact I|]
    | apply Forall_app; split
    | apply lite_bed_events_steady ].

Lemma lite_measure_held (w : World Lite.AutoZOffset) :
  lite_held (self w) ->
  wp Lite.cmd_measure_offset (fun _ w' => lite_held_post w w') w.
Proof.
  destruct w as [o [th ma hz fut tr]].
  destruct o as [? ? ? ? ? ? ? ? ? ? ? ? skip [f s red hold] ? ? ?].
  intros (Hh & Hr & Hs). cbn in Hh, Hr, Hs. subst skip red hold.
  split_future fut; lite_unfold; repeat lite_step.
  all: try discriminate.
  all: unfold lite_held_post; wp_simpl; lite_simpl.
  all: cbn [reduce restore _is_reduced _hold negb orb fst snd map app].
  all: repeat rewrite <- app_assoc; cbn [app].
  all: split; [reflexivity|]; split; [reflexivity|].
  all: eexists; split; [reflexivity|]; steady_tac; try exact I.
Qed.

Lemma full_measure_held (w : World Full.AutoZOffsetProbe) :
  full_held (self w) ->
  wp Full.cmd_AUTO_Z_MEASURE_OFFSET (fun _ w' => full_held_post w w') w.
Proof.
  destruct w as [[m [? ? ? ? ? ? ? ? [f s red hold] ? ?] ss pp ip] [th ma hz fut tr]].
  intros (Hh & Hr). cbn in Hh, Hr. subst red hold.
  destruct fut as [|[? [? ? ?|? ? ? ? ? ?]|] [|[? [? ? ?|? ? ? ? ? ?]|] ?]].
  all: full_unfold; repeat full_step.
  all: unfold full_held_post, Full.helper_of, Full.with_helper; wp_simpl; full_simpl.
  all: cbn [reduce restore _is_reduced _hold negb orb fst snd map app].
  all: repeat rewrite <- app_assoc; cbn [app].
  all: split; [reflexivity|].
  all: eexists; split; [reflexivity|]; steady_tac; try exact I.
Qed.

Lemma lite_held_post_refl w : lite_held_post w w.
Proof.
  repeat split. exists []. split; [now rewrite app_nil_r | constructor].
Qed.

Lemma lite_held_post_trans w1 w2 w3 :
  lite_held_post w1 w2 -> lite_held_post w2 w3 -> lite_held_post w1 w3.
Proof.
  intros (Hz1 & Hs1 & e1 & Ht1 & Hq1) (Hz2 & Hs2 & e2 & Ht2 & Hq2).
  repeat split; try congruence.
  exists (e1 ++ e2). split.
  - rewrite Ht2, Ht1. now rewrite <- app_assoc.
  - apply Forall_app; auto.
Qed.

Lemma full_held_post_refl w : full_held_post w w.
Proof.
  repeat split. exists []. split; [now rewrite app_nil_r | constructor].
Qed.

Lemma full_held_post_trans w1 w2 w3 :
  full_held_post w1 w2 -> full_held_post w2 w3 -> full_held_post w1 w3.
Proof.
  intros (Hz1 & e1 & Ht1 & Hq1) (Hz2 & e2 & Ht2 & Hq2).
  repeat split; try congruence.
  exists (e1 ++ e2). split.
  - rewrite Ht2, Ht1. now rewrite <- app_assoc.
  - apply Forall_app; auto.
Qed.

Lemma lite_loop_held (n : nat) : forall total w,
  lite_held (self w) ->
  wp (Lite.measure_loop n total) (fun _ w' => lite_held_post w w') w.
Proof.
  induction n as [|n IH]; intros total w Hheld.
  - apply wp_ret. apply lite_held_post_refl.
  - cbn [Lite.measure_loop]. apply wp_bind.
    eapply wp_mono; [apply lite_measure_held, Hheld|].
    intros r1 w1 Hpost. destruct r1 as [v|ex]; [|exact Hpost].
    eapply wp_mono.
    + apply IH. destruct Hpost as (Hz & Hs & _).
      unfold lite_held. rewrite Hz, Hs. exact Hheld.
    + intros r2 w2 Hpost2. eapply lite_held_post_trans; eauto.
Qed.

Lemma full_loop_held (n : nat) : forall total w,
  full_held (self w) ->
  wp (Full.measure_loop n total) (fun _ w' => full_held_post w w') w.
Proof.
  induction n as [|n IH]; intros total w Hheld.
  - apply wp_ret. apply full_held_post_refl.
  - cbn [Full.measure_loop]. apply wp_bind.
    eapply wp_mono; [apply full_measure_held, Hheld|].
    intros r1 w1 Hpost. destruct r1 as [v|ex]; [|exact Hpost].
    eapply wp_mono.
    + apply IH. destruct Hpost as (Hz & _).
      unfold full_held. rewrite Hz. exact Hheld.
    + intros r2 w2 Hpost2. eapply full_held_post_trans; eauto.
Qed.

Lemma lite_calibrate_steady (w : World Lite.AutoZOffset) :
  wp Lite.cmd_calibrate
     (fun _ w' => calibrate_trace_post (Lite.z_current (self w)) w w') w.
Proof.
  unfold Lite.cmd_calibrate. lite_unfold. repeat lite_step.
  eapply wp_mono.
  { apply lite_loop_held. unfold lite_held. wp_simpl; lite_simpl.
    cbn [set_hold _hold _is_reduced]. now rewrite reduce_sets_flag. }
  intros r1 w1 (Hz & Hs & evs & Htr & Hq).
  wp_simpl; lite_simpl.
  repeat lite_step.
  rewrite Hz.
  destruct (guard_keeps_config (Lite.z_current (self w)))
    as [(Hs0 & Hf0 & Hh0) _].
  assert (Hrel : restore (set_hold false
                            (set_hold true (snd (reduce (Lite.z_current (self w))))))
                 = (restore_scripts (Lite.z_current (self w)),
                    mkHelper (probe_current_factor (Lite.z_current (self w)))
                             (_saved_currents (Lite.z_current (self w)))
                             false false)).
  { unfold restore, set_hold, restore_scripts; cbn.
    now rewrite reduce_sets_flag, Hs0, Hf0. }
  rewrite Hrel. wp_simpl.
  destruct r1 as [total|ex].
  - repeat lite_step.
    unfold calibrate_trace_post. wp_simpl.
    rewrite Htr. repeat rewrite <- app_assoc. cbn [app].
    exists evs. eexists. split; [reflexivity|]. split; [exact Hq|].
    steady_tac; try exact I.
  - unfold calibrate_trace_post. wp_simpl.
    rewrite Htr. repeat rewrite <- app_assoc. cbn [app].
    exists evs, []. split; [now rewrite app_nil_r|]. split; [exact Hq|constructor].
Qed.

Lemma full_calibrate_steady (w : World Full.AutoZOffsetProbe) :
  wp Full.cmd_AUTO_Z_CALIBRATE
     (fun _ w' => calibrate_trace_post (Full.helper_of (self w)) w w') w.
Proof.
  unfold Full.cmd_AUTO_Z_CALIBRATE. full_unfold. repeat full_step.
  eapply wp_mono.
  { apply full_loop_held. unfold full_held, Full.helper_of, Full.with_helper.
    wp_simpl; full_simpl.
    cbn [set_hold _hold _is_reduced]. now rewrite reduce_sets_flag. }
  intros r1 w1 (Hz & evs & Htr & Hq).
  unfold Full.helper_of, Full.with_helper in *.
  wp_simpl; full_simpl.
  repeat full_step.
  rewrite Hz.
  destruct (guard_keeps_config (Full.z_current_helper (Full.cmd_helper (self w))))
    as [(Hs0 & Hf0 & Hh0) _].
  assert (Hrel : restore (set_hold false
                            (set_hold true
                               (snd (reduce (Full.z_current_helper
                                               (Full.cmd_helper (self w)))))))
                 = (restore_scripts (Full.z_current_helper (Full.cmd_helper (self w))),
                    mkHelper (probe_current_factor
                                (Full.z_current_helper (Full.cmd_helper (self w))))
                             (_saved_currents
                                (Full.z_current_helper (Full.cmd_helper (self w))))
                             false false)).
  { unfold restore, set_hold, restore_scripts; cbn.
    now rewrite reduce_sets_flag, Hs0, Hf0. }
  rewrite Hrel. wp_simpl.
  destruct r1 as [total|ex].
  - repeat full_step.
    unfold calibrate_trace_post. wp_simpl.
    rewrite Htr. repeat rewrite <- app_assoc. cbn [app].
    exists evs. eexists. split; [reflexivity|]. split; [exact Hq|].
    steady_tac; try exact I.
  - unfold calibrate_trace_post. wp_simpl.
    rewrite Htr. repeat rewrite <- app_assoc. cbn [app].
    exists evs, []. split; [now rewrite app_nil_r|]. split; [exact Hq|constructor].
Qed.

(** ** The calibration command: one prepare, one reduction *)

Lemma steady_keeps_current (evs : list Event) :
  Forall steady evs -> Forall keeps_current evs.
Proof.
  induction 1 as [|ev evs Hev _ IH]; constructor; [|exact IH].
  destruct ev as [s|? ?| |? ?|?| |?|? ?|? ?|? ? ?]; try exact I.
  destruct s; try exact I; contradiction.
Qed.

(** X17.  The hold spans the whole calibration.  On every exit, the calls of
    the command are: the offset reset and the prepare macro; the scripts of
    the one [reduce()]; the measurements, none of which sets a driver
    current and, in the lite module, none of which runs the prepare macro
    again; the scripts of the one [restore()]; and what follows, which does
    neither. *)
Theorem calibration_prepares_and_reduces_once :
  (forall w : World Lite.AutoZOffset,
      let h := Lite.z_current (self w) in
      let w' := snd (Lite.cmd_calibrate w) in
      exists mid post,
        trace (printer w')
        = trace (printer w)
            ++ [EvScript SET_GCODE_OFFSET_Z0; EvScript PREPARE_GCODE]
            ++ map EvScript (fst (reduce h))
            ++ mid
            ++ map EvScript (restore_scripts h)
            ++ post
        /\ Forall steady mid /\ Forall steady post)
  /\ (forall w : World Full.AutoZOffsetProbe,
      let h := Full.helper_of (self w) in
      let w' := snd (Full.cmd_AUTO_Z_CALIBRATE w) in
      exists mid post,
        trace (printer w')
        = trace (printer w)
            ++ [EvScript SET_GCODE_OFFSET_Z0; EvScript PREPARE_GCODE]
            ++ map EvScript (fst (reduce h))
            ++ mid
            ++ map EvScript (restore_scripts h)
            ++ post
        /\ Forall keeps_current mid /\ Forall keeps_current post).
Proof.
  split; intros w h w'.
  - exact (lite_calibrate_steady w).
  - destruct (full_calibrate_steady w) as (mid & post & Htr & Hm & Hp).
    exists mid, post. split; [exact Htr|].
    split; now apply steady_keeps_current.
Qed.

(** ** The calibration command: applying and persisting *)

Lemma lite_run_offsets_consumed n : forall fut offsets rest,
  lite_run_offsets n fut = Some (offsets, rest) ->
  exists consumed,
    fut = consumed ++ rest /\ length consumed = (2 * n)%nat
    /\ Forall (fun o => exists after result, o = Triggered after result)
              consumed.
Proof.
  induction n as [|n IH]; intros fut offsets rest; cbn [lite_run_offsets].
  - intros [= _ <-]. exists []. split; [reflexivity|]. split; [reflexivity|constructor].
  - destruct fut as [|[a1 p1|] [|[a2 p2|] fut']]; try discriminate.
    destruct (lite_run_offsets n fut') as [[offs rest']|] eqn:E; [|discriminate].
    intros [= _ <-]. destruct (IH _ _ _ E) as (consumed & -> & Hl & Hf).
    exists (Triggered a1 p1 :: Triggered a2 p2 :: consumed).
    split; [reflexivity|]. split; [cbn; lia|].
    constructor; [now exists a1, p1|]. constructor; [now exists a2, p2|].
    exact Hf.
Qed.

Lemma full_run_offsets_consumed z_offset n : forall fut offsets rest,
  full_run_offsets z_offset n fut = Some (offsets, rest) ->
  exists consumed,
    fut = consumed ++ rest /\ length consumed = (2 * n)%nat
    /\ Forall (fun o => exists after result, o = Triggered after result)
              consumed.
Proof.
  induction n as [|n IH]; intros fut offsets rest; cbn [full_run_offsets].
  - intros [= _ <-]. exists []. split; [reflexivity|]. split; [reflexivity|constructor].
  - destruct fut as [|[a1 p1|] [|[a2 p2|] fut']]; try discriminate.
    destruct (full_run_offsets z_offset n fut') as [[offs rest']|] eqn:E;
      [|discriminate].
    intros [= _ <-]. destruct (IH _ _ _ E) as (consumed & -> & Hl & Hf).
    exists (Triggered a1 p1 :: Triggered a2 p2 :: consumed).
    split; [reflexivity|]. split; [cbn; lia|].
    constructor; [now exists a1, p1|]. constructor; [now exists a2, p2|].
    exact Hf.
Qed.



(** X19.  A calibration that returns has made exactly two probing calls per
    run, [2 * offset_samples] in all, every one of which triggered; a
    calibration that raises has raised the error of a probing call. *)
Theorem calibration_probes_twice_per_run :
  (forall w : World Lite.AutoZOffset,
      let w' := snd (Lite.cmd_calibrate w) in
      (fst (Lite.cmd_calibrate w) = Ok tt
       /\ exists consumed,
           future (printer w) = consumed ++ future (printer w')
           /\ length consumed = (2 * Pos.to_nat (Lite.offset_samples (self w)))%nat
           /\ Forall (fun outcome =>
                        exists after result, outcome = Triggered after result)
                     consumed)
      \/ fst (Lite.cmd_calibrate w) = Raise ProbeFault)
  /\ (forall w : World Full.AutoZOffsetProbe,
      let w' := snd (Full.cmd_AUTO_Z_CALIBRATE w) in
      (fst (Full.cmd_AUTO_Z_CALIBRATE w) = Ok tt
       /\ exists consumed,
           future (printer w) = consumed ++ future (printer w')
           /\ length consumed
              = (2 * Pos.to_nat (Full.offset_samples (Full.cmd_helper (self w))))%nat
           /\ Forall (fun outcome =>
                        exists after result, outcome = Triggered after result)
                     consumed)
      \/ fst (Full.cmd_AUTO_Z_CALIBRATE w) = Raise ProbeFault).
Proof.
  split; intros w w'.
  - pose proof (lite_calibrate_spec w) as H.
    unfold wp, lite_calibrate_post in H. fold w' in H.
    destruct H as (_ & _ & Hres).
    destruct (lite_run_offsets _ _) as [[offsets rest]|] eqn:E.
    + destruct Hres as (Hr & _ & _ & Hrest). left. split; [exact Hr|].
      rewrite Hrest. eapply lite_run_offsets_consumed, E.
    + right. now destruct Hres.
  - pose proof (full_calibrate_spec w) as H.
    unfold wp, full_calibrate_post in H. fold w' in H.
    destruct H as (_ & _ & Hres).
    destruct (full_run_offsets _ _ _) as [[offsets rest]|] eqn:E.
    + destruct Hres as (Hr & _ & _ & Hrest). left. split; [exact Hr|].
      rewrite Hrest. eapply full_run_offsets_consumed, E.
    + right. now destruct Hres.
Qed.

(** ** After a calibration *)

(** X20.  A calibration leaves nothing behind, on either exit.  In the lite
    module the next probe command starts with the prepare macro and with a
    set-current script for every saved stepper, at the reduced current.  In
    the full module [multi_probe_begin] runs the prepare macro before it
    delegates, and the next probe command starts with the same set-current
    scripts. *)
Theorem probe_after_calibration_starts_afresh :
  (forall w : World Lite.AutoZOffset,
      let h := Lite.z_current (self w) in
      let w1 := snd (Lite.cmd_calibrate w) in
      let w2 := snd (Lite.cmd_probe w1) in
      exists later,
        trace (printer w2)
        = trace (printer w1)
            ++ [EvScript PREPARE_GCODE]
            ++ map (fun '(stepper_name, nominal) =>
                      EvScript (SET_TMC_CURRENT stepper_name
                                  (nominal * probe_current_factor h)%Q))
                   (_saved_currents h)
            ++ later)
  /\ (forall w : World Full.AutoZOffsetProbe,
      let h := Full.helper_of (self w) in
      let w1 := snd (Full.cmd_AUTO_Z_CALIBRATE w) in
      let w2 := snd (Full.cmd_AUTO_Z_PROBE w1) in
      Full.multi_probe_begin w1
      = (Ok tt,
         mkWorld (self w1)
                 (log_all [EvScript PREPARE_GCODE;
                           EvProbeWrapper "multi_probe_begin"] (printer w1)))
      /\ exists later,
          trace (printer w2)
          = trace (printer w1)
              ++ map (fun '(stepper_name, nominal) =>
                        EvScript (SET_TMC_CURRENT stepper_name
                                    (nominal * probe_current_factor h)%Q))
                     (_saved_currents h)
              ++ later).
Proof.
  split; intros w h w1 w2.
  - pose proof (lite_calibrate_spec w) as H.
    unfold wp, lite_calibrate_post in H. fold w1 h in H.
    destruct H as ((bed_z & Hself) & _).
    pose proof (lite_probe_spec w1) as P. unfold wp, lite_probe_post in P.
    fold w2 in P. destruct P as (_ & _ & _ & P).
    assert (Hev : exists later,
               lite_probe_events w1
               = [EvScript PREPARE_GCODE]
                   ++ map (fun '(stepper_name, nominal) =>
                             EvScript (SET_TMC_CURRENT stepper_name
                                         (nominal * probe_current_factor h)%Q))
                          (_saved_currents h)
                   ++ later).
    { unfold lite_probe_events. rewrite Hself. lite_simpl.
      unfold reduce at 1. cbn [_is_reduced _saved_currents probe_current_factor fst].
      rewrite map_map. eexists. f_equal. f_equal.
      apply map_ext. now intros [n c]. }
    destruct Hev as (later & Hev).
    destruct (future (printer w1)) as [|[after result|] rest];
      destruct P as (_ & _ & _ & Htr); rewrite Htr, Hev;
      eexists; repeat rewrite <- app_assoc; reflexivity.
  - pose proof (full_calibrate_spec w) as H.
    unfold wp, full_calibrate_post in H. fold w1 in H.
    destruct H as ((position & z_result & Hself) & _).
    split.
    + assert (Hskip : Full.skip_prepare (Full.mcu_probe (self w1)) = false)
        by now rewrite Hself.
      unfold Full.multi_probe_begin, Full.run_prepare_gcode, bind, get_self,
        run_script_from_command, emit, get_printer, set_printer, ret, bind.
      cbn [fst snd self printer]. rewrite Hskip. cbn.
      unfold log_all, log. cbn. repeat rewrite <- app_assoc. reflexivity.
    + pose proof (full_probe_spec w1) as P. unfold wp, full_probe_post in P.
      fold w2 in P. destruct P as (_ & _ & P).
      assert (Hev : exists later,
                 full_probe_events w1
                 = map (fun '(stepper_name, nominal) =>
                          EvScript (SET_TMC_CURRENT stepper_name
                                      (nominal * probe_current_factor h)%Q))
                       (_saved_currents h)
                     ++ later).
      { unfold full_probe_events, Full.helper_of. rewrite Hself. full_simpl.
        unfold reduce at 1.
        cbn [_is_reduced _saved_currents probe_current_factor fst].
        rewrite map_map. eexists. f_equal.
        apply map_ext. now intros [n c]. }
      destruct Hev as (later & Hev).
      destruct (future (printer w1)) as [|[after result|] rest];
        destruct P as (_ & _ & _ & Htr); rewrite Htr, Hev;
        eexists; repeat rewrite <- app_assoc; reflexivity.
Qed.

(** ** The acceleration override without its prepare *)

(** X21.  With a positive [probe_accel]: [probe_finish] on a wrapper on
    which [probe_prepare] never ran raises [AttributeError] before it issues
    or delegates anything; and a second [probe_prepare] without a
    [probe_finish] in between reads the override as the limit to restore,
    so that the [probe_finish] after it leaves the override in force. *)
Theorem accel_override_needs_a_prepare (w : World Full.AutoZOffsetProbe) :
  (0 < Full.probe_accel (Full.mcu_probe (self w)))%Q ->
  (Full.old_max_accel (Full.mcu_probe (self w)) = None ->
   Full.probe_finish w = (Raise AttributeError, w))
  /\ (let w2 := snd (Full.probe_prepare (snd (Full.probe_prepare w))) in
      let w3 := snd (Full.probe_finish w2) in
      Full.old_max_accel (Full.mcu_probe (self w2))
      = Some (Full.probe_accel (Full.mcu_probe (self w)))
      /\ fst (Full.probe_finish w2) = Ok tt
      /\ max_accel (printer w3) = Full.probe_accel (Full.mcu_probe (self w))).
Proof.
  intros Hacc. apply Qgtb_true in Hacc.
  destruct w as [[[accel skip old] c s pp ip] [th ma hz fut tr]].
  cbn in Hacc. split.
  - cbn. intros ->. unfold Full.probe_finish, bind, get_self. cbn.
    now rewrite Hacc.
  - unfold Full.probe_prepare, Full.probe_finish. cbn. rewrite Hacc. cbn.
    rewrite Hacc. cbn. rewrite Hacc. cbn. repeat split.
Qed.

Lemma accel_override_witness :
  Full.probe_finish full_world_accel = (Raise AttributeError, full_world_accel).
Proof.
  apply (proj1 (accel_override_needs_a_prepare full_world_accel eq_refl)).
  reflexivity.
Defined.

(** ** The sampling session: counts and closed form *)

Lemma count_probes_app evs1 evs2 :
  count_probes (evs1 ++ evs2) = (count_probes evs1 + count_probes evs2)%nat.
Proof. unfold count_probes. now rewrite List.filter_app, length_app. Qed.

Lemma sample_loop_counts params probexy (fuel : nat) :
  forall positions retries (w : World Full.AutoZOffsetProbe),
    (length positions <= Full.samples params)%nat ->
    (retries <= Full.samples_tolerance_retries params)%nat ->
    (probes_left params positions retries < fuel)%nat ->
    wp (Full.sample_loop fuel params probexy positions retries)
       (sample_loop_counts_post params positions retries w) w.
Proof.
  unfold probes_left.
  induction fuel as [|fuel IH]; intros positions retries w Hlen Hret Hfuel.
  { now apply Nat.nlt_0_r in Hfuel. }
  cbn [Full.sample_loop].
  destruct (length positions <? Full.samples params)%nat eqn:Hlt.
  2:{ apply Nat.ltb_ge in Hlt. apply wp_ret. exists [].
      rewrite app_nil_r. repeat split; cbn; try lia; try discriminate. }
  apply Nat.ltb_lt in Hlt.
  destruct w as [o [th ma hz fut tr]].
  unfold Full._probe.
  repeat full_step.
  destruct fut as [|[after result|] rest]; wp_simpl.
  - exists [EvProbe]. unfold probes_left, count_probes. cbn.
    repeat split; try discriminate. nia.
  - apply wp_bind. apply wp_check_tolerance.
    destruct (Qgtb _ _) eqn:Hspread.
    + destruct (_ <=? _)%nat eqn:Hbudget.
      * apply Nat.leb_le in Hbudget.
        exists [EvProbe]. unfold probes_left, count_probes, count_retries. cbn.
        repeat split; try discriminate; nia.
      * apply Nat.leb_gt in Hbudget.
        wp_simpl. cbn [fst snd length].
        assert (Hpos : (0 <? Full.samples params)%nat = true)
          by (apply Nat.ltb_lt; lia).
        rewrite Hpos. repeat full_step.
        eapply wp_mono.
        { apply IH; [cbn; lia | lia | cbn; nia]. }
        intros r' w' (evs & Htr & Hcount & Htol & Hok).
        wp_simpl.
        eexists. split; [rewrite Htr; repeat rewrite <- app_assoc; reflexivity|].
        cbn [app length] in *.
        unfold count_probes, count_retries, probes_left in *.
        cbn [List.filter is_probe_call is_retry length] in *.
        repeat split.
        -- cbn. nia.
        -- intros Hr. specialize (Htol Hr). cbn. nia.
        -- intros accepted Hr. specialize (Hok accepted Hr). cbn. nia.
    + wp_simpl. cbn [fst snd].
      destruct (_ <? _)%nat; repeat full_step.
      all: eapply wp_mono;
        [apply IH; [rewrite length_app; cbn; lia | lia
                   | rewrite length_app; cbn; nia]|].
      all: intros r' w' (evs & Htr & Hcount & Htol & Hok).
      all: wp_simpl.
      all: eexists; split; [rewrite Htr; repeat rewrite <- app_assoc; reflexivity|].
      all: rewrite length_app in *; cbn [app length] in *.
      all: unfold count_probes, count_retries, probes_left in *;
        try rewrite length_app in *;
        cbn [List.filter is_probe_call is_retry length] in *.
      all: repeat split;
        [ nia
        | intros Hr; specialize (Htol Hr); nia
        | intros accepted Hr; specialize (Hok accepted Hr); nia ].
  - exists [EvProbe]. unfold probes_left, count_probes. cbn.
    repeat split; try discriminate. nia.
Qed.

Lemma session_counts_spec (w : World Full.AutoZOffsetProbe) :
  wp Full.run_probe
     (fun r w' =>
        let params := Full.param_helper (self w) in
        exists evs,
          trace (printer w') = trace (printer w) ++ evs
          /\ (count_probes evs
              <= S (Full.samples_tolerance_retries params) * Full.samples params)%nat
          /\ (r = Raise SamplesTolerance ->
              count_retries evs = Full.samples_tolerance_retries params)
          /\ (r = Ok tt -> (Full.samples params <= count_probes evs)%nat)) w.
Proof.
  unfold Full.run_probe. repeat full_step.
  2:{ exists []. rewrite app_nil_r. unfold count_probes; cbn.
      repeat split; try discriminate. lia. }
  eapply wp_mono.
  { apply (sample_loop_counts (Full.param_helper (self w)));
      [cbn; lia | lia | unfold probes_left, Full.loop_bound; cbn; lia]. }
  intros r1 w1 (evs & Htr & Hcount & Htol & Hok).
  unfold probes_left in Hcount. cbn [length] in Hcount.
  destruct r1 as [accepted|ex].
  - unfold wp. rewrite reduce_samples_run. cbv zeta.
    specialize (Hok accepted eq_refl). cbn [length] in Hok.
    destruct (calc_probe_z_average _ _ _) as [epos|ex] eqn:Hcalc; cbn [fst snd].
    all: eexists; cbn [printer trace log]; rewrite Htr, <- app_assoc.
    all: split; [reflexivity|].
    all: rewrite count_probes_app, count_retries_app.
    all: unfold count_probes at 2; unfold count_retries at 2; cbn.
    all: repeat split; try discriminate; try lia.
    intros [= ->]. unfold calc_probe_z_average in Hcalc.
    destruct (trimmed_samples _ _); [discriminate|].
    destruct (Full.samples_result _);
      [discriminate | destruct (Nat.odd _); discriminate].
  - exists evs. repeat split; auto; try discriminate.
    + cbn. lia.
    + intros [= ->]. now apply Htol.
Qed.

(** The spread of the first samples is at most the spread of all. *)
Lemma spread_prefix (first_ones later : list Position) :
  first_ones <> [] ->
  (Full.spread first_ones <= Full.spread (first_ones ++ later))%Q.
Proof.
  intros Hne. unfold Full.spread. rewrite map_app.
  assert (Hz : map _get_pos_z first_ones <> []) by now destruct first_ones.
  pose proof (list_max_ge (map _get_pos_z first_ones ++ map _get_pos_z later)
                _ (in_or_app _ _ _ (or_introl (list_max_in _ Hz)))).
  pose proof (list_min_le (map _get_pos_z first_ones ++ map _get_pos_z later)
                _ (in_or_app _ _ _ (or_introl (list_min_in _ Hz)))).
  lra.
Qed.

Lemma run_of_wp_eq {Obj A} (m : M (Obj := Obj) A) (w : World Obj) r w' :
  wp m (fun r1 w1 => r1 = r /\ w1 = w') w -> m w = (r, w').
Proof. unfold wp. destruct (m w) as [r1 w1]. cbn. now intros [-> ->]. Qed.

Lemma sample_loop_accepts params probexy :
  forall outcomes fuel positions retries (w : World Full.AutoZOffsetProbe) rest,
    future (printer w) = map triggered outcomes ++ rest ->
    (length positions + length outcomes = Full.samples params)%nat ->
    (Full.spread (positions ++ map snd outcomes)
     <= Full.samples_tolerance params)%Q ->
    (length outcomes < fuel)%nat ->
    Full.sample_loop fuel params probexy positions retries w
    = (Ok (positions ++ map snd outcomes),
       mkWorld (self w)
               (mkPrinter
                  (session_toolhead params probexy outcomes
                                    (toolhead (printer w)))
                  (max_accel (printer w)) (homing_position_z (printer w)) rest
                  (trace (printer w) ++ session_events params probexy outcomes))).
Proof.
  induction outcomes as [|[after result] outcomes IH];
    intros fuel positions retries w rest Hfut Hlen Htol Hfuel.
  - destruct fuel as [|fuel]; [lia|]. cbn [Full.sample_loop].
    cbn in Hlen, Hfut. rewrite Nat.add_0_r in Hlen.
    rewrite Hlen, Nat.ltb_irrefl. cbn. rewrite !app_nil_r.
    destruct w as [o [th ma hz fut tr]]. cbn in *. now subst fut.
  - destruct fuel as [|fuel]; [cbn in Hfuel; lia|].
    cbn [length] in Hlen, Hfuel.
    assert (Hlt : (length positions <? Full.samples params)%nat = true)
      by (apply Nat.ltb_lt; lia).
    assert (Hspread : Qgtb (Full.spread (positions ++ [result]))
                           (Full.samples_tolerance params) = false).
    { apply Qgtb_false. eapply Qle_trans; [|exact Htol].
      cbn [map snd]. change (result :: map snd outcomes)
        with ([result] ++ map snd outcomes).
      rewrite app_assoc. apply spread_prefix. now destruct positions. }
    destruct w as [o [th ma hz fut tr]]. cbn in Hfut. subst fut.
    apply run_of_wp_eq.
    cbn [Full.sample_loop]. rewrite Hlt.
    unfold Full._probe. repeat full_step.
    cbn [map triggered app fst snd]. wp_simpl.
    apply wp_bind, wp_check_tolerance. rewrite Hspread.
    cbn [fst snd]. rewrite length_app. cbn [length].
    destruct outcomes as [|next outcomes].
    + assert (Hdone : (length positions + 1 <? Full.samples params)%nat = false)
        by (apply Nat.ltb_ge; cbn in Hlen; lia).
      rewrite Hdone. repeat full_step.
      eapply wp_of_run.
      { apply (IH fuel (positions ++ [result]) retries _ rest).
        - reflexivity.
        - rewrite length_app. cbn in *. lia.
        - cbn [map]. rewrite app_nil_r. now apply Qgtb_false.
        - cbn in *. lia. }
      cbn. now rewrite <- !app_assoc, !app_nil_r.
    + assert (Hmore : (length positions + 1 <? Full.samples params)%nat = true)
        by (apply Nat.ltb_lt; cbn in Hlen; lia).
      rewrite Hmore. repeat full_step.
      eapply wp_of_run.
      { apply (IH fuel (positions ++ [result]) retries _ rest).
        - reflexivity.
        - rewrite length_app. cbn in *. lia.
        - rewrite <- app_assoc. exact Htol.
        - cbn in *. lia. }
      destruct next as [after2 result2].
      unfold retract_move. wp_simpl.
      cbn [session_toolhead session_events map snd fst app].
      unfold retract_move.
      now rewrite <- !app_assoc.
Qed.

Lemma session_events_counts params probexy outcomes :
  count_retries (session_events params probexy outcomes) = 0%nat
  /\ count_probes (session_events params probexy outcomes) = length outcomes.
Proof.
  unfold count_retries, count_probes.
  induction outcomes as [|[after result] outcomes [IHr IHp]]; [now split|].
  cbn [session_events].
  destruct outcomes as [|next outcomes]; [now split|].
  cbn [app List.filter is_retry is_probe_call length] in *.
  split; [exact IHr | now rewrite IHp].
Qed.

Lemma session_accepts_run (w : World Full.AutoZOffsetProbe)
    (outcomes : list (Coord * Position)) (rest : list ProbeOutcome) :
  let params := Full.param_helper (self w) in
  let probexy := (pos_x (toolhead (printer w)), pos_y (toolhead (printer w))) in
  Full.hw_probe_session (Full.probe_session (self w)) = true ->
  future (printer w) = map triggered outcomes ++ rest ->
  length outcomes = Full.samples params ->
  (Full.spread (map snd outcomes) <= Full.samples_tolerance params)%Q ->
  Full.run_probe w
  = Full.reduce_samples (map snd outcomes)
      (mkWorld (self w)
         (mkPrinter
            (session_toolhead params probexy outcomes (toolhead (printer w)))
            (max_accel (printer w)) (homing_position_z (printer w)) rest
            (trace (printer w) ++ session_events params probexy outcomes))).
Proof.
  intros params probexy Hhw Hfut Hlen Htol.
  unfold Full.run_probe, bind at 1. unfold get_self at 1. cbn [fst snd].
  fold params. rewrite Hhw. unfold bind at 1. unfold ret at 1.
  unfold bind at 1. unfold get_position at 1. unfold bind at 1, get_printer at 1.
  unfold ret at 1. unfold bind at 1. fold probexy.
  rewrite (sample_loop_accepts params probexy outcomes _ [] 0%nat w rest Hfut);
    [reflexivity | cbn; lia | exact Htol |].
  unfold Full.loop_bound. fold params. rewrite Hlen. cbn. lia.
Qed.

(** X22.  A sampling session ends within its budget of probing calls: it
    makes at most [(samples_tolerance_retries + 1) * samples] of them, and
    at least [samples] when it returns; it raises the tolerance error only
    after exactly [samples_tolerance_retries] retries.  A session without a
    hardware probe session raises the state error before it makes any
    call. *)
Theorem session_probe_calls_bounded (w : World Full.AutoZOffsetProbe) :
  let params := Full.param_helper (self w) in
  let r := fst (Full.run_probe w) in
  let w' := snd (Full.run_probe w) in
  (exists evs,
      trace (printer w') = trace (printer w) ++ evs
      /\ (count_probes evs
          <= S (Full.samples_tolerance_retries params) * Full.samples params)%nat
      /\ (r = Raise SamplesTolerance ->
          count_retries evs = Full.samples_tolerance_retries params)
      /\ (r = Ok tt -> (Full.samples params <= count_probes evs)%nat))
  /\ (Full.hw_probe_session (Full.probe_session (self w)) = false ->
      r = Raise ProbeStateError /\ w' = w).
Proof.
  intros params r w'. split; [exact (session_counts_spec w)|].
  intros Hhw. subst r w'. unfold Full.run_probe, bind, get_self. cbn.
  rewrite Hhw. now destruct w.
Qed.

(** X23.  Samples that agree make a session of exactly [samples] probing
    calls.  When the next [samples] calls trigger and their results lie
    within [samples_tolerance] of each other, the session makes these calls
    and no other, retracts between two of them to [sample_retract_dist]
    above where the call left the toolhead, at the XY the session started
    at, never retries, and reduces exactly these results. *)
Theorem session_of_close_samples (w : World Full.AutoZOffsetProbe)
    (outcomes : list (Coord * Position)) (rest : list ProbeOutcome) :
  let params := Full.param_helper (self w) in
  let probexy := (pos_x (toolhead (printer w)), pos_y (toolhead (printer w))) in
  let evs := session_events params probexy outcomes in
  Full.hw_probe_session (Full.probe_session (self w)) = true ->
  future (printer w) = map triggered outcomes ++ rest ->
  length outcomes = Full.samples params ->
  (Full.spread (map snd outcomes) <= Full.samples_tolerance params)%Q ->
  Full.run_probe w
  = Full.reduce_samples (map snd outcomes)
      (mkWorld (self w)
         (mkPrinter
            (session_toolhead params probexy outcomes (toolhead (printer w)))
            (max_accel (printer w)) (homing_position_z (printer w)) rest
            (trace (printer w) ++ evs)))
  /\ count_probes evs = Full.samples params
  /\ count_retries evs = 0%nat.
Proof.
  intros params probexy evs Hhw Hfut Hlen Htol.
  split; [now apply session_accepts_run|].
  destruct (session_events_counts params probexy outcomes) as [Hr Hp].
  subst evs. now rewrite Hp, Hr.
Qed.

Lemma session_of_close_samples_witness :
  Full.run_probe session_close
  = Full.reduce_samples (map snd close_outcomes)
      (mkWorld (self session_close)
         (mkPrinter (mkCoord 100 100 2.003 0) 3000 0.05 []
            ([] ++ session_events (Full.param_helper (self session_close))
                                  (0, 0)%Q close_outcomes)))
  /\ count_probes (session_events (Full.param_helper (self session_close))
                                  (0, 0)%Q close_outcomes) = 4%nat
  /\ count_retries (session_events (Full.param_helper (self session_close))
                                   (0, 0)%Q close_outcomes) = 0%nat.
Proof.
  apply (session_of_close_samples session_close close_outcomes []).
  - reflexivity.
  - vm_compute. reflexivity.
  - reflexivity.
  - apply Qle_bool_iff. vm_compute. reflexivity.
Defined.

(** X24.  The result of a session under the mean policy, in closed form: for
    three accepted samples or more it is the sum of their z values less the
    least and the greatest, divided by the count less two, and lowered by
    the z offset of the main probe. *)
Theorem trimmed_mean_closed_form (o : Full.AutoZOffsetProbe)
    (accepted : list Position) :
  (3 <= length accepted)%nat ->
  exists epos,
    calc_probe_z_average Full.sort_by_z (trimmed_samples o accepted) Average
    = Ok epos
    /\ (_get_pos_z epos
        == (Qsum (map _get_pos_z accepted)
            - Full.list_min (map _get_pos_z accepted)
            - Full.list_max (map _get_pos_z accepted))
           / inject_Z (Z.of_nat (length accepted - 2))
           - Full.probe_z_offset (Full.probe_session o))%Q.
Proof. apply trimmed_mean_value. Qed.

Lemma trimmed_mean_closed_form_witness :
  exists epos,
    calc_probe_z_average Full.sort_by_z (trimmed_samples full_example trim_input)
                         Average
    = Ok epos
    /\ (_get_pos_z epos
        == (Qsum (map _get_pos_z trim_input)
            - Full.list_min (map _get_pos_z trim_input)
            - Full.list_max (map _get_pos_z trim_input))
           / inject_Z (Z.of_nat (length trim_input - 2))
           - Full.probe_z_offset (Full.probe_session full_example))%Q.
Proof.
  apply (trimmed_mean_closed_form full_example trim_input). cbn. lia.
Defined.
